(** * Tool-provider registry and streaming tool-call resolution

    A shallow embedding of the MCP client manager
    ([src/LLMProviders/mcpClient.ts]), of the tools manager built on it
    ([MCPToolsManager]) and of the tool-call part of the chain runner
    ([executeMCPTools], [streamMultimodalResponse]), followed by the
    properties of the written specification that concern them.

    Conventions of the embedding.
    - A JavaScript string is the list of its UTF-16 code units.
    - A JavaScript [Map] is an insertion-ordered association list
      (module [JSMap]); a [Set] of strings is a [gset].
    - An [async] method that talks to a provider takes the outcome of
      each remote request it awaits as an argument ([result]: the
      promise resolved with a value or rejected with an error), and
      returns the new state of the object together with its own outcome.
    - Calls to the logger are left out: the logger is an external sink
      and no state of these classes depends on it. *)

From Stdlib Require Import ZArith NArith Bool List Lia Ascii String.
From stdpp Require Import base decidable option list countable gmap strings pretty.

Set Warnings "-register-all".

Open Scope N_scope.
Open Scope list_scope.

(** ** JavaScript strings *)

Definition jschar := N.
Definition jsstring := list N.

(** The code units of an ASCII literal. *)
Fixpoint u16 (s : string) : jsstring :=
  match s with
  | EmptyString => []
  | String a s' => N_of_ascii a :: u16 s'
  end.

Definition DASH : jschar := 45.
Definition AT : jschar := 64.
Definition DQUOTE : jschar := 34.

(** [s] between double quotes. *)
Definition quoted (s : jsstring) : jsstring := DQUOTE :: s ++ [DQUOTE].

(** Truthiness of a string: every string but the empty one. *)
Definition truthy_str (s : jsstring) : bool :=
  match s with [] => false | _ :: _ => true end.

(** Truthiness of a possibly undefined string property. *)
Definition truthy_ostr (o : option jsstring) : bool :=
  match o with Some s => truthy_str s | None => false end.

(** [o || d] for a possibly undefined string [o]. *)
Definition str_or (o : option jsstring) (d : jsstring) : jsstring :=
  match o with
  | Some s => if truthy_str s then s else d
  | None => d
  end.

(** [s.startsWith(p)], returning what follows the prefix. *)
Fixpoint strip_prefix (p s : jsstring) : option jsstring :=
  match p, s with
  | [], _ => Some s
  | a :: p', b :: s' => if N.eqb a b then strip_prefix p' s' else None
  | _ :: _, [] => None
  end.

Definition startsWith (s p : jsstring) : bool :=
  match strip_prefix p s with Some _ => true | None => false end.

(** [s.includes(sub)]. *)
Fixpoint includes (s sub : jsstring) : bool :=
  startsWith s sub ||
  match s with
  | [] => false
  | _ :: s' => includes s' sub
  end.

(** White space and line terminators, as [String.prototype.trim] strips
    them. *)
Definition is_js_whitespace (c : jschar) : bool :=
  ((9 <=? c) && (c <=? 13)) || (c =? 32) || (c =? 160) || (c =? 5760)
  || ((8192 <=? c) && (c <=? 8202)) || (c =? 8232) || (c =? 8233)
  || (c =? 8239) || (c =? 8287) || (c =? 12288) || (c =? 65279).

Fixpoint trimStart (s : jsstring) : jsstring :=
  match s with
  | [] => []
  | c :: s' => if is_js_whitespace c then trimStart s' else s
  end.

Definition trim (s : jsstring) : jsstring :=
  rev (trimStart (rev (trimStart s))).

(** Line terminators: the characters the pattern [.] does not match. *)
Definition is_line_terminator (c : jschar) : bool :=
  (c =? 10) || (c =? 13) || (c =? 8232) || (c =? 8233).

(** ** Outcomes of fallible operations *)

(** A thrown [Error] object: its optional numeric [code] and its
    [message]. *)
Record JsError := mkJsError {
  err_code : option Z;
  err_message : option jsstring
}.

(** [new Error(msg)]. *)
Definition Error (msg : jsstring) : JsError :=
  {| err_code := None; err_message := Some msg |}.

(** The outcome of a call that may throw, or of an awaited promise. *)
Inductive result (A : Type) : Type :=
| Ok (a : A)
| Throw (e : JsError).
Arguments Ok {A} a.
Arguments Throw {A} e.

Definition is_ok {A} (r : result A) : bool :=
  match r with Ok _ => true | Throw _ => false end.

(** ** JavaScript maps

    [Map] keeps its entries in insertion order: [set] on a present key
    replaces the value in place, on an absent key it appends; iteration
    ([forEach], [entries], [keys]) follows that order. *)
Module JSMap.
Section Ops.
Context {K V : Type} `{EqDecision K}.

Definition t : Type := list (K * V).

Definition empty : t := [].

Fixpoint get (k : K) (m : t) : option V :=
  match m with
  | [] => None
  | (k', v) :: m' => if decide (k = k') then Some v else get k m'
  end.

Definition has (k : K) (m : t) : bool :=
  match get k m with Some _ => true | None => false end.

Fixpoint set (k : K) (v : V) (m : t) : t :=
  match m with
  | [] => [(k, v)]
  | (k', v') :: m' =>
      if decide (k = k') then (k, v) :: m' else (k', v') :: set k v m'
  end.

Fixpoint delete (k : K) (m : t) : t :=
  match m with
  | [] => []
  | (k', v') :: m' =>
      if decide (k = k') then delete k m' else (k', v') :: delete k m'
  end.

Definition keys (m : t) : list K := map fst m.
Definition entries (m : t) : list (K * V) := m.
Definition size (m : t) : nat := length m.
End Ops.
Arguments t : clear implicits.
End JSMap.

(** ** JavaScript values

    The values that travel as tool arguments and tool results: what
    [JSON.parse] can produce. A number is kept as the exact decimal
    [m * 10^e] of its literal. An object is the list of its own
    properties in insertion order. *)
Inductive value : Type :=
| VNull
| VBool (b : bool)
| VNum (m e : Z)
| VStr (s : jsstring)
| VArr (items : list value)
| VObj (props : list (jsstring * value)).

(** Truthiness of a value: [null], [false], [0] and the empty string
    are falsy. *)
Definition truthy (v : value) : bool :=
  match v with
  | VNull => false
  | VBool b => b
  | VNum m _ => negb (m =? 0)%Z
  | VStr s => truthy_str s
  | VArr _ | VObj _ => true
  end.

(** [typeof v === "object"]. *)
Definition typeof_object (v : value) : bool :=
  match v with
  | VNull | VArr _ | VObj _ => true
  | _ => false
  end.

(** [o && typeof o === "object"] for a possibly undefined property. *)
Definition truthy_object (o : option value) : bool :=
  match o with
  | Some v => truthy v && typeof_object v
  | None => false
  end.

(** [a || b] for a possibly undefined property [a]. *)
Definition value_or (a : option value) (b : value) : value :=
  match a with
  | Some v => if truthy v then v else b
  | None => b
  end.

(** What the program takes from the platform and from modules outside
    the core: the JSON codec, [err2String] of the utilities module, the
    clock and the random source behind generated call ids. The clock and
    the random source are read through a counter: the [n]-th generated id
    uses their [n]-th reading. *)
Record Platform := {
  JSON_parse : jsstring -> result value;
  JSON_stringify : value -> jsstring;
  err2String : JsError -> jsstring;
  (** [String(Date.now())] *)
  Date_now : nat -> jsstring;
  (** [Math.random().toString(36).substr(2, 9)] *)
  Math_random : nat -> jsstring
}.

(** [String(index)] for a number or [undefined]. *)
Definition String_of_index (i : option Z) : jsstring :=
  match i with
  | Some z => u16 (pretty z)
  | None => u16 "undefined"
  end.

(** ** MCPClientManager ([src/LLMProviders/mcpClient.ts]) *)

Record MCPServerConfig := {
  cfg_name : jsstring;
  cfg_sseUrl : jsstring;
  cfg_apiKey : option jsstring;
  cfg_enabled : option bool
}.

Record MCPTool := {
  tool_name : jsstring;
  tool_description : jsstring;
  tool_inputSchema : value
}.

Record MCPResource := {
  res_uri : jsstring;
  res_name : jsstring;
  res_description : option jsstring;
  res_mimeType : option jsstring
}.

(** The transport of a server: the URL object it was opened on, held
    by its text. *)
Record SSEClientTransport := {
  transport_url : jsstring
}.

(** The session object of the SDK: the identity the client announces. *)
Record Client := {
  client_name : jsstring;
  client_version : jsstring
}.

(** A tool as a provider reports it: [description] and [inputSchema]
    may be missing. *)
Record Tool := {
  sdk_name : jsstring;
  sdk_description : option jsstring;
  sdk_inputSchema : option value
}.

(** The response to [tools/list]; [lt_tools] is [None] when the
    response has no [tools] array. *)
Record ListToolsResponse := {
  lt_tools : option (list Tool)
}.

(** The response to [resources/list]. *)
Record ListResourcesResponse := {
  lr_resources : option (list MCPResource)
}.

(** The five maps of the manager. *)
Record MCPClientManager := {
  clients : JSMap.t jsstring Client;
  transports : JSMap.t jsstring SSEClientTransport;
  servers : JSMap.t jsstring MCPServerConfig;
  tools : JSMap.t jsstring (list MCPTool);
  resources : JSMap.t jsstring (list MCPResource)
}.

Definition new_MCPClientManager : MCPClientManager :=
  {| clients := []; transports := []; servers := [];
     tools := []; resources := [] |}.

Definition set_clients (f : JSMap.t jsstring Client -> JSMap.t jsstring Client)
    (m : MCPClientManager) : MCPClientManager :=
  {| clients := f (clients m); transports := transports m;
     servers := servers m; tools := tools m; resources := resources m |}.

Definition set_transports
    (f : JSMap.t jsstring SSEClientTransport -> JSMap.t jsstring SSEClientTransport)
    (m : MCPClientManager) : MCPClientManager :=
  {| clients := clients m; transports := f (transports m);
     servers := servers m; tools := tools m; resources := resources m |}.

Definition set_servers
    (f : JSMap.t jsstring MCPServerConfig -> JSMap.t jsstring MCPServerConfig)
    (m : MCPClientManager) : MCPClientManager :=
  {| clients := clients m; transports := transports m;
     servers := f (servers m); tools := tools m; resources := resources m |}.

Definition set_tools
    (f : JSMap.t jsstring (list MCPTool) -> JSMap.t jsstring (list MCPTool))
    (m : MCPClientManager) : MCPClientManager :=
  {| clients := clients m; transports := transports m;
     servers := servers m; tools := f (tools m); resources := resources m |}.

Definition set_resources
    (f : JSMap.t jsstring (list MCPResource) -> JSMap.t jsstring (list MCPResource))
    (m : MCPClientManager) : MCPClientManager :=
  {| clients := clients m; transports := transports m;
     servers := servers m; tools := tools m; resources := f (resources m) |}.

(** [addServer]: stores the configuration under its name; does not
    connect. *)
Definition addServer (serverConfig : MCPServerConfig) (m : MCPClientManager)
    : MCPClientManager :=
  set_servers (JSMap.set (cfg_name serverConfig) serverConfig) m.

(** [isServerConnected]: [this.clients.has(serverName)]. *)
Definition isServerConnected (m : MCPClientManager) (serverName : jsstring) : bool :=
  JSMap.has serverName (clients m).

(** [getServerTools]: [this.tools.get(serverName) || []]. *)
Definition getServerTools (m : MCPClientManager) (serverName : jsstring)
    : list MCPTool :=
  match JSMap.get serverName (tools m) with Some l => l | None => [] end.

(** [getServerResources]. *)
Definition getServerResources (m : MCPClientManager) (serverName : jsstring)
    : list MCPResource :=
  match JSMap.get serverName (resources m) with Some l => l | None => [] end.

(** The test of both catch blocks:
    [error.code === -32601 || error.message?.includes("Method not found")]. *)
Definition is_method_not_found (e : JsError) : bool :=
  match err_code e with
  | Some c => (c =? -32601)%Z
  | None => false
  end
  || match err_message e with
     | Some msg => includes msg (u16 "Method not found")
     | None => false
     end.

Definition client_not_found (serverName : jsstring) : JsError :=
  Error (u16 "Client for server " ++ serverName ++ u16 " not found").

(** The mapping of [loadServerTools] over the listed tools: a missing
    or empty [description] becomes the empty string, a missing
    [inputSchema] the empty object. *)
Definition to_MCPTool (t : Tool) : MCPTool :=
  {| tool_name := sdk_name t;
     tool_description := str_or (sdk_description t) [];
     tool_inputSchema := value_or (sdk_inputSchema t) (VObj []) |}.

(** [loadServerTools]; [listTools] is the outcome of
    [await client.listTools()]. *)
Definition loadServerTools (listTools : result ListToolsResponse)
    (serverName : jsstring) (m : MCPClientManager)
    : MCPClientManager * result unit :=
  match JSMap.get serverName (clients m) with
  | None => (m, Throw (client_not_found serverName))
  | Some _ =>
      match listTools with
      | Ok response =>
          match lt_tools response with
          | Some ts =>
              (set_tools (JSMap.set serverName (map to_MCPTool ts)) m, Ok tt)
          | None => (m, Ok tt)
          end
      | Throw error =>
          if is_method_not_found error
          then (set_tools (JSMap.set serverName []) m, Ok tt)
          else (m, Ok tt)
      end
  end.

(** [loadServerResources]; [listResources] is the outcome of
    [await client.listResources()]. *)
Definition loadServerResources (listResources : result ListResourcesResponse)
    (serverName : jsstring) (m : MCPClientManager)
    : MCPClientManager * result unit :=
  match JSMap.get serverName (clients m) with
  | None => (m, Throw (client_not_found serverName))
  | Some _ =>
      match listResources with
      | Ok response =>
          match lr_resources response with
          | Some rs => (set_resources (JSMap.set serverName rs) m, Ok tt)
          | None => (m, Ok tt)
          end
      | Throw error =>
          if is_method_not_found error
          then (set_resources (JSMap.set serverName []) m, Ok tt)
          else (m, Ok tt)
      end
  end.

(** The outcomes of the remote steps of one [connectToServer] run. *)
Record ConnectRun := {
  (** [new URL(serverConfig.sseUrl)], which throws on a malformed URL *)
  run_new_URL : result unit;
  (** the text of the URL object it builds otherwise: the address as
      the parser writes it back, with its scheme and host in lower case
      and its path made explicit *)
  run_href : jsstring;
  (** [await client.connect(transport)]: the handshake *)
  run_connect : result unit;
  run_listTools : result ListToolsResponse;
  run_listResources : result ListResourcesResponse
}.

Definition server_not_found (serverName : jsstring) : JsError :=
  Error (u16 "Server " ++ serverName ++ u16 " not found").

(** [connectToServer]. The two loaders run under [Promise.allSettled],
    which waits for both and drops their rejections; they write to
    different maps, so the order of their completion does not show in
    the state. *)
Definition connectToServer (run : ConnectRun) (serverName : jsstring)
    (m : MCPClientManager) : MCPClientManager * result unit :=
  match JSMap.get serverName (servers m) with
  | None => (m, Throw (server_not_found serverName))
  | Some serverConfig =>
      match run_new_URL run with
      | Throw error => (m, Throw error)
      | Ok _ =>
          let transport := {| transport_url := run_href run |} in
          let client := {| client_name := u16 "obsidian-copilot";
                           client_version := u16 "1.0.0" |} in
          match run_connect run with
          | Throw error => (m, Throw error)
          | Ok _ =>
              let m1 := set_clients (JSMap.set serverName client) m in
              let m2 := set_transports (JSMap.set serverName transport) m1 in
              let m3 := fst (loadServerTools (run_listTools run) serverName m2) in
              let m4 :=
                fst (loadServerResources (run_listResources run) serverName m3) in
              (m4, Ok tt)
          end
      end
  end.

(** [disconnectFromServer]; [client_close] and [transport_close] are
    the outcomes of [await client.close()] and [await transport.close()].
    Each [delete] of a handle sits in the [try] block after the [close]
    it follows. The method itself never throws. *)
Definition disconnectFromServer (client_close transport_close : result unit)
    (serverName : jsstring) (m : MCPClientManager) : MCPClientManager :=
  let client := JSMap.get serverName (clients m) in
  let transport := JSMap.get serverName (transports m) in
  let m1 :=
    match client with
    | Some _ =>
        match client_close with
        | Ok _ => set_clients (JSMap.delete serverName) m
        | Throw _ => m
        end
    | None => m
    end in
  let m2 :=
    match transport with
    | Some _ =>
        match transport_close with
        | Ok _ => set_transports (JSMap.delete serverName) m1
        | Throw _ => m1
        end
    | None => m1
    end in
  set_resources (JSMap.delete serverName)
    (set_tools (JSMap.delete serverName) m2).

(** An entry of the discovery list. *)
Record ListedTool := {
  listed_name : jsstring;
  listed_description : jsstring;
  listed_serverName : jsstring
}.

(** The canonical id: [`@mcp-${serverName}-${tool.name}`]. *)
Definition canonical_id (serverName localName : jsstring) : jsstring :=
  u16 "@mcp-" ++ serverName ++ u16 "-" ++ localName.

(** [getAllMCPTools]: every tool of every server, in the order of the
    [tools] map and of each server's list. *)
Definition getAllMCPTools (m : MCPClientManager) : list ListedTool :=
  flat_map
    (fun '(serverName, ts) =>
       map (fun tool =>
              {| listed_name := canonical_id serverName (tool_name tool);
                 listed_description :=
                   u16 "[" ++ serverName ++ u16 "] " ++ tool_description tool;
                 listed_serverName := serverName |})
           ts)
    (JSMap.entries (tools m)).

(** A [tools/call] request as it goes out to a provider. *)
Record ToolRequest := {
  req_server : jsstring;
  req_name : jsstring;
  req_arguments : value
}.

(** The providers: the outcome of a [tools/call] request, which may
    depend on the requests sent before it. *)
Definition Providers := list ToolRequest -> ToolRequest -> result value.

(** [executeTool]; [sent] is the list of requests sent so far, and the
    request is added to it when it goes out. Errors of the call are
    rethrown as they are. *)
Definition executeTool (net : Providers) (m : MCPClientManager)
    (serverName toolName : jsstring) (arguments_ : value)
    (sent : list ToolRequest) : list ToolRequest * result value :=
  match JSMap.get serverName (clients m) with
  | None => (sent, Throw (client_not_found serverName))
  | Some _ =>
      let request := {| req_server := serverName; req_name := toolName;
                        req_arguments := arguments_ |} in
      (sent ++ [request], net sent request)
  end.

(** ** MCPToolsManager *)

(** The part of the settings the tools manager reads. *)
Record Settings := {
  mcpServers : option (list MCPServerConfig);
  mcpDisabledTools : option (list jsstring)
}.

(** [new Set(settings.mcpDisabledTools || [])] *)
Definition disabledTools (settings : Settings) : gset jsstring :=
  list_to_set (default [] (mcpDisabledTools settings)).

(** [getEnabledMCPTools]: the filter rebuilds an id from the server name
    and the [name] of the listed entry, which is the canonical id
    already. *)
Definition getEnabledMCPTools (settings : Settings) (m : MCPClientManager)
    : list ListedTool :=
  List.filter
    (fun tool =>
       let toolId := canonical_id (listed_serverName tool) (listed_name tool) in
       negb (bool_decide (toolId ∈ disabledTools settings)))
    (getAllMCPTools m).

(** The pattern [.]: any code unit but a line terminator. *)
Definition dot (c : jschar) : bool := negb (is_line_terminator c).

(** [(.+)$]: the rest of the input, not empty and free of line
    terminators. *)
Definition dot_plus_end (s : jsstring) : bool :=
  truthy_str s && forallb dot s.

(** [(.+?)-(.+)$]: the lazy group takes one character, then as few more
    as possible: it is extended by one character each time what follows
    it is not a dash followed by a match of [(.+)$]. *)
Fixpoint lazy_group (s : jsstring) : option (jsstring * jsstring) :=
  match s with
  | [] => None
  | c :: rest =>
      if dot c then
        match rest with
        | d :: tail =>
            if (d =? DASH) && dot_plus_end tail then Some ([c], tail)
            else
              match lazy_group rest with
              | Some (g, t) => Some (c :: g, t)
              | None => None
              end
        | [] => None
        end
      else None
  end.

(** [toolName.match(/^@mcp-(.+?)-(.+)$/)]: the two groups, or [None]
    for [null]. *)
Definition match_tool_name (toolName : jsstring) : option (jsstring * jsstring) :=
  match strip_prefix (u16 "@mcp-") toolName with
  | Some rest => lazy_group rest
  | None => None
  end.

Definition tool_disabled (toolName : jsstring) : JsError :=
  Error (u16 "MCP tool " ++ toolName ++ u16 " is disabled").

Definition invalid_tool_name (toolName : jsstring) : JsError :=
  Error (u16 "Invalid MCP tool name format: " ++ toolName).

Definition server_not_connected (serverName : jsstring) : JsError :=
  Error (u16 "MCP server " ++ serverName ++ u16 " is not connected").

(** [executeMCPTool]; the [catch] block rethrows. *)
Definition executeMCPTool (settings : Settings) (net : Providers)
    (m : MCPClientManager) (toolName : jsstring) (args : value)
    (sent : list ToolRequest) : list ToolRequest * result value :=
  if bool_decide (toolName ∈ disabledTools settings)
  then (sent, Throw (tool_disabled toolName))
  else
    match match_tool_name toolName with
    | None => (sent, Throw (invalid_tool_name toolName))
    | Some (serverName, actualToolName) =>
        if negb (isServerConnected m serverName)
        then (sent, Throw (server_not_connected serverName))
        else executeTool net m serverName actualToolName args sent
    end.

(** [isMCPTool]. *)
Definition isMCPTool (toolName : jsstring) : bool :=
  startsWith toolName (u16 "@mcp-").

(** ** The chain runner: streamed chunks *)

(** A block of an array-valued [content]. *)
Record ContentItem := {
  item_type : jsstring;
  item_text : option jsstring
}.

(** The [content] of a chunk or of a message. *)
Inductive Content : Type :=
| ContentAbsent
| ContentString (s : jsstring)
| ContentArray (items : list ContentItem).

(** A partial tool call: a fragment of the call at position [index]. *)
Record ToolCallChunk := {
  tcc_index : option Z;
  tcc_name : option jsstring;
  tcc_args : option jsstring;
  tcc_id : option jsstring
}.

(** A complete tool call as a provider emits it. *)
Record ToolCall := {
  tc_id : option jsstring;
  tc_name : option jsstring;
  tc_args : option value;
  tc_input : option value
}.

(** One event of the generation stream. *)
Record Chunk := {
  content : Content;
  tool_call_chunks : option (list ToolCallChunk);
  tool_calls : option (list ToolCall)
}.

(** [ThinkBlockStreamer]: the text so far, and the successive arguments
    of the [updateCurrentAiMessage] callback. *)
Record ThinkBlockStreamer := {
  fullResponse : jsstring;
  shown : list jsstring
}.

Definition text_of_item (item : ContentItem) : jsstring :=
  if bool_decide (item_type item = u16 "text") && truthy_ostr (item_text item)
  then default [] (item_text item)
  else [].

(** The text [processChunk] appends for a chunk. *)
Definition chunk_text (chunk : Chunk) : jsstring :=
  match content chunk with
  | ContentAbsent => []
  | ContentString s => s
  | ContentArray items => concat (map text_of_item items)
  end.

(** [processChunk]. *)
Definition processChunk (streamer : ThinkBlockStreamer) (chunk : Chunk)
    : ThinkBlockStreamer :=
  let text := fullResponse streamer ++ chunk_text chunk in
  {| fullResponse := text; shown := shown streamer ++ [text] |}.

(** An entry of [toolCallAccumulator]. *)
Record Accumulator := {
  acc_name : jsstring;
  acc_args : jsstring;
  acc_id : option jsstring
}.

(** An entry of [toolCallsBuffer]: a call ready to be executed.
    [call_input] is the [input] property a complete call may carry
    through the spread. *)
Record BufferedCall := {
  call_id : jsstring;
  call_name : jsstring;
  call_args : value;
  call_input : option value
}.

(** The body of the loop over [chunk.tool_call_chunks]: the entry of the
    index is created on its first fragment and updated in place. *)
Definition accumulate (acc : JSMap.t (option Z) Accumulator)
    (toolChunk : ToolCallChunk) : JSMap.t (option Z) Accumulator :=
  let index := tcc_index toolChunk in
  let acc1 :=
    if JSMap.has index acc then acc
    else JSMap.set index
           {| acc_name := []; acc_args := []; acc_id := tcc_id toolChunk |} acc in
  match JSMap.get index acc1 with
  | None => acc1
  | Some accumulator =>
      let name1 :=
        if truthy_ostr (tcc_name toolChunk)
        then default [] (tcc_name toolChunk) else acc_name accumulator in
      let args1 :=
        if truthy_ostr (tcc_args toolChunk)
        then acc_args accumulator ++ default [] (tcc_args toolChunk)
        else acc_args accumulator in
      let id1 :=
        if truthy_ostr (tcc_id toolChunk)
        then tcc_id toolChunk else acc_id accumulator in
      JSMap.set index
        {| acc_name := name1; acc_args := args1; acc_id := id1 |} acc1
  end.

(** The argument text and the name accumulated for an index so far;
    both are empty for an index without entry. *)
Definition accumulated_args (acc : JSMap.t (option Z) Accumulator)
    (index : option Z) : jsstring :=
  match JSMap.get index acc with
  | Some accumulator => acc_args accumulator
  | None => []
  end.

Definition accumulated_name (acc : JSMap.t (option Z) Accumulator)
    (index : option Z) : jsstring :=
  match JSMap.get index acc with
  | Some accumulator => acc_name accumulator
  | None => []
  end.

(** The state of the first streaming loop. [ids] counts the call ids
    generated so far. *)
Record LoopState := {
  streamer : ThinkBlockStreamer;
  toolCallsBuffer : list BufferedCall;
  hasToolCalls : bool;
  toolCallAccumulator : JSMap.t (option Z) Accumulator;
  ids : nat
}.

Definition initial_loop_state : LoopState :=
  {| streamer := {| fullResponse := []; shown := [] |};
     toolCallsBuffer := [];
     hasToolCalls := false;
     toolCallAccumulator := [];
     ids := 0%nat |}.

(** The filter on complete calls: [tc.name] is truthy and
    [tc.name.trim()] is not the empty string. *)
Definition valid_tool_call (tc : ToolCall) : bool :=
  match tc_name tc with
  | Some name => truthy_str name && truthy_str (trim name)
  | None => false
  end.

(** The fragments of a stream, in their order of arrival. *)
Definition fragments_of (chatStream : list Chunk) : list ToolCallChunk :=
  flat_map (fun chunk => default [] (tool_call_chunks chunk)) chatStream.

(** The argument substrings the fragments [toolChunks] carry for
    [index], in their order. *)
Definition args_for (index : option Z) (toolChunks : list ToolCallChunk)
    : list jsstring :=
  map (fun toolChunk => default [] (tcc_args toolChunk))
    (List.filter (fun toolChunk => bool_decide (tcc_index toolChunk = index))
       toolChunks).

(** [call] is the buffered form of the complete call [toolCall]: its
    name, its arguments ([args || input || {}]) and, when it has one,
    its id. *)
Definition accepted_as (toolCall : ToolCall) (call : BufferedCall) : Prop :=
  Some (call_name call) = tc_name toolCall
  /\ call_args call
     = value_or (tc_args toolCall) (value_or (tc_input toolCall) (VObj []))
  /\ call_input call = tc_input toolCall
  /\ (truthy_ostr (tc_id toolCall) = true -> Some (call_id call) = tc_id toolCall).

(** A buffered call with a non-empty id and a non-empty name. *)
Definition well_formed_call (call : BufferedCall) : Prop :=
  truthy_str (call_id call) = true /\ truthy_str (call_name call) = true.

(** [call] is rebuilt from the accumulator entry [accumulator]: its
    name is the accumulated name and its arguments are the accumulated
    text, parsed. *)
Definition rebuilt_from (P : Platform) (accumulator : Accumulator)
    (call : BufferedCall) : Prop :=
  call_name call = acc_name accumulator
  /\ JSON_parse P (acc_args accumulator) = Ok (call_args call)
  /\ call_input call = None.

Section Runner.
Variable P : Platform.

(** [`tool_call_${Date.now()}_${Math.random().toString(36).substr(2, 9)}`] *)
Definition random_call_id (n : nat) : jsstring :=
  u16 "tool_call_" ++ Date_now P n ++ u16 "_" ++ Math_random P n.

(** [`tool_call_${Date.now()}_${index}`] *)
Definition indexed_call_id (n : nat) (index : option Z) : jsstring :=
  u16 "tool_call_" ++ Date_now P n ++ u16 "_" ++ String_of_index index.

(** The push of one complete call onto the buffer. *)
Definition push_tool_call (st : list BufferedCall * nat) (toolCall : ToolCall)
    : list BufferedCall * nat :=
  let '(buffer, n) := st in
  let '(id, n') :=
    if truthy_ostr (tc_id toolCall) then (default [] (tc_id toolCall), n)
    else (random_call_id n, S n) in
  (buffer ++ [{| call_id := id;
                 call_name := default [] (tc_name toolCall);
                 call_args :=
                   value_or (tc_args toolCall)
                     (value_or (tc_input toolCall) (VObj []));
                 call_input := tc_input toolCall |}],
   n').

(** The first block of the loop body: fragments are accumulated when
    [tool_call_chunks] is a non-empty array. *)
Definition handle_tool_call_chunks (chunk : Chunk) (st : LoopState) : LoopState :=
  match tool_call_chunks chunk with
  | Some ((_ :: _) as toolChunks) =>
      {| streamer := streamer st;
         toolCallsBuffer := toolCallsBuffer st;
         hasToolCalls := true;
         toolCallAccumulator :=
           fold_left accumulate toolChunks (toolCallAccumulator st);
         ids := ids st |}
  | _ => st
  end.

(** The second block: complete calls are taken only from a chunk
    without a [tool_call_chunks] property, and only those with a
    non-blank name. *)
Definition handle_tool_calls (chunk : Chunk) (st : LoopState) : LoopState :=
  match tool_call_chunks chunk, tool_calls chunk with
  | None, Some ((_ :: _) as calls) =>
      match List.filter valid_tool_call calls with
      | [] => st
      | (_ :: _) as validToolCalls =>
          let '(buffer, n) :=
            fold_left push_tool_call validToolCalls
              (toolCallsBuffer st, ids st) in
          {| streamer := streamer st;
             toolCallsBuffer := buffer;
             hasToolCalls := true;
             toolCallAccumulator := toolCallAccumulator st;
             ids := n |}
      end
  | _, _ => st
  end.

(** The body of the first loop, after the cancellation check. *)
Definition process_chunk (st : LoopState) (chunk : Chunk) : LoopState :=
  let st2 := handle_tool_calls chunk (handle_tool_call_chunks chunk st) in
  {| streamer := processChunk (streamer st2) chunk;
     toolCallsBuffer := toolCallsBuffer st2;
     hasToolCalls := hasToolCalls st2;
     toolCallAccumulator := toolCallAccumulator st2;
     ids := ids st2 |}.

(** [for await (const chunk of chatStream) { if (aborted) break; ... }]:
    [aborted n] is the value of [abortController.signal.aborted] at its
    [n]-th reading, [checks] the number of readings made so far. *)
Fixpoint stream_loop (aborted : nat -> bool) (checks : nat)
    (chatStream : list Chunk) (st : LoopState) : LoopState * nat :=
  match chatStream with
  | [] => (st, checks)
  | chunk :: rest =>
      if aborted checks then (st, S checks)
      else stream_loop aborted (S checks) rest (process_chunk st chunk)
  end.

(** One turn of the loop over [toolCallAccumulator.entries()]. *)
Definition parse_accumulated (st : list BufferedCall * nat)
    (entry : option Z * Accumulator) : list BufferedCall * nat :=
  let '(buffer, n) := st in
  let '(index, accumulator) := entry in
  if truthy_str (acc_name accumulator) && truthy_str (acc_args accumulator)
  then
    match JSON_parse P (acc_args accumulator) with
    | Ok parsedArgs =>
        let '(id, n') :=
          if truthy_ostr (acc_id accumulator)
          then (default [] (acc_id accumulator), n)
          else (indexed_call_id n index, S n) in
        (buffer ++ [{| call_id := id;
                       call_name := acc_name accumulator;
                       call_args := parsedArgs;
                       call_input := None |}],
         n')
    | Throw _ => (buffer, n)
    end
  else (buffer, n).

(** After the loop: when fragments were accumulated, the buffer is
    emptied and refilled from the accumulator. *)
Definition resolve_tool_calls (st : LoopState) : list BufferedCall * nat :=
  if hasToolCalls st && (0 <? JSMap.size (toolCallAccumulator st))%nat
  then fold_left parse_accumulated
         (JSMap.entries (toolCallAccumulator st)) ([], ids st)
  else (toolCallsBuffer st, ids st).
End Runner.

(** ** The chain runner: execution and continuation *)

(** An entry of the result list of [executeMCPTools]. *)
Record ToolResult := {
  tool_call_id : jsstring;
  result_tool_name : jsstring;
  output : value
}.

(** A message of the working conversation. *)
Record Message := {
  msg_role : jsstring;
  msg_content : Content;
  msg_tool_calls : option (list BufferedCall);
  msg_tool_call_id : option jsstring;
  msg_name : option jsstring
}.

(** [{ error: text }] *)
Definition error_payload (text : jsstring) : value :=
  VObj [(u16 "error", VStr text)].

(** [{ ...toolCall }]: the call as an object of its own properties. *)
Definition call_object (toolCall : BufferedCall) : value :=
  VObj ([(u16 "id", VStr (call_id toolCall));
         (u16 "name", VStr (call_name toolCall));
         (u16 "args", call_args toolCall)]
        ++ match call_input toolCall with
           | Some v => [(u16 "input", v)]
           | None => []
           end).

(** The arguments handed to the tool: [args] when it is an object,
    else [input] when it is one, else the whole call. *)
Definition extract_tool_args (toolCall : BufferedCall) : value :=
  if truthy_object (Some (call_args toolCall)) then call_args toolCall
  else if truthy_object (call_input toolCall)
       then default VNull (call_input toolCall)
       else call_object toolCall.

(** [{ role: "tool", content: JSON.stringify(result.output),
       tool_call_id, name }] *)
Definition toolResultMessage (P : Platform) (r : ToolResult) : Message :=
  {| msg_role := u16 "tool";
     msg_content := ContentString (JSON_stringify P (output r));
     msg_tool_call_id := Some (tool_call_id r);
     msg_name := Some (result_tool_name r);
     msg_tool_calls := None |}.

(** What one run of [streamMultimodalResponse] leaves behind. *)
Record StreamOutcome := {
  (** the returned text *)
  out_fullResponse : jsstring;
  (** the calls resolved from the first pass *)
  out_toolCalls : list BufferedCall;
  (** the results of their execution *)
  out_toolResults : list ToolResult;
  (** the working conversation at the end *)
  out_messages : list Message;
  (** the [lastToolResults] field, when it was assigned *)
  out_lastToolResults : option (list Message);
  (** the requests sent to providers *)
  out_sent : list ToolRequest;
  (** the successive texts shown through [updateCurrentAiMessage] *)
  out_shown : list jsstring
}.

Section Orchestrator.
Variable P : Platform.
Variable settings : Settings.
Variable net : Providers.
Variable m : MCPClientManager.

(** The body of the loop of [executeMCPTools] for one call: its result
    entry, with the id counter and the requests sent. *)
Definition execute_one (mentionedMCPTools : list jsstring)
    (toolCall : BufferedCall) (n : nat) (sent : list ToolRequest)
    : ToolResult * nat * list ToolRequest :=
  let '(toolCallId, n') :=
    if truthy_str (call_id toolCall) then (call_id toolCall, n)
    else (random_call_id P n, S n) in
  let toolName := str_or (Some (call_name toolCall)) (u16 "unknown_tool") in
  let toolArgs := extract_tool_args toolCall in
  match List.find (fun name => includes name toolName) mentionedMCPTools with
  | Some mcpToolName =>
      match executeMCPTool settings net m mcpToolName toolArgs sent with
      | (sent', Ok result) =>
          ({| tool_call_id := toolCallId;
              result_tool_name := toolName;
              output := result |}, n', sent')
      | (sent', Throw error) =>
          ({| tool_call_id := str_or (Some (call_id toolCall)) (u16 "unknown");
              result_tool_name :=
                str_or (Some (call_name toolCall)) (u16 "unknown");
              output := error_payload (err2String P error) |}, n', sent')
      end
  | None =>
      ({| tool_call_id := toolCallId;
          result_tool_name := toolName;
          output := error_payload (u16 "Tool not found") |}, n', sent)
  end.

(** [executeMCPTools]: the calls are executed one after the other,
    each in its own [try] block. *)
Fixpoint executeMCPTools (toolCalls : list BufferedCall)
    (mentionedMCPTools : list jsstring) (n : nat) (sent : list ToolRequest)
    : list ToolResult * nat * list ToolRequest :=
  match toolCalls with
  | [] => ([], n, sent)
  | toolCall :: rest =>
      let '(r, n1, sent1) := execute_one mentionedMCPTools toolCall n sent in
      let '(rs, n2, sent2) := executeMCPTools rest mentionedMCPTools n1 sent1 in
      (r :: rs, n2, sent2)
  end.

(** The follow-up loop: only text is processed. *)
Fixpoint followUp_loop (aborted : nat -> bool) (checks : nat)
    (followUpStream : list Chunk) (streamer : ThinkBlockStreamer)
    : ThinkBlockStreamer :=
  match followUpStream with
  | [] => streamer
  | followUpChunk :: rest =>
      if aborted checks then streamer
      else followUp_loop aborted (S checks) rest
             (processChunk streamer followUpChunk)
  end.

(** [streamMultimodalResponse], from the point where the request is
    final: [messages] is the conversation built for the request,
    [mentionedMCPTools] the result of [detectMCPTools] on the original
    user message, [chatStream] the chunks the model streams in answer
    to [messages], and [followUpStream] those it streams in answer to
    the conversation extended with the tool results. *)
Definition streamMultimodalResponse (aborted : nat -> bool)
    (mentionedMCPTools : list jsstring) (messages : list Message)
    (chatStream : list Chunk) (followUpStream : list Message -> list Chunk)
    : StreamOutcome :=
  let '(st, checks) :=
    stream_loop P aborted 0 chatStream initial_loop_state in
  let '(buffer, n) := resolve_tool_calls P st in
  let fullResponse1 := fullResponse (streamer st) in
  if hasToolCalls st && (0 <? length buffer)%nat then
    let '(toolResults, _, sent) :=
      executeMCPTools buffer mentionedMCPTools n [] in
    let assistantWithToolCallsMessage :=
      {| msg_role := u16 "assistant";
         msg_content := ContentString fullResponse1;
         msg_tool_calls := Some buffer;
         msg_tool_call_id := None;
         msg_name := None |} in
    let toolResultMessages := map (toolResultMessage P) toolResults in
    let messages' :=
      messages ++ [assistantWithToolCallsMessage] ++ toolResultMessages in
    let streamer2 :=
      followUp_loop aborted checks (followUpStream messages')
        {| fullResponse := fullResponse1; shown := shown (streamer st) |} in
    {| out_fullResponse := fullResponse streamer2;
       out_toolCalls := buffer;
       out_toolResults := toolResults;
       out_messages := messages';
       out_lastToolResults := Some toolResultMessages;
       out_sent := sent;
       out_shown := shown streamer2 |}
  else
    {| out_fullResponse := fullResponse1;
       out_toolCalls := buffer;
       out_toolResults := [];
       out_messages := messages;
       out_lastToolResults := None;
       out_sent := [];
       out_shown := shown (streamer st) |}.
End Orchestrator.

(** ** A reference platform

    An executable [Platform] to run the program on concrete streams. The
    JSON reader follows the JSON grammar (white space, literals, numbers,
    strings with their escapes, arrays, objects; a repeated key keeps its
    last value). The properties proved for every platform do not depend
    on it. *)
Module JSON.

Definition is_ws (c : jschar) : bool :=
  (c =? 32) || (c =? 9) || (c =? 10) || (c =? 13).

Fixpoint skip_ws (s : jsstring) : jsstring :=
  match s with
  | c :: s' => if is_ws c then skip_ws s' else s
  | [] => []
  end.

Definition is_digit (c : jschar) : bool := (48 <=? c) && (c <=? 57).

(** Reads digits: the number read so far, how many digits, the rest. *)
Fixpoint digits (acc : Z) (count : nat) (s : jsstring) : Z * nat * jsstring :=
  match s with
  | c :: s' =>
      if is_digit c then digits (acc * 10 + Z.of_N (c - 48)) (S count) s'
      else (acc, count, s)
  | [] => (acc, count, s)
  end.

(** A number literal: an optional minus sign, an integer part without
    leading zero, an optional fraction, an optional exponent. *)
Definition number (s : jsstring) : option (value * jsstring) :=
  let '(negative, s1) :=
    match s with
    | c :: r => if c =? 45 then (true, r) else (false, s)
    | [] => (false, s)
    end in
  let int_part :=
    match s1 with
    | c :: r =>
        if c =? 48 then Some (0%Z, r)
        else if is_digit c then
               let '(i, _, r') := digits 0 0 s1 in Some (i, r')
             else None
    | [] => None
    end in
  match int_part with
  | None => None
  | Some (i, r) =>
      let frac_part :=
        match r with
        | c :: r1 =>
            if c =? 46 then
              let '(f, count, r2) := digits i 0 r1 in
              match count with
              | O => None
              | S _ => Some (f, count, r2)
              end
            else Some (i, O, r)
        | [] => Some (i, O, r)
        end in
      match frac_part with
      | None => None
      | Some (mant, scale, r2) =>
          let signed := if negative then (- mant)%Z else mant in
          match r2 with
          | c :: r3 =>
              if (c =? 101) || (c =? 69) then
                let '(eneg, r4) :=
                  match r3 with
                  | d :: r' =>
                      if d =? 45 then (true, r')
                      else if d =? 43 then (false, r') else (false, r3)
                  | [] => (false, r3)
                  end in
                let '(e, count, r5) := digits 0 0 r4 in
                match count with
                | O => None
                | S _ =>
                    Some (VNum signed
                            ((if eneg then - e else e) - Z.of_nat scale)%Z,
                          r5)
                end
              else Some (VNum signed (- Z.of_nat scale)%Z, r2)
          | [] => Some (VNum signed (- Z.of_nat scale)%Z, r2)
          end
      end
  end.

Definition hex_digit (c : jschar) : option N :=
  if is_digit c then Some (c - 48)
  else if (97 <=? c) && (c <=? 102) then Some (c - 87)
  else if (65 <=? c) && (c <=? 70) then Some (c - 55)
  else None.

Definition hex4 (a b c d : jschar) : option jschar :=
  match hex_digit a, hex_digit b, hex_digit c, hex_digit d with
  | Some x, Some y, Some z, Some w => Some (((x * 16 + y) * 16 + z) * 16 + w)
  | _, _, _, _ => None
  end.

(** The escape [\e] for a single-character escape. *)
Definition simple_escape (e : jschar) : option jschar :=
  if (e =? 34) || (e =? 92) || (e =? 47) then Some e
  else if e =? 98 then Some 8
  else if e =? 102 then Some 12
  else if e =? 110 then Some 10
  else if e =? 114 then Some 13
  else if e =? 116 then Some 9
  else None.

Definition cons_char (c : jschar) (r : option (jsstring * jsstring))
    : option (jsstring * jsstring) :=
  match r with
  | Some (str, rest) => Some (c :: str, rest)
  | None => None
  end.

(** The characters of a string after its opening quote, up to the
    closing one. *)
Fixpoint string_chars (s : jsstring) : option (jsstring * jsstring) :=
  match s with
  | [] => None
  | c :: r =>
      if c =? 34 then Some ([], r)
      else if c =? 92 then
        match r with
        | e :: r1 =>
            if e =? 117 then
              match r1 with
              | a :: b :: c' :: d :: r2 =>
                  match hex4 a b c' d with
                  | Some u => cons_char u (string_chars r2)
                  | None => None
                  end
              | _ => None
              end
            else
              match simple_escape e with
              | Some u => cons_char u (string_chars r1)
              | None => None
              end
        | [] => None
        end
      else if c <? 32 then None
      else cons_char c (string_chars r)
  end.

(** Setting a property of an object: in place when it exists, at the
    end otherwise. *)
Definition define_property (props : list (jsstring * value))
    (kv : jsstring * value) : list (jsstring * value) :=
  JSMap.set (fst kv) (snd kv) props.

Fixpoint parse_value (fuel : nat) (s : jsstring) {struct fuel}
    : option (value * jsstring) :=
  match fuel with
  | O => None
  | S fuel' =>
      match skip_ws s with
      | [] => None
      | c :: r =>
          if c =? 123 then
            match skip_ws r with
            | 125 :: r' => Some (VObj [], r')
            | _ =>
                match parse_members fuel' r with
                | Some (ps, r') =>
                    Some (VObj (fold_left define_property ps []), r')
                | None => None
                end
            end
          else if c =? 91 then
            match skip_ws r with
            | 93 :: r' => Some (VArr [], r')
            | _ =>
                match parse_elements fuel' r with
                | Some (vs, r') => Some (VArr vs, r')
                | None => None
                end
            end
          else if c =? 34 then
            match string_chars r with
            | Some (str, r') => Some (VStr str, r')
            | None => None
            end
          else
            match strip_prefix (u16 "null") (c :: r),
                  strip_prefix (u16 "true") (c :: r),
                  strip_prefix (u16 "false") (c :: r) with
            | Some r', _, _ => Some (VNull, r')
            | _, Some r', _ => Some (VBool true, r')
            | _, _, Some r' => Some (VBool false, r')
            | None, None, None => number (c :: r)
            end
      end
  end
with parse_elements (fuel : nat) (s : jsstring) {struct fuel}
    : option (list value * jsstring) :=
  match fuel with
  | O => None
  | S fuel' =>
      match parse_value fuel' s with
      | Some (v, r) =>
          match skip_ws r with
          | 44 :: r' =>
              match parse_elements fuel' r' with
              | Some (vs, r'') => Some (v :: vs, r'')
              | None => None
              end
          | 93 :: r' => Some ([v], r')
          | _ => None
          end
      | None => None
      end
  end
with parse_members (fuel : nat) (s : jsstring) {struct fuel}
    : option (list (jsstring * value) * jsstring) :=
  match fuel with
  | O => None
  | S fuel' =>
      match skip_ws s with
      | 34 :: r =>
          match string_chars r with
          | Some (key, r1) =>
              match skip_ws r1 with
              | 58 :: r2 =>
                  match parse_value fuel' r2 with
                  | Some (v, r3) =>
                      match skip_ws r3 with
                      | 44 :: r4 =>
                          match parse_members fuel' r4 with
                          | Some (ps, r5) => Some ((key, v) :: ps, r5)
                          | None => None
                          end
                      | 125 :: r4 => Some ([(key, v)], r4)
                      | _ => None
                      end
                  | None => None
                  end
              | _ => None
              end
          | None => None
          end
      | _ => None
      end
  end.

Definition SyntaxError : JsError :=
  {| err_code := None; err_message := Some (u16 "Unexpected token in JSON") |}.

(** [JSON.parse]: one value, surrounded by white space only. *)
Definition parse (text : jsstring) : result value :=
  match parse_value (2 * length text + 2) text with
  | Some (v, r) =>
      match skip_ws r with
      | [] => Ok v
      | _ :: _ => Throw SyntaxError
      end
  | None => Throw SyntaxError
  end.
Definition hex_char (n : N) : jschar :=
  if n <? 10 then 48 + n else 87 + n.

(** A character inside a string literal. *)
Definition escape_char (c : jschar) : jsstring :=
  if (c =? 34) || (c =? 92) then [92; c]
  else if c =? 8 then u16 "\b"
  else if c =? 12 then u16 "\f"
  else if c =? 10 then u16 "\n"
  else if c =? 13 then u16 "\r"
  else if c =? 9 then u16 "\t"
  else if c <? 32 then u16 "\u00" ++ [hex_char (c / 16); hex_char (c mod 16)]
  else [c].

Definition string_literal (s : jsstring) : jsstring :=
  quoted (concat (map escape_char s)).

Fixpoint join (sep : jsstring) (parts : list jsstring) : jsstring :=
  match parts with
  | [] => []
  | [p] => p
  | p :: rest => p ++ sep ++ join sep rest
  end.

(** A number literal for [m * 10^e]: the integer when [0 <= e], else
    the mantissa followed by the exponent. *)
Definition number_literal (m e : Z) : jsstring :=
  if (0 <=? e)%Z then u16 (pretty (m * 10 ^ e)%Z)
  else u16 (pretty m) ++ u16 "e" ++ u16 (pretty e).

(** [JSON.stringify] of a value without indentation. *)
Fixpoint stringify (v : value) : jsstring :=
  match v with
  | VNull => u16 "null"
  | VBool true => u16 "true"
  | VBool false => u16 "false"
  | VNum m e => number_literal m e
  | VStr s => string_literal s
  | VArr items => u16 "[" ++ join (u16 ",") (map stringify items) ++ u16 "]"
  | VObj props =>
      u16 "{"
      ++ join (u16 ",")
           (map (fun kv => string_literal (fst kv) ++ u16 ":" ++ stringify (snd kv))
                props)
      ++ u16 "}"
  end.
End JSON.

(** The reference platform: the JSON codec above; the message of an
    error for [err2String]; a clock that advances by one at each reading
    and a counter in place of the random source. *)
Definition reference_platform : Platform :=
  {| JSON_parse := JSON.parse;
     JSON_stringify := JSON.stringify;
     err2String := fun e => default [] (err_message e);
     Date_now := fun n => u16 (pretty (1700000000000 + N.of_nat n));
     Math_random := fun n => u16 (pretty (N.of_nat n)) |}.

(** ** Scenarios

    Concrete servers, catalogs, settings and streams on which the
    program is run below. *)
Module Scenario.

Definition alpha : jsstring := u16 "alpha".

Definition alpha_config : MCPServerConfig :=
  {| cfg_name := alpha;
     cfg_sseUrl := u16 "http://localhost:3000/sse";
     cfg_apiKey := None;
     cfg_enabled := Some true |}.

Definition provider_tool (name : jsstring) : Tool :=
  {| sdk_name := name; sdk_description := None; sdk_inputSchema := None |}.

(** A run of [connectToServer] in which every step succeeds and the
    provider lists the tools [names] and no resource. *)
Definition good_run (names : list jsstring) : ConnectRun :=
  {| run_new_URL := Ok tt;
     run_href := u16 "http://localhost:3000/sse";
     run_connect := Ok tt;
     run_listTools := Ok {| lt_tools := Some (map provider_tool names) |};
     run_listResources := Ok {| lr_resources := Some [] |} |}.

(** A run in which the handshake is refused. *)
Definition refused_run : ConnectRun :=
  {| run_new_URL := Ok tt;
     run_href := u16 "http://localhost:3000/sse";
     run_connect := Throw (Error (u16 "Connection failed"));
     run_listTools := Ok {| lt_tools := None |};
     run_listResources := Ok {| lr_resources := None |} |}.

(** The manager after [addServer(alpha)]. *)
Definition registered : MCPClientManager :=
  addServer alpha_config new_MCPClientManager.

(** The manager after [addServer(alpha)] and a successful
    [connectToServer("alpha")] to a provider with the tools [names]. *)
Definition connected (names : list jsstring) : MCPClientManager :=
  fst (connectToServer (good_run names) alpha registered).

Definition config_of (name : jsstring) : MCPServerConfig :=
  {| cfg_name := name;
     cfg_sseUrl := u16 "http://localhost:3000/sse";
     cfg_apiKey := None;
     cfg_enabled := Some true |}.

(** Two connected servers: [a] with the tool [x-y], and [a-@mcp-a-x]
    with the tool [y]. *)
Definition two_servers : MCPClientManager :=
  fst (connectToServer (good_run [u16 "y"]) (u16 "a-@mcp-a-x")
         (addServer (config_of (u16 "a-@mcp-a-x"))
            (fst (connectToServer (good_run [u16 "x-y"]) (u16 "a")
                    (addServer (config_of (u16 "a")) new_MCPClientManager))))).

Definition settings_with (disabled : list jsstring) : Settings :=
  {| mcpServers := Some [alpha_config]; mcpDisabledTools := Some disabled |}.

(** Providers that answer every call with the string [pong]. *)
Definition pong : Providers := fun _ _ => Ok (VStr (u16 "pong")).

Definition close_failed : JsError := Error (u16 "close failed").
Definition timed_out : JsError := Error (u16 "Request timed out").
Definition method_not_found : JsError :=
  {| err_code := Some (-32601)%Z; err_message := Some (u16 "Method not found") |}.

(** Providers that reject every call. *)
Definition failing : Providers := fun _ _ => Throw timed_out.

(** Providers that reject a call to [boom] and answer any other. *)
Definition boom_fails : Providers :=
  fun _ request =>
    if bool_decide (req_name request = u16 "boom") then Throw timed_out
    else Ok (VStr (u16 "pong")).

Definition fragment (index : Z) (name : option jsstring) (args : jsstring)
    (id : option jsstring) : ToolCallChunk :=
  {| tcc_index := Some index; tcc_name := name;
     tcc_args := Some args; tcc_id := id |}.

(** A chunk that carries fragments only. *)
Definition fragments_chunk (toolChunks : list ToolCallChunk) : Chunk :=
  {| content := ContentAbsent;
     tool_call_chunks := Some toolChunks;
     tool_calls := None |}.

(** A chunk that carries text only. *)
Definition text_chunk (text : string) : Chunk :=
  {| content := ContentString (u16 text);
     tool_call_chunks := None;
     tool_calls := None |}.

(** A chunk that carries complete calls and no [tool_call_chunks]
    property. *)
Definition calls_chunk (calls : list ToolCall) : Chunk :=
  {| content := ContentAbsent;
     tool_call_chunks := None;
     tool_calls := Some calls |}.

Definition complete_call (id name : string) : ToolCall :=
  {| tc_id := Some (u16 id); tc_name := Some (u16 name);
     tc_args := Some (VObj []); tc_input := None |}.

(** The signal is set from its [k]-th reading on. *)
Definition cancel_at (k : nat) : nat -> bool := fun n => (k <=? n)%nat.

(** The signal is never set. *)
Definition never : nat -> bool := fun _ => false.

Definition user_message : Message :=
  {| msg_role := u16 "user";
     msg_content := ContentString (u16 "what is the weather");
     msg_tool_calls := None;
     msg_tool_call_id := None;
     msg_name := None |}.

(** A model that streams one text chunk in the continuation round. *)
Definition follow_up : list Message -> list Chunk :=
  fun _ => [text_chunk " done"].

(** The text of the object with [a] = 1 and [b] = 2. *)
Definition a1_b2_text : jsstring :=
  u16 "{" ++ quoted (u16 "a") ++ u16 ":1," ++ quoted (u16 "b") ++ u16 ":2}".

Definition a1_b2 : value :=
  VObj [(u16 "a", VNum 1 0); (u16 "b", VNum 2 0)].

(** Three fragments of one call at index 0. *)
Definition reassembly_stream : list Chunk :=
  [fragments_chunk
     [fragment 0 (Some (u16 "echo"))
        (u16 "{" ++ quoted (u16 "a") ++ u16 ":") (Some (u16 "call_1"))];
   fragments_chunk [fragment 0 None (u16 "1,") None];
   fragments_chunk [fragment 0 None (quoted (u16 "b") ++ u16 ":2}") None]].

(** A call streamed in one fragment, then text. *)
Definition fragment_then_text : list Chunk :=
  [text_chunk "Let me check.";
   fragments_chunk
     [fragment 0 (Some (u16 "echo")) (u16 "{}") (Some (u16 "call_1"))];
   text_chunk " (more)"].

(** A complete call, then a fragment of another call at index 1. *)
Definition call_then_fragment : list Chunk :=
  [calls_chunk [complete_call "whole_1" "echo"];
   fragments_chunk
     [fragment 1 (Some (u16 "other")) (u16 "{}") (Some (u16 "call_2"))]].

(** A complete call whose name is a single space. *)
Definition blank_named_call : list Chunk :=
  [calls_chunk [complete_call "whole_1" " "]].

(** A complete call in a chunk whose [tool_call_chunks] is the empty
    array. *)
Definition call_beside_empty_chunks : list Chunk :=
  [{| content := ContentAbsent;
      tool_call_chunks := Some [];
      tool_calls := Some [complete_call "whole_1" "echo"] |}].

(** Two calls streamed in fragments, the one of index 1 before the one
    of index 0. *)
Definition index_one_first : list Chunk :=
  [fragments_chunk
     [fragment 1 (Some (u16 "boom")) (u16 "{}") (Some (u16 "call_b"))];
   fragments_chunk
     [fragment 0 (Some (u16 "echo")) (u16 "{}") (Some (u16 "call_a"))]].

(** A call named in its first fragment, and a second fragment for the
    same index whose name is a single space. *)
Definition renamed_blank : list Chunk :=
  [fragments_chunk
     [fragment 0 (Some (u16 "echo")) (u16 "{}") (Some (u16 "call_1"))];
   fragments_chunk [fragment 0 (Some (u16 " ")) [] None]].

(** Two complete calls, the first to a tool that fails. *)
Definition two_calls : list BufferedCall :=
  [{| call_id := u16 "call_0"; call_name := u16 "boom";
      call_args := VObj []; call_input := None |};
   {| call_id := u16 "call_1"; call_name := u16 "echo";
      call_args := VObj []; call_input := None |}].
End Scenario.

(** ** MCPClientManager: the other methods *)

(** [removeServer]: disconnects, then drops the configuration and, once
    more, the catalog entries. *)
Definition removeServer (client_close transport_close : result unit)
    (serverName : jsstring) (m : MCPClientManager) : MCPClientManager :=
  let m1 := disconnectFromServer client_close transport_close serverName m in
  set_resources (JSMap.delete serverName)
    (set_tools (JSMap.delete serverName)
       (set_servers (JSMap.delete serverName) m1)).

(** [getConnectedServers]: [Array.from(this.clients.keys())]. *)
Definition getConnectedServers (m : MCPClientManager) : list jsstring :=
  JSMap.keys (clients m).

(** [getServerConfig]. *)
Definition getServerConfig (m : MCPClientManager) (serverName : jsstring)
    : option MCPServerConfig :=
  JSMap.get serverName (servers m).

(** [getAllServerConfigs]: [Array.from(this.servers.values())]. *)
Definition getAllServerConfigs (m : MCPClientManager) : list MCPServerConfig :=
  map snd (JSMap.entries (servers m)).

(** The body of the function [refreshAllTools] maps over the connected
    servers: the two loaders one after the other, in a [try] block
    whose [catch] only logs. *)
Definition refresh_server (listTools : result ListToolsResponse)
    (listResources : result ListResourcesResponse) (serverName : jsstring)
    (m : MCPClientManager) : MCPClientManager :=
  match loadServerTools listTools serverName m with
  | (m1, Ok _) => fst (loadServerResources listResources serverName m1)
  | (m1, Throw _) => m1
  end.

(** [refreshAllTools]. The connected servers are refreshed together
    under [Promise.all]; [responses] gives the answers of each server
    and [order] the order in which the servers are served, a
    permutation of the connected servers that belongs to the run. *)
Definition refreshAllTools
    (responses : jsstring -> result ListToolsResponse * result ListResourcesResponse)
    (order : list jsstring) (m : MCPClientManager) : MCPClientManager :=
  fold_left
    (fun m serverName =>
       refresh_server (fst (responses serverName)) (snd (responses serverName))
         serverName m)
    order m.

(** The outcomes of the remote steps of one [testConnection] run. *)
Record TestRun := {
  test_new_URL : result unit;
  test_connect : result unit;
  test_listTools : result ListToolsResponse;
  test_client_close : result unit;
  test_transport_close : result unit
}.

(** [testConnection]: a session of its own, which the manager does not
    keep; any error but a method-not-found answer to the tool list
    makes the test fail. *)
Definition testConnection (run : TestRun) : bool :=
  match test_new_URL run, test_connect run with
  | Ok _, Ok _ =>
      let listed :=
        match test_listTools run with
        | Ok _ => true
        | Throw error => is_method_not_found error
        end in
      if listed then
        match test_client_close run, test_transport_close run with
        | Ok _, Ok _ => true
        | _, _ => false
        end
      else false
  | _, _ => false
  end.

(** [disconnectAll]; [closes] gives, for each server, the outcomes of
    the close of its session and of its transport. The servers are
    disconnected together under [Promise.all]; each run of
    [disconnectFromServer] touches the entries of its own name only. *)
Definition disconnectAll (closes : jsstring -> result unit * result unit)
    (m : MCPClientManager) : MCPClientManager :=
  let m1 :=
    fold_left
      (fun m serverName =>
         disconnectFromServer (fst (closes serverName)) (snd (closes serverName))
           serverName m)
      (JSMap.keys (servers m)) m in
  {| clients := clients m1; transports := transports m1;
     servers := []; tools := []; resources := [] |}.

(** ** MCPToolsManager: the other methods *)

(** The tools manager: the client manager it drives and its
    [initialized] flag. *)
Record MCPToolsManager := {
  mcpClient : MCPClientManager;
  initialized : bool
}.

(** The loop of [initialize] over [settings.mcpServers]: a server whose
    [enabled] is not [false] is added and connected, a failure of the
    connection being caught. [runs i] is the run of the connection of
    the [i]-th server of the list. *)
Fixpoint initialize_servers (runs : nat -> ConnectRun) (i : nat)
    (mcpServers : list MCPServerConfig) (m : MCPClientManager)
    : MCPClientManager :=
  match mcpServers with
  | [] => m
  | serverConfig :: rest =>
      let m' :=
        if bool_decide (cfg_enabled serverConfig = Some false) then m
        else fst (connectToServer (runs i) (cfg_name serverConfig)
                    (addServer serverConfig m)) in
      initialize_servers runs (S i) rest m'
  end.

(** [initialize]. *)
Definition initialize (runs : nat -> ConnectRun) (settings : Settings)
    (tm : MCPToolsManager) : MCPToolsManager :=
  if initialized tm then tm
  else
    {| mcpClient :=
         initialize_servers runs 0 (default [] (mcpServers settings))
           (mcpClient tm);
       initialized := true |}.

(** [shutdown]. *)
Definition shutdown (closes : jsstring -> result unit * result unit)
    (tm : MCPToolsManager) : MCPToolsManager :=
  {| mcpClient := disconnectAll closes (mcpClient tm); initialized := false |}.

(** [getMCPToolSchema]: the schema of the first tool of the server with
    the decoded name, [None] standing for [null]. *)
Definition getMCPToolSchema (m : MCPClientManager) (toolName : jsstring)
    : option value :=
  match match_tool_name toolName with
  | None => None
  | Some (serverName, actualToolName) =>
      match List.find (fun t => bool_decide (tool_name t = actualToolName))
              (getServerTools m serverName) with
      | Some tool =>
          if truthy (tool_inputSchema tool) then Some (tool_inputSchema tool)
          else None
      | None => None
      end
  end.

(** [getConnectionStatus]. *)
Definition getConnectionStatus (settings : Settings) (m : MCPClientManager)
    : list (jsstring * bool) :=
  map (fun server => (cfg_name server, isServerConnected m (cfg_name server)))
    (default [] (mcpServers settings)).

(** [getToolDescriptions]: an object from the listed names to the
    listed descriptions. *)
Definition getToolDescriptions (m : MCPClientManager) : JSMap.t jsstring jsstring :=
  fold_left
    (fun descriptions tool =>
       JSMap.set (listed_name tool) (listed_description tool) descriptions)
    (getAllMCPTools m) [].

Definition connection_test_failed : JsError :=
  Error (u16 "Connection test failed").

(** The methods of the tools manager that bear the names of methods of
    the client manager. *)
Module ToolsManager.

(** [addServer]: the connection is tested first; then the
    configuration is stored and the server connected. The [catch]
    block rethrows. *)
Definition addServer (test : TestRun) (run : ConnectRun)
    (serverConfig : MCPServerConfig) (m : MCPClientManager)
    : MCPClientManager * result unit :=
  if testConnection test then
    connectToServer run (cfg_name serverConfig)
      (addServer serverConfig m)
  else (m, Throw connection_test_failed).

End ToolsManager.

(** ** The chain runner: tool definitions *)

(** The validation types the runner builds with the schema library. *)
Inductive ZodType : Type :=
| ZString
| ZNumber
| ZBoolean
| ZArray (item : ZodType)
| ZAny
| ZOptional (inner : ZodType)
| ZObject (shape : list (jsstring * ZodType)).

Definition TypeError (msg : string) : JsError := Error (u16 msg).

(** [v.key] for a key that is neither an index nor [length]: reading a
    property of [null] throws, and only an object has such a
    property. *)
Definition get_property (v : value) (key : jsstring) : result (option value) :=
  match v with
  | VNull => Throw (TypeError "Cannot read properties of null")
  | VObj props => Ok (JSMap.get key props)
  | _ => Ok None
  end.

(** The keys [0], [1], ... of the elements of a list. *)
Fixpoint indexed {A} (i : nat) (l : list A) : list (jsstring * A) :=
  match l with
  | [] => []
  | x :: l' => (u16 (pretty (N.of_nat i)), x) :: indexed (S i) l'
  end.

(** [Object.entries(v)] for a truthy value. *)
Definition Object_entries (v : value) : list (jsstring * value) :=
  match v with
  | VObj props => props
  | VArr items => indexed 0 items
  | VStr s => indexed 0 (map (fun c => VStr [c]) s)
  | _ => []
  end.

(** The type the runner gives to a property from its [type]. *)
Definition zod_of_type (type : option value) : ZodType :=
  match type with
  | Some (VStr t) =>
      if bool_decide (t = u16 "string") then ZString
      else if bool_decide (t = u16 "number") then ZNumber
      else if bool_decide (t = u16 "boolean") then ZBoolean
      else if bool_decide (t = u16 "array") then ZArray ZAny
      else ZAny
  | _ => ZAny
  end.

(** [required?.includes(key)], as a truth value: [undefined] when
    [required] is missing or [null]; the membership of the key in an
    array; the presence of the key as a substring of a string; a type
    error on any other value, which has no [includes] method. *)
Definition required_includes (required : option value) (key : jsstring)
    : result bool :=
  match required with
  | None | Some VNull => Ok false
  | Some (VArr items) =>
      Ok (existsb (fun item =>
                     match item with
                     | VStr s => bool_decide (s = key)
                     | _ => false
                     end) items)
  | Some (VStr s) => Ok (includes s key)
  | Some _ => Throw (TypeError "jsonSchema.required?.includes is not a function")
  end.

(** [shape[key] = z]: an own property, but for the key [__proto__],
    whose assignment sets the prototype of the object. *)
Definition assign_shape (key : jsstring) (z : ZodType)
    (shape : list (jsstring * ZodType)) : list (jsstring * ZodType) :=
  if bool_decide (key = u16 "__proto__") then shape
  else JSMap.set key z shape.

(** The loop of [jsonSchemaToZod] over the entries of [properties]. *)
Fixpoint shape_of_entries (required : option value)
    (entries : list (jsstring * value)) (shape : list (jsstring * ZodType))
    : result (list (jsstring * ZodType)) :=
  match entries with
  | [] => Ok shape
  | (key, propSchema) :: rest =>
      match get_property propSchema (u16 "type") with
      | Throw error => Throw error
      | Ok type =>
          match required_includes required key with
          | Throw error => Throw error
          | Ok is_required =>
              let z := zod_of_type type in
              shape_of_entries required rest
                (assign_shape key (if is_required then z else ZOptional z) shape)
          end
      end
  end.

(** [jsonSchemaToZod]: an object schema becomes an object type, one
    level deep; anything else becomes [z.any()]. *)
Definition jsonSchemaToZod (jsonSchema : value) : result ZodType :=
  match get_property jsonSchema (u16 "type") with
  | Throw error => Throw error
  | Ok type =>
      if match type with
         | Some (VStr t) => bool_decide (t = u16 "object")
         | _ => false
         end
      then
        match get_property jsonSchema (u16 "properties"),
              get_property jsonSchema (u16 "required") with
        | Ok properties, Ok required =>
            match properties with
            | Some props =>
                if truthy props then
                  match shape_of_entries required (Object_entries props) [] with
                  | Ok shape => Ok (ZObject shape)
                  | Throw error => Throw error
                  end
                else Ok (ZObject [])
            | None => Ok (ZObject [])
            end
        | Throw error, _ => Throw error
        | _, Throw error => Throw error
        end
      else Ok ZAny
  end.

(** A tool as it is bound to the model. *)
Record ToolDefinition := {
  def_name : jsstring;
  def_description : jsstring;
  def_schema : ZodType;
  (** the [_mcpServerName] and [_mcpToolName] properties; the second
      is the id the function of the tool passes to [executeMCPTool] *)
  def_mcpServerName : jsstring;
  def_mcpToolName : jsstring
}.

(** The schema used for a tool without input schema. *)
Definition empty_object_schema : value :=
  VObj [(u16 "type", VStr (u16 "object"));
        (u16 "properties", VObj []);
        (u16 "required", VArr [])].

(** [s && s.trim().length > 0] *)
Definition non_blank (s : jsstring) : bool :=
  truthy_str s && truthy_str (trim s).

(** [getMCPToolDefinitions]: one definition for each name that decodes
    to a tool of the catalog; an error of the schema conversion is not
    caught. *)
Fixpoint getMCPToolDefinitions (m : MCPClientManager) (toolNames : list jsstring)
    : result (list ToolDefinition) :=
  match toolNames with
  | [] => Ok []
  | toolName :: rest =>
      let continue := getMCPToolDefinitions m rest in
      match match_tool_name toolName with
      | None => continue
      | Some (serverName, actualToolName) =>
          if negb (non_blank actualToolName) then continue
          else
            match List.find (fun t => bool_decide (tool_name t = actualToolName))
                    (getServerTools m serverName) with
            | None => continue
            | Some mcpTool =>
                let validToolName :=
                  if non_blank (tool_name mcpTool) then tool_name mcpTool
                  else actualToolName in
                match jsonSchemaToZod
                        (value_or (Some (tool_inputSchema mcpTool))
                           empty_object_schema) with
                | Throw error => Throw error
                | Ok zodSchema =>
                    match continue with
                    | Throw error => Throw error
                    | Ok definitions =>
                        Ok ({| def_name := validToolName;
                               def_description :=
                                 str_or (Some (tool_description mcpTool))
                                   (u16 "MCP tool: " ++ validToolName);
                               def_schema := zodSchema;
                               def_mcpServerName := serverName;
                               def_mcpToolName := toolName |}
                            :: definitions)
                    end
                end
            end
      end
  end.

(** ** The chain runner: mentions and the saved context *)

Definition SPACE : jschar := 32.
Definition LF : jschar := 10.

(** [s.split(sep)] for a separator of one character. *)
Fixpoint split (sep : jschar) (s : jsstring) : list jsstring :=
  match s with
  | [] => [[]]
  | c :: s' =>
      if c =? sep then [] :: split sep s'
      else
        match split sep s' with
        | word :: words => (c :: word) :: words
        | [] => [[c]]
        end
  end.

(** [parts.join(sep)]. *)
Fixpoint join (sep : jsstring) (parts : list jsstring) : jsstring :=
  match parts with
  | [] => []
  | [part] => part
  | part :: rest => part ++ sep ++ join sep rest
  end.

Section Mentions.
(** [String.prototype.toLowerCase], taken from the platform. *)
Variable toLowerCase : jsstring -> jsstring.

(** [detectMCPTools]: the listed names that occur in the message,
    case apart. *)
Definition detectMCPTools (m : MCPClientManager) (message : jsstring)
    : list jsstring :=
  map listed_name
    (List.filter
       (fun mcpTool =>
          includes (toLowerCase message) (toLowerCase (listed_name mcpTool)))
       (getAllMCPTools m)).

(** [stripMCPMentions]: the words between single spaces that are not
    listed names, case apart, joined again and trimmed. *)
Definition stripMCPMentions (m : MCPClientManager) (message : jsstring)
    : jsstring :=
  let mcpToolNames :=
    map (fun tool => toLowerCase (listed_name tool)) (getAllMCPTools m) in
  trim
    (join [SPACE]
       (List.filter
          (fun word => negb (bool_decide (toLowerCase word ∈ mcpToolNames)))
          (split SPACE message))).
End Mentions.

(** [String(content)] for the content of a message. *)
Definition String_of_content (c : Content) : jsstring :=
  match c with
  | ContentAbsent => u16 "undefined"
  | ContentString s => s
  | ContentArray items => join (u16 ",") (map (fun _ => u16 "[object Object]") items)
  end.

(** [`[Tool ${result.name} Result: ${result.content}]`] *)
Definition tool_result_line (r : Message) : jsstring :=
  u16 "[Tool " ++ default (u16 "undefined") (msg_name r) ++ u16 " Result: "
  ++ String_of_content (msg_content r) ++ u16 "]".

(** What [handleResponse] does: the context it saves in the memory (the
    input and the output), the message it adds to the chat, the
    [lastToolResults] field afterwards, and the text it returns. *)
Record ResponseOutcome := {
  saved_context : option (jsstring * jsstring);
  added_message : option jsstring;
  lastToolResults_after : option (list Message);
  returned : jsstring
}.

(** [handleResponse]; [new_chat] tells whether the reason of the abort
    signal is [ABORT_REASON.NEW_CHAT], and [lastToolResults] is the
    field of that name before the call. *)
Definition handleResponse (fullAIResponse : jsstring) (userInput : jsstring)
    (new_chat : bool) (lastToolResults : option (list Message))
    : ResponseOutcome :=
  if truthy_str fullAIResponse && negb new_chat then
    let '(contextToSave, after) :=
      match lastToolResults with
      | Some ((_ :: _) as toolResults) =>
          (join [LF] (map tool_result_line toolResults)
           ++ [LF; LF] ++ fullAIResponse,
           None)
      | _ => (fullAIResponse, lastToolResults)
      end in
    {| saved_context := Some (userInput, contextToSave);
       added_message := Some fullAIResponse;
       lastToolResults_after := after;
       returned := fullAIResponse |}
  else
    {| saved_context := None;
       added_message := None;
       lastToolResults_after := lastToolResults;
       returned := fullAIResponse |}.

(** ** Invariants and views used in the properties *)

(** The elements of a list in the order of their first occurrences. *)
Fixpoint first_occurrences {A} `{EqDecision A} (l : list A) : list A :=
  match l with
  | [] => []
  | x :: l' =>
      x :: List.filter (fun y => negb (bool_decide (y = x)))
             (first_occurrences l')
  end.

(** The request that answers [toolCall] through an id that decodes to
    the tool [actualToolName] of the server [serverName]. *)
Definition request_for (serverName actualToolName : jsstring)
    (toolCall : BufferedCall) : ToolRequest :=
  {| req_server := serverName; req_name := actualToolName;
     req_arguments := extract_tool_args toolCall |}.

(** What a result holds for the outcome of a request: the answer of the
    provider, or the payload of its error. *)
Definition collected (P : Platform) (outcome : result value) : value :=
  match outcome with
  | Ok answer => answer
  | Throw error => error_payload (err2String P error)
  end.

(** The catalog entry a tool-list outcome leaves for a server whose
    entry was [previous]. *)
Definition tools_after (listTools : result ListToolsResponse)
    (previous : option (list MCPTool)) : option (list MCPTool) :=
  match listTools with
  | Ok response =>
      match lt_tools response with
      | Some ts => Some (map to_MCPTool ts)
      | None => previous
      end
  | Throw error => if is_method_not_found error then Some [] else previous
  end.

(** A type without nesting: a primitive type, an array of anything or
    [any], optional or not. *)
Definition flat_type (z : ZodType) : bool :=
  match z with
  | ZObject _ => false
  | ZOptional (ZObject _) | ZOptional (ZOptional _) => false
  | _ => true
  end.

(** The entries of the accumulator that resolve to a call: a name, an
    argument text, and a text that parses. *)
Definition resolvable (P : Platform) (entry : option Z * Accumulator) : bool :=
  truthy_str (acc_name (snd entry)) && truthy_str (acc_args (snd entry))
  && is_ok (JSON_parse P (acc_args (snd entry))).

(** A request that answers a call of [toolCalls] through a mentioned id:
    the id is among the mentions and is not switched off, the name of
    the call occurs in it, it decodes to the server and the tool of the
    request, the server is connected, and the arguments are those
    extracted from the call. *)
Definition authorised (settings : Settings) (m : MCPClientManager)
    (mentionedMCPTools : list jsstring) (toolCalls : list BufferedCall)
    (request : ToolRequest) : Prop :=
  exists mcpToolName toolCall,
    In mcpToolName mentionedMCPTools
    /\ In toolCall toolCalls
    /\ includes mcpToolName
         (str_or (Some (call_name toolCall)) (u16 "unknown_tool")) = true
    /\ (mcpToolName ∉ disabledTools settings)
    /\ match_tool_name mcpToolName
       = Some (req_server request, req_name request)
    /\ isServerConnected m (req_server request) = true
    /\ req_arguments request = extract_tool_args toolCall.

(** The texts shown so far grow one out of the other, and the last one
    is the text so far. *)
Definition growing (s : ThinkBlockStreamer) : Prop :=
  (forall i j a b, (i <= j)%nat ->
     shown s !! i = Some a -> shown s !! j = Some b -> a `prefix_of` b)
  /\ (shown s = [] /\ fullResponse s = []
      \/ last (shown s) = Some (fullResponse s)).


(** ** Sample data for the properties *)

Module Samples.

(** The properties of a schema with a required string [city] and a
    nested object [where]. *)
Definition weather_properties : list (jsstring * value) :=
  [(u16 "city", VObj [(u16 "type", VStr (u16 "string"))]);
   (u16 "where", VObj [(u16 "type", VStr (u16 "object"))])].

Definition weather_fields : list (jsstring * value) :=
  [(u16 "type", VStr (u16 "object"));
   (u16 "properties", VObj weather_properties);
   (u16 "required", VArr [VStr (u16 "city")])].


(** A connection test in which the provider has no tool list. *)
Definition passing_test : TestRun :=
  {| test_new_URL := Ok tt; test_connect := Ok tt;
     test_listTools := Throw Scenario.method_not_found;
     test_client_close := Ok tt; test_transport_close := Ok tt |}.

(** The first connection is refused, the others succeed. *)
Definition first_refused : nat -> ConnectRun :=
  fun i => if (i =? 0)%nat then Scenario.refused_run
           else Scenario.good_run [u16 "echo"].

Definition down_then_alpha : list MCPServerConfig :=
  [Scenario.config_of (u16 "down"); Scenario.alpha_config].

Definition fresh_tools_manager : MCPToolsManager :=
  {| mcpClient := new_MCPClientManager; initialized := false |}.

(** A server registered under an address in capitals and without
    path, and a run of its connection: the parser writes the address
    back in lower case and with its path. *)
Definition capitals_config : MCPServerConfig :=
  {| cfg_name := u16 "caps";
     cfg_sseUrl := u16 "HTTP://LocalHost:3000";
     cfg_apiKey := None;
     cfg_enabled := None |}.

Definition capitals_run : ConnectRun :=
  {| run_new_URL := Ok tt;
     run_href := u16 "http://localhost:3000/";
     run_connect := Ok tt;
     run_listTools := Ok {| lt_tools := Some [] |};
     run_listResources := Ok {| lr_resources := Some [] |} |}.

(** A run in which the model streams one call of [echo] in three
    fragments, with the server [alpha] connected and the tool
    mentioned. *)
Definition echo_run (followUpStream : list Message -> list Chunk)
    : StreamOutcome :=
  streamMultimodalResponse reference_platform (Scenario.settings_with [])
    Scenario.pong (Scenario.connected [u16 "echo"]) Scenario.never
    [u16 "@mcp-alpha-echo"] [Scenario.user_message]
    Scenario.reassembly_stream followUpStream.

(** A run in which the model writes, calls [echo] and writes on. *)
Definition talkative_run : StreamOutcome :=
  streamMultimodalResponse reference_platform (Scenario.settings_with [])
    Scenario.pong (Scenario.connected [u16 "echo"]) Scenario.never
    [u16 "@mcp-alpha-echo"] [Scenario.user_message]
    Scenario.fragment_then_text Scenario.follow_up.

(** A call of [echo] as the model makes it. *)
Definition echo_call : BufferedCall :=
  {| call_id := u16 "call_1"; call_name := u16 "echo";
     call_args := VObj []; call_input := None |}.

End Samples.

(** * Properties *)

(** ** Maps *)

Section JSMapFacts.
Context {K V : Type} `{EqDecision K}.
Implicit Types (k : K) (v : V) (m : JSMap.t K V).

Lemma get_set_eq k v m : JSMap.get k (JSMap.set k v m) = Some v.
Proof.
  induction m as [|[k' v'] m IH]; simpl.
  - by rewrite decide_True.
  - destruct (decide (k = k')) as [->|Hne]; simpl.
    + by rewrite decide_True.
    + by rewrite decide_False.
Qed.

Lemma get_set_ne k k' v m :
  k ≠ k' -> JSMap.get k' (JSMap.set k v m) = JSMap.get k' m.
Proof.
  intros Hne. induction m as [|[k0 v0] m IH]; simpl.
  - rewrite decide_False; [done | congruence].
  - destruct (decide (k = k0)) as [->|Hk]; simpl.
    + rewrite !decide_False; [done | congruence | congruence].
    + destruct (decide (k' = k0)); [done | exact IH].
Qed.

Lemma get_delete_eq k m : JSMap.get k (JSMap.delete k m) = None.
Proof.
  induction m as [|[k' v'] m IH]; simpl; [done |].
  destruct (decide (k = k')) as [->|Hne]; simpl; [done |].
  by rewrite decide_False.
Qed.

Lemma get_delete_ne k k' m :
  k ≠ k' -> JSMap.get k' (JSMap.delete k m) = JSMap.get k' m.
Proof.
  intros Hne. induction m as [|[k0 v0] m IH]; simpl; [done |].
  destruct (decide (k = k0)) as [->|Hk]; simpl.
  - rewrite decide_False; [exact IH | congruence].
  - destruct (decide (k' = k0)); [done | exact IH].
Qed.

Lemma has_delete_eq k m : JSMap.has k (JSMap.delete k m) = false.
Proof. unfold JSMap.has. by rewrite get_delete_eq. Qed.

Lemma has_set_eq k v m : JSMap.has k (JSMap.set k v m) = true.
Proof. unfold JSMap.has. by rewrite get_set_eq. Qed.

Lemma has_get k m : JSMap.has k m = true <-> is_Some (JSMap.get k m).
Proof.
  unfold JSMap.has. destruct (JSMap.get k m); split; intros Hx; try done.
Qed.
End JSMapFacts.

Section JSMapMore.
Context {K V : Type} `{EqDecision K}.
Implicit Types (k : K) (v : V) (m : JSMap.t K V).

Lemma set_set k v v' m : JSMap.set k v' (JSMap.set k v m) = JSMap.set k v' m.
Proof.
  induction m as [|[k0 v0] m IH]; simpl.
  - by rewrite decide_True.
  - destruct (decide (k = k0)) as [->|Hne]; simpl.
    + by rewrite decide_True.
    + rewrite decide_False by done. by rewrite IH.
Qed.

Lemma keys_set_in k v m :
  In k (JSMap.keys m) -> JSMap.keys (JSMap.set k v m) = JSMap.keys m.
Proof.
  induction m as [|[k0 v0] m IH]; simpl; [done |].
  intros [-> | Hin].
  - by rewrite decide_True.
  - destruct (decide (k = k0)) as [->|Hne]; simpl; [done |].
    f_equal. by apply IH.
Qed.

Lemma keys_set_notin k v m :
  ~ In k (JSMap.keys m) -> JSMap.keys (JSMap.set k v m) = JSMap.keys m ++ [k].
Proof.
  induction m as [|[k0 v0] m IH]; simpl; [done |].
  intros Hnot. destruct (decide (k = k0)) as [->|Hne]; simpl.
  - exfalso. apply Hnot. by left.
  - f_equal. apply IH. intros Hin. apply Hnot. by right.
Qed.

Lemma in_keys_delete k k' m :
  In k' (JSMap.keys (JSMap.delete k m)) <-> k' <> k /\ In k' (JSMap.keys m).
Proof.
  induction m as [|[k0 v0] m IH]; simpl; [naive_solver |].
  destruct (decide (k = k0)) as [->|Hne]; simpl.
  - rewrite IH. naive_solver.
  - rewrite IH. naive_solver.
Qed.

Lemma get_None_keys k m : JSMap.get k m = None <-> ~ In k (JSMap.keys m).
Proof.
  induction m as [|[k0 v0] m IH]; simpl; [naive_solver |].
  destruct (decide (k = k0)) as [->|Hne]; naive_solver.
Qed.

(** Deleting a key that is not there changes nothing. *)
Lemma delete_absent k m : JSMap.get k m = None -> JSMap.delete k m = m.
Proof.
  induction m as [|[k0 v0] m IH]; simpl; [done |].
  destruct (decide (k = k0)) as [->|Hne]; [done |].
  intros Hget. by rewrite IH.
Qed.

Lemma delete_delete k k' m :
  JSMap.delete k (JSMap.delete k' m) = JSMap.delete k' (JSMap.delete k m).
Proof.
  induction m as [|[k0 v0] m IH]; simpl; [done |].
  destruct (decide (k' = k0)) as [->|Hne'], (decide (k = k0)) as [->|Hne];
    simpl; rewrite ?decide_True, ?decide_False by done; by rewrite ?IH.
Qed.

Lemma in_delete k k' v m :
  In (k', v) (JSMap.delete k m) -> k' <> k /\ In (k', v) m.
Proof.
  induction m as [|[k0 v0] m IH]; simpl; [done |].
  destruct (decide (k = k0)) as [->|Hne]; simpl.
  - intros Hin. destruct (IH Hin). naive_solver.
  - intros [[= <- <-] | Hin]; [naive_solver |].
    destruct (IH Hin). naive_solver.
Qed.
End JSMapMore.

(** Closes a decidable goal by evaluation. *)
Ltac by_compute := apply (bool_decide_unpack _); vm_compute; exact I.

(** ** Canonical tool ids *)

Lemma strip_prefix_app (p s : jsstring) : strip_prefix p (p ++ s) = Some s.
Proof.
  induction p as [|a p IH]; simpl; [done |].
  by rewrite N.eqb_refl.
Qed.

Lemma lazy_group_first_dash (serverName localName : jsstring) :
  serverName ≠ [] ->
  DASH ∉ serverName ->
  forallb dot serverName = true ->
  dot_plus_end localName = true ->
  lazy_group (serverName ++ DASH :: localName) = Some (serverName, localName).
Proof.
  induction serverName as [|c rest IH]; [done |].
  intros _ Hdash Hdot Hlocal.
  simpl in Hdot. apply andb_prop in Hdot as [Hc Hrest].
  apply not_elem_of_cons in Hdash as [Hne Hnotin].
  simpl. rewrite Hc.
  destruct rest as [|d rest'].
  - simpl. by rewrite ?N.eqb_refl, Hlocal.
  - assert ((d =? DASH) = false) as Hd.
    { apply N.eqb_neq. intros ->. apply Hnotin. by left. }
    change ((d :: rest') ++ DASH :: localName)
      with (d :: (rest' ++ DASH :: localName)).
    cbv iota beta. rewrite Hd. simpl andb. cbv iota.
    change (d :: (rest' ++ DASH :: localName))
      with ((d :: rest') ++ DASH :: localName).
    rewrite IH; [done | done | done | done | done].
Qed.

(** C1 (amended). The canonical id round-trips: for every server name
    that is not empty, has no dash and no line terminator, and every
    local name that is not empty and has no line terminator (dashes
    allowed), the pattern of [executeMCPTool] applied to the id built by
    [getAllMCPTools] gives back exactly the server name and the local
    name; so [executeMCPTool] on that id, when the id is not disabled
    and the server is connected, calls [executeTool] with that server
    name and that local name. *)
Theorem canonical_id_round_trip (serverName localName : jsstring) :
  serverName <> [] ->
  localName <> [] ->
  DASH ∉ serverName ->
  forallb dot serverName = true ->
  forallb dot localName = true ->
  match_tool_name (canonical_id serverName localName)
  = Some (serverName, localName)
  /\ (forall (settings : Settings) (net : Providers) (m : MCPClientManager)
             (args : value) (sent : list ToolRequest),
        canonical_id serverName localName ∉ disabledTools settings ->
        isServerConnected m serverName = true ->
        executeMCPTool settings net m (canonical_id serverName localName)
          args sent
        = executeTool net m serverName localName args sent).
Proof.
  intros Hs Hl Hdash Hds Hdl.
  assert (match_tool_name (canonical_id serverName localName)
          = Some (serverName, localName)) as Hmatch.
  { unfold match_tool_name, canonical_id.
    rewrite strip_prefix_app.
    apply lazy_group_first_dash; try done.
    unfold dot_plus_end. rewrite Hdl.
    by destruct localName. }
  split; [exact Hmatch |].
  intros settings net m args sent Henabled Hconnected.
  unfold executeMCPTool.
  rewrite bool_decide_eq_false_2 by exact Henabled.
  by rewrite Hmatch, Hconnected.
Qed.

Lemma canonical_id_round_trip_witness :
  u16 "alpha" <> []
  /\ u16 "get-weather" <> []
  /\ (DASH ∉ u16 "alpha")
  /\ forallb dot (u16 "alpha") = true
  /\ forallb dot (u16 "get-weather") = true
  /\ match_tool_name (canonical_id (u16 "alpha") (u16 "get-weather"))
     = Some (u16 "alpha", u16 "get-weather").
Proof.
  assert (DASH ∉ u16 "alpha") as Hdash
    by (apply (bool_decide_unpack _); vm_compute; exact I).
  split; [discriminate |]. split; [discriminate |]. split; [exact Hdash |].
  split; [reflexivity |]. split; [reflexivity |].
  apply (proj1 (canonical_id_round_trip (u16 "alpha") (u16 "get-weather")
                  ltac:(discriminate) ltac:(discriminate) Hdash
                  eq_refl eq_refl)).
Defined.

(** The discovery scenario: [alpha] is connected and lists [echo]; the
    discovery list has one entry, whose name decodes to [alpha] and
    [echo]. *)
Example discovery_scenario :
  map listed_name (getAllMCPTools (Scenario.connected [u16 "echo"]))
  = [canonical_id Scenario.alpha (u16 "echo")]
  /\ match_tool_name (canonical_id Scenario.alpha (u16 "echo"))
     = Some (Scenario.alpha, u16 "echo").
Proof. split; vm_compute; reflexivity. Qed.

(** C1 as stated fails on empty names and on line terminators. With the
    local name empty the id [@mcp-alpha-] does not match the pattern at
    all; with the server name empty the id [@mcp--a-b] is split into
    [-a] and [b]; with a line feed in the local name or in the server
    name the id does not match. No server name here contains a dash. *)
Lemma canonical_id_round_trip_counterexample :
  ((DASH ∉ u16 "alpha")
   /\ match_tool_name (canonical_id (u16 "alpha") []) = None)
  /\ ((DASH ∉ (@nil jschar))
      /\ match_tool_name (canonical_id [] (u16 "a-b"))
         = Some (u16 "-a", u16 "b"))
  /\ match_tool_name (canonical_id (u16 "alpha") [97; 10; 98]) = None
  /\ ((DASH ∉ [97; 10; 98])
      /\ match_tool_name (canonical_id [97; 10; 98] (u16 "echo")) = None).
Proof.
  split; [split; [by_compute | reflexivity] |].
  split; [split; [apply not_elem_of_nil | reflexivity] |].
  split; [reflexivity |].
  split; [by_compute | reflexivity].
Qed.

(** ** The executor *)

(** C5. Disabled-tool precedence: for every tool name in the disabled
    set, whatever its shape, whatever the connections and the
    arguments, [executeMCPTool] fails with the error saying the tool is
    disabled, and sends no request. *)
Theorem executeMCPTool_disabled (settings : Settings) (net : Providers)
    (m : MCPClientManager) (toolName : jsstring) (args : value)
    (sent : list ToolRequest) :
  toolName ∈ disabledTools settings ->
  executeMCPTool settings net m toolName args sent
  = (sent, Throw (tool_disabled toolName)).
Proof.
  intros Hin. unfold executeMCPTool.
  by rewrite bool_decide_eq_true_2.
Qed.

Lemma executeMCPTool_disabled_witness :
  (u16 "not-a-valid-id" ∈ disabledTools (Scenario.settings_with [u16 "not-a-valid-id"]))
  /\ executeMCPTool (Scenario.settings_with [u16 "not-a-valid-id"]) Scenario.pong
       Scenario.registered (u16 "not-a-valid-id") (VObj []) []
     = ([], Throw (tool_disabled (u16 "not-a-valid-id"))).
Proof.
  split.
  - by_compute.
  - apply executeMCPTool_disabled. by_compute.
Defined.

(** ** Connections *)

(** C8. Connect atomicity: [connectToServer] fails with the not-found
    error when no configuration is registered under the name; when one
    is and the handshake fails, the error of the handshake is thrown to
    the caller and the manager is left as it was, none of its maps
    changed; and in general a run that throws leaves the manager as it
    was. *)
Theorem connectToServer_atomic (run : ConnectRun) (serverName : jsstring)
    (m : MCPClientManager) :
  (JSMap.get serverName (servers m) = None ->
   connectToServer run serverName m = (m, Throw (server_not_found serverName)))
  /\ (forall error,
        JSMap.has serverName (servers m) = true ->
        run_new_URL run = Ok tt ->
        run_connect run = Throw error ->
        connectToServer run serverName m = (m, Throw error))
  /\ (is_ok (snd (connectToServer run serverName m)) = false ->
      fst (connectToServer run serverName m) = m).
Proof.
  unfold connectToServer, JSMap.has.
  destruct (JSMap.get serverName (servers m)) as [cfg|]; repeat split; try done.
  - intros error _ -> ->. done.
  - destruct (run_new_URL run); [| done].
    destruct (run_connect run); done.
  Qed.

(** ** The discovery list *)

Lemma getAllMCPTools_In (m : MCPClientManager) (t : ListedTool) :
  In t (getAllMCPTools m) ->
  exists localName,
    listed_name t = canonical_id (listed_serverName t) localName.
Proof.
  unfold getAllMCPTools. intros Hin.
  apply in_flat_map in Hin as [[serverName ts] [_ Hin]].
  apply in_map_iff in Hin as [tool [<- _]].
  by exists (tool_name tool).
Qed.

Lemma filter_all {A} (f : A -> bool) (l : list A) :
  (forall x, In x l -> f x = true) -> List.filter f l = l.
Proof.
  induction l as [|x l IH]; simpl; intros Hall; [done |].
  rewrite Hall by (by left). f_equal. apply IH. intros y Hy. apply Hall. by right.
Qed.

Lemma canonical_id_unfold (serverName localName : jsstring) :
  canonical_id serverName localName
  = AT :: u16 "mcp-" ++ serverName ++ DASH :: localName.
Proof. reflexivity. Qed.

(** The id rebuilt by the filter has a second [@] after its first
    character. *)
Lemma AT_in_doubly_prefixed (serverName serverName' localName : jsstring) :
  AT ∈ tail (canonical_id serverName (canonical_id serverName' localName)).
Proof.
  rewrite (canonical_id_unfold serverName). cbn [tail].
  rewrite (canonical_id_unfold serverName').
  apply elem_of_app. right. apply elem_of_app. right.
  apply elem_of_cons. right. apply elem_of_cons. by left.
Qed.

Lemma AT_not_in_canonical_id (serverName localName : jsstring) :
  AT ∉ serverName -> AT ∉ localName ->
  AT ∉ tail (canonical_id serverName localName).
Proof.
  intros Hs Hl. rewrite canonical_id_unfold. cbn [tail].
  rewrite !not_elem_of_app, not_elem_of_cons.
  split; [by_compute |]. split; [done |]. split; [done | done].
Qed.

(** C6 (amended). The enabled-tool listing ignores the disabled set: for
    every disabled set whose members are canonical ids
    [@mcp-<serverName>-<localName>] with no [@] in either name,
    [getEnabledMCPTools] returns exactly the list of [getAllMCPTools];
    in particular a listed tool whose canonical id is disabled is still
    listed as enabled. *)
Theorem getEnabledMCPTools_ignores_disabled (settings : Settings)
    (m : MCPClientManager) :
  (forall id, id ∈ disabledTools settings ->
     exists serverName localName,
       id = canonical_id serverName localName
       /\ (AT ∉ serverName) /\ (AT ∉ localName)) ->
  getEnabledMCPTools settings m = getAllMCPTools m
  /\ (forall t, In t (getAllMCPTools m) ->
        listed_name t ∈ disabledTools settings ->
        In t (getEnabledMCPTools settings m)).
Proof.
  intros Hform.
  assert (getEnabledMCPTools settings m = getAllMCPTools m) as Heq.
  { unfold getEnabledMCPTools. apply filter_all. intros t Hin.
    apply negb_true_iff, bool_decide_eq_false_2. intros Hdis.
    destruct (getAllMCPTools_In m t Hin) as [localName Hname].
    destruct (Hform _ Hdis) as (s0 & l0 & Hid & Hs0 & Hl0).
    apply (AT_not_in_canonical_id s0 l0 Hs0 Hl0).
    rewrite <- Hid, Hname. apply AT_in_doubly_prefixed. }
  split; [exact Heq |].
  intros t Hin _. by rewrite Heq.
Qed.

Lemma disabled_singleton (x id : jsstring) :
  id ∈ disabledTools (Scenario.settings_with [x]) -> id = x.
Proof.
  unfold disabledTools, Scenario.settings_with. simpl.
  rewrite elem_of_union, elem_of_singleton. intros [H | H]; [done |].
  by apply elem_of_empty in H.
Defined.

Lemma getEnabledMCPTools_ignores_disabled_witness :
  (forall id,
     id ∈ disabledTools
            (Scenario.settings_with [canonical_id Scenario.alpha (u16 "echo")]) ->
     exists serverName localName,
       id = canonical_id serverName localName
       /\ (AT ∉ serverName) /\ (AT ∉ localName))
  /\ getEnabledMCPTools
       (Scenario.settings_with [canonical_id Scenario.alpha (u16 "echo")])
       (Scenario.connected [u16 "echo"])
     = getAllMCPTools (Scenario.connected [u16 "echo"]).
Proof.
  assert (forall id,
     id ∈ disabledTools
            (Scenario.settings_with [canonical_id Scenario.alpha (u16 "echo")]) ->
     exists serverName localName,
       id = canonical_id serverName localName
       /\ (AT ∉ serverName) /\ (AT ∉ localName)) as Hform.
  { intros id Hid. apply disabled_singleton in Hid as ->.
    exists Scenario.alpha, (u16 "echo").
    split; [reflexivity |].
    split; apply (bool_decide_unpack _); vm_compute; exact I. }
  split; [exact Hform |].
  exact (proj1 (getEnabledMCPTools_ignores_disabled _ _ Hform)).
Defined.

(** C6 as stated fails when a name itself contains the prefix of a
    canonical id. The provider [alpha] lists the tools [t] and
    [@mcp-alpha-t]; the disabled set holds the canonical id of the
    second one. The filter then drops the first tool, whose rebuilt id
    is that very string, and keeps the disabled one. Likewise with the
    servers [a] and [a-@mcp-a-x]: disabling the tool [y] of the second
    one hides the tool [x-y] of the first. *)
Lemma getEnabledMCPTools_ignores_disabled_counterexample :
  (map listed_name
     (getAllMCPTools (Scenario.connected [u16 "t"; u16 "@mcp-alpha-t"]))
   = [canonical_id Scenario.alpha (u16 "t");
      canonical_id Scenario.alpha (u16 "@mcp-alpha-t")]
   /\ map listed_name
        (getEnabledMCPTools
           (Scenario.settings_with
              [canonical_id Scenario.alpha (u16 "@mcp-alpha-t")])
           (Scenario.connected [u16 "t"; u16 "@mcp-alpha-t"]))
      = [canonical_id Scenario.alpha (u16 "@mcp-alpha-t")])
  /\ (map listed_name (getAllMCPTools Scenario.two_servers)
      = [canonical_id (u16 "a") (u16 "x-y");
         canonical_id (u16 "a-@mcp-a-x") (u16 "y")]
      /\ map listed_name
           (getEnabledMCPTools
              (Scenario.settings_with [canonical_id (u16 "a-@mcp-a-x") (u16 "y")])
              Scenario.two_servers)
         = [canonical_id (u16 "a-@mcp-a-x") (u16 "y")]).
Proof. repeat split; vm_compute; reflexivity. Qed.

Lemma connectToServer_atomic_witness :
  JSMap.has Scenario.alpha (servers Scenario.registered) = true
  /\ run_new_URL Scenario.refused_run = Ok tt
  /\ run_connect Scenario.refused_run = Throw (Error (u16 "Connection failed"))
  /\ connectToServer Scenario.refused_run Scenario.alpha Scenario.registered
     = (Scenario.registered, Throw (Error (u16 "Connection failed")))
  /\ JSMap.get (u16 "beta") (servers Scenario.registered) = None
  /\ connectToServer Scenario.refused_run (u16 "beta") Scenario.registered
     = (Scenario.registered, Throw (server_not_found (u16 "beta"))).
Proof.
  split; [reflexivity |]. split; [reflexivity |]. split; [reflexivity |].
  split.
  - apply (proj1 (proj2 (connectToServer_atomic
                           Scenario.refused_run Scenario.alpha Scenario.registered)));
      reflexivity.
  - split; [reflexivity |].
    apply (proj1 (connectToServer_atomic
                    Scenario.refused_run (u16 "beta") Scenario.registered)).
    reflexivity.
Defined.

(** ** Disconnection *)

Lemma disconnectFromServer_clears_catalog (client_close transport_close : result unit)
    (serverName : jsstring) (m : MCPClientManager) :
  JSMap.get serverName
    (tools (disconnectFromServer client_close transport_close serverName m)) = None
  /\ JSMap.get serverName
       (resources (disconnectFromServer client_close transport_close serverName m))
     = None.
Proof.
  unfold disconnectFromServer.
  destruct (JSMap.get serverName (clients m)), (JSMap.get serverName (transports m)),
    client_close, transport_close; simpl; by rewrite !get_delete_eq.
Qed.

Lemma disconnectFromServer_closed (transport_close : result unit)
    (serverName : jsstring) (m : MCPClientManager) :
  isServerConnected
    (disconnectFromServer (Ok tt) transport_close serverName m) serverName = false.
Proof.
  unfold disconnectFromServer, isServerConnected, JSMap.has.
  destruct (JSMap.get serverName (clients m)) eqn:Hc,
    (JSMap.get serverName (transports m)), transport_close; simpl;
    by rewrite ?get_delete_eq, ?Hc.
Qed.

Lemma disconnectFromServer_close_rejected (error : JsError)
    (transport_close : result unit) (serverName : jsstring) (m : MCPClientManager) :
  isServerConnected
    (disconnectFromServer (Throw error) transport_close serverName m) serverName
  = isServerConnected m serverName.
Proof.
  unfold disconnectFromServer, isServerConnected.
  destruct (JSMap.get serverName (clients m)),
    (JSMap.get serverName (transports m)), transport_close; reflexivity.
Qed.

(** C7 on the failing runs. For every connected server, when the close
    of the session is rejected, [disconnectFromServer] returns with the
    catalog entries of the server removed but with its handle still
    registered: [isServerConnected] still answers [true]. *)
Theorem disconnectFromServer_close_failure (error : JsError)
    (transport_close : result unit) (serverName : jsstring)
    (m : MCPClientManager) :
  isServerConnected m serverName = true ->
  isServerConnected
    (disconnectFromServer (Throw error) transport_close serverName m) serverName
  = true
  /\ getServerTools
       (disconnectFromServer (Throw error) transport_close serverName m)
       serverName = []
  /\ getServerResources
       (disconnectFromServer (Throw error) transport_close serverName m)
       serverName = [].
Proof.
  intros Hconnected.
  split; [by rewrite disconnectFromServer_close_rejected |].
  destruct (disconnectFromServer_clears_catalog (Throw error) transport_close
              serverName m) as [Htools Hresources].
  unfold getServerTools, getServerResources.
  by rewrite Htools, Hresources.
Qed.

Lemma disconnectFromServer_close_failure_witness :
  isServerConnected (Scenario.connected [u16 "echo"]) Scenario.alpha = true
  /\ isServerConnected
       (disconnectFromServer (Throw Scenario.close_failed) (Ok tt) Scenario.alpha
          (Scenario.connected [u16 "echo"]))
       Scenario.alpha = true.
Proof.
  split; [reflexivity |].
  apply (proj1 (disconnectFromServer_close_failure Scenario.close_failed (Ok tt)
                  Scenario.alpha (Scenario.connected [u16 "echo"]) eq_refl)).
Defined.

(** ** Catalog loading *)

Lemma loadServerTools_clients (listTools : result ListToolsResponse)
    (serverName : jsstring) (m : MCPClientManager) :
  clients (fst (loadServerTools listTools serverName m)) = clients m.
Proof.
  unfold loadServerTools.
  destruct (JSMap.get serverName (clients m)); [| done].
  destruct listTools as [[[ts|]]|e]; try done.
  by destruct (is_method_not_found e).
Qed.

(** C9. Capability tolerance: for a connected server, a tool-list or
    resource-list request that fails with the method-not-found signal
    (code -32601, or a message that includes [Method not found]) makes
    the loader record the empty list for that capability and return
    normally, the server staying connected; any other failure of the
    request is absorbed: the loader returns normally and the manager,
    with the previous catalog entry if any, is exactly as it was. *)
Theorem capability_tolerance (serverName : jsstring) (m : MCPClientManager)
    (error : JsError) :
  isServerConnected m serverName = true ->
  (is_method_not_found error = true ->
     loadServerTools (Throw error) serverName m
     = (set_tools (JSMap.set serverName []) m, Ok tt)
     /\ getServerTools (set_tools (JSMap.set serverName []) m) serverName = []
     /\ JSMap.has serverName (tools (set_tools (JSMap.set serverName []) m)) = true
     /\ isServerConnected (set_tools (JSMap.set serverName []) m) serverName = true
     /\ loadServerResources (Throw error) serverName m
        = (set_resources (JSMap.set serverName []) m, Ok tt)
     /\ getServerResources (set_resources (JSMap.set serverName []) m) serverName = []
     /\ JSMap.has serverName (resources (set_resources (JSMap.set serverName []) m))
        = true
     /\ isServerConnected (set_resources (JSMap.set serverName []) m) serverName
        = true)
  /\ (is_method_not_found error = false ->
        loadServerTools (Throw error) serverName m = (m, Ok tt)
        /\ loadServerResources (Throw error) serverName m = (m, Ok tt)).
Proof.
  unfold isServerConnected, JSMap.has, loadServerTools, loadServerResources,
    getServerTools, getServerResources.
  destruct (JSMap.get serverName (clients m)) as [client|] eqn:Hc; [| done].
  intros _. split; intros ->; [| done].
  simpl. rewrite !get_set_eq, Hc. done.
Qed.

Lemma capability_tolerance_witness :
  isServerConnected (Scenario.connected [u16 "echo"]) Scenario.alpha = true
  /\ is_method_not_found Scenario.method_not_found = true
  /\ loadServerResources (Throw Scenario.method_not_found) Scenario.alpha
       (Scenario.connected [u16 "echo"])
     = (set_resources (JSMap.set Scenario.alpha [])
          (Scenario.connected [u16 "echo"]), Ok tt)
  /\ is_method_not_found Scenario.timed_out = false
  /\ loadServerTools (Throw Scenario.timed_out) Scenario.alpha
       (Scenario.connected [u16 "echo"])
     = (Scenario.connected [u16 "echo"], Ok tt).
Proof.
  split; [reflexivity |]. split; [reflexivity |].
  split.
  - apply (proj1 (capability_tolerance Scenario.alpha
                    (Scenario.connected [u16 "echo"]) Scenario.method_not_found
                    eq_refl) eq_refl).
  - split; [reflexivity |].
    apply (proj2 (capability_tolerance Scenario.alpha
                    (Scenario.connected [u16 "echo"]) Scenario.timed_out
                    eq_refl) eq_refl).
Defined.

(** ** The streaming loop *)

Section LoopFacts.
Variable P : Platform.

(** As long as the signal is not set the loop is a fold of its body. *)
Lemma stream_loop_complete (aborted : nat -> bool) (chatStream : list Chunk) :
  forall (checks : nat) (st : LoopState),
    (forall j, (checks <= j < checks + length chatStream)%nat ->
               aborted j = false) ->
    stream_loop P aborted checks chatStream st
    = (fold_left (process_chunk P) chatStream st,
       (checks + length chatStream)%nat).
Proof.
  induction chatStream as [|chunk rest IH]; intros checks st Hnot; simpl.
  - f_equal. lia.
  - rewrite Hnot by (simpl; lia).
    rewrite IH.
    + f_equal. lia.
    + intros j Hj. apply Hnot. simpl. lia.
Qed.

(** When the signal is first seen set at the [k]-th chunk, the loop
    has run its body on the [k] chunks before it, and on no other. *)
Lemma stream_loop_cancelled (aborted : nat -> bool) (k : nat) :
  forall (chatStream : list Chunk) (checks : nat) (st : LoopState),
    (forall j, (checks <= j < checks + k)%nat -> aborted j = false) ->
    aborted (checks + k)%nat = true ->
    (k < length chatStream)%nat ->
    stream_loop P aborted checks chatStream st
    = (fold_left (process_chunk P) (take k chatStream) st, S (checks + k)).
Proof.
  induction k as [|k IH]; intros chatStream checks st Hnot Hset Hlen.
  - destruct chatStream as [|chunk rest]; [simpl in Hlen; lia |].
    simpl. replace (checks + 0)%nat with checks in * by lia.
    by rewrite Hset.
  - destruct chatStream as [|chunk rest]; [simpl in Hlen; lia |].
    simpl. rewrite Hnot by lia.
    rewrite (IH rest (S checks)).
    + f_equal. lia.
    + intros j Hj. apply Hnot. lia.
    + replace (S checks + k)%nat with (checks + S k)%nat by lia. exact Hset.
    + simpl in Hlen. lia.
Qed.

(** The two shapes of the state after the block on fragments. *)
Lemma handle_tool_call_chunks_cases (chunk : Chunk) (st : LoopState) :
  ((tool_call_chunks chunk = None \/ tool_call_chunks chunk = Some [])
   /\ handle_tool_call_chunks chunk st = st)
  \/ (exists toolChunks,
        tool_call_chunks chunk = Some toolChunks
        /\ toolChunks <> []
        /\ handle_tool_call_chunks chunk st
           = {| streamer := streamer st;
                toolCallsBuffer := toolCallsBuffer st;
                hasToolCalls := true;
                toolCallAccumulator :=
                  fold_left accumulate toolChunks (toolCallAccumulator st);
                ids := ids st |}).
Proof.
  unfold handle_tool_call_chunks.
  destruct (tool_call_chunks chunk) as [[|tc tcs]|].
  - left. split; [by right | done].
  - right. exists (tc :: tcs). by repeat split.
  - left. split; [by left | done].
Qed.

(** The two shapes of the state after the block on complete calls. *)
Lemma handle_tool_calls_cases (chunk : Chunk) (st : LoopState) :
  (handle_tool_calls P chunk st = st
   /\ (forall calls,
         tool_call_chunks chunk = None ->
         tool_calls chunk = Some calls ->
         List.filter valid_tool_call calls = []))
  \/ (exists calls,
        tool_call_chunks chunk = None
        /\ tool_calls chunk = Some calls
        /\ List.filter valid_tool_call calls <> []
        /\ handle_tool_calls P chunk st
           = {| streamer := streamer st;
                toolCallsBuffer :=
                  fst (fold_left (push_tool_call P)
                         (List.filter valid_tool_call calls)
                         (toolCallsBuffer st, ids st));
                hasToolCalls := true;
                toolCallAccumulator := toolCallAccumulator st;
                ids :=
                  snd (fold_left (push_tool_call P)
                         (List.filter valid_tool_call calls)
                         (toolCallsBuffer st, ids st)) |}).
Proof.
  unfold handle_tool_calls.
  destruct (tool_call_chunks chunk) as [toolChunks|]; [by left |].
  destruct (tool_calls chunk) as [[|c cs]|].
  - left. split; [done |]. by intros calls _ [= <-].
  - destruct (List.filter valid_tool_call (c :: cs)) as [|v vs] eqn:Hvalid.
    + left. split; [done |]. by intros calls _ [= <-].
    + right. exists (c :: cs). rewrite Hvalid.
      split; [done |]. split; [done |]. split; [done |].
      by destruct (fold_left (push_tool_call P) (v :: vs)
                     (toolCallsBuffer st, ids st)).
  - by left.
Qed.

Lemma handle_tool_call_chunks_streamer (chunk : Chunk) (st : LoopState) :
  streamer (handle_tool_call_chunks chunk st) = streamer st.
Proof.
  destruct (handle_tool_call_chunks_cases chunk st)
    as [[_ ->] | (toolChunks & _ & _ & ->)]; done.
Qed.

Lemma handle_tool_calls_streamer (chunk : Chunk) (st : LoopState) :
  streamer (handle_tool_calls P chunk st) = streamer st.
Proof.
  destruct (handle_tool_calls_cases chunk st)
    as [[-> _] | (calls & _ & _ & _ & ->)]; done.
Qed.

(** Whatever the signal does, the loop ends in the state reached by
    its body on a prefix of the stream. *)
Lemma stream_loop_prefix (aborted : nat -> bool) (chatStream : list Chunk) :
  forall (checks : nat) (st : LoopState),
  exists k,
    fst (stream_loop P aborted checks chatStream st)
    = fold_left (process_chunk P) (take k chatStream) st.
Proof.
  induction chatStream as [|chunk rest IH]; intros checks st.
  - by exists 0%nat.
  - cbn [stream_loop]. destruct (aborted checks).
    + by exists 0%nat.
    + destruct (IH (S checks) (process_chunk P st chunk)) as [k Hk].
      by exists (S k).
Qed.

Lemma process_chunk_text (st : LoopState) (chunk : Chunk) :
  fullResponse (streamer (process_chunk P st chunk))
  = fullResponse (streamer st) ++ chunk_text chunk.
Proof.
  unfold process_chunk. cbn [streamer processChunk fullResponse].
  by rewrite handle_tool_calls_streamer, handle_tool_call_chunks_streamer.
Qed.

(** The text buffered by the loop is the text of the chunks it
    processed, in their order. *)
Lemma fold_process_chunk_text (chunks : list Chunk) :
  forall st,
    fullResponse (streamer (fold_left (process_chunk P) chunks st))
    = fullResponse (streamer st) ++ concat (map chunk_text chunks).
Proof.
  induction chunks as [|chunk rest IH]; intros st; simpl.
  - by rewrite app_nil_r.
  - by rewrite IH, process_chunk_text, <- app_assoc.
Qed.

(** Nothing is buffered before [hasToolCalls] is raised. *)
Lemma process_chunk_buffer_flag (st : LoopState) (chunk : Chunk) :
  (hasToolCalls st = false -> toolCallsBuffer st = []) ->
  hasToolCalls (process_chunk P st chunk) = false ->
  toolCallsBuffer (process_chunk P st chunk) = [].
Proof.
  unfold process_chunk. cbn [hasToolCalls toolCallsBuffer].
  intros Hinv.
  destruct (handle_tool_calls_cases chunk (handle_tool_call_chunks chunk st))
    as [[-> _] | (calls & _ & _ & _ & ->)]; [| done].
  destruct (handle_tool_call_chunks_cases chunk st)
    as [[_ ->] | (toolChunks & _ & _ & ->)]; done.
Qed.

Lemma fold_process_chunk_buffer_flag (chunks : list Chunk) :
  forall st,
    (hasToolCalls st = false -> toolCallsBuffer st = []) ->
    hasToolCalls (fold_left (process_chunk P) chunks st) = false ->
    toolCallsBuffer (fold_left (process_chunk P) chunks st) = [].
Proof.
  induction chunks as [|chunk rest IH]; intros st Hst; simpl; [done |].
  apply IH. by apply process_chunk_buffer_flag.
Qed.

Lemma resolve_tool_calls_flag (st : LoopState) :
  (hasToolCalls st = false -> toolCallsBuffer st = []) ->
  hasToolCalls st = false ->
  fst (resolve_tool_calls P st) = [].
Proof.
  intros Hinv Hflag. unfold resolve_tool_calls. rewrite Hflag. simpl.
  by apply Hinv.
Qed.
End LoopFacts.

Section OrchestratorFacts.
Variable P : Platform.
Variable settings : Settings.
Variable net : Providers.
Variable m : MCPClientManager.

(** The follow-up loop does nothing when the signal is set at its
    first reading. *)
Lemma followUp_loop_cancelled (aborted : nat -> bool) (checks : nat)
    (followUpStream : list Chunk) (streamer : ThinkBlockStreamer) :
  aborted checks = true ->
  followUp_loop aborted checks followUpStream streamer = streamer.
Proof. intros Hset. destruct followUpStream; simpl; [done | by rewrite Hset]. Qed.

Lemma executeMCPTools_nil (mentionedMCPTools : list jsstring) (n : nat)
    (sent : list ToolRequest) :
  executeMCPTools P settings net m [] mentionedMCPTools n sent = ([], n, sent).
Proof. reflexivity. Qed.

(** The outcome of a run in terms of the state [st] in which the
    first loop ends and of the number of readings of the signal made
    by then. *)
Lemma streamMultimodalResponse_after_loop (aborted : nat -> bool)
    (mentionedMCPTools : list jsstring) (messages : list Message)
    (chatStream : list Chunk) (followUpStream : list Message -> list Chunk)
    (st : LoopState) (checks : nat) :
  stream_loop P aborted 0 chatStream initial_loop_state = (st, checks) ->
  (hasToolCalls st = false -> toolCallsBuffer st = []) ->
  let o := streamMultimodalResponse P settings net m aborted mentionedMCPTools
             messages chatStream followUpStream in
  out_toolCalls o = fst (resolve_tool_calls P st)
  /\ out_toolResults o
     = fst (fst (executeMCPTools P settings net m (out_toolCalls o)
                   mentionedMCPTools (snd (resolve_tool_calls P st)) []))
  /\ out_sent o
     = snd (executeMCPTools P settings net m (out_toolCalls o)
              mentionedMCPTools (snd (resolve_tool_calls P st)) [])
  /\ (aborted checks = true \/ out_toolCalls o = [] ->
      out_fullResponse o = fullResponse (streamer st))
  /\ (out_toolCalls o <> [] ->
      out_messages o
      = messages
        ++ [{| msg_role := u16 "assistant";
               msg_content := ContentString (fullResponse (streamer st));
               msg_tool_calls := Some (out_toolCalls o);
               msg_tool_call_id := None;
               msg_name := None |}]
        ++ map (toolResultMessage P) (out_toolResults o)).
Proof.
  intros Hloop Hinv o. subst o.
  unfold streamMultimodalResponse. rewrite Hloop.
  destruct (resolve_tool_calls P st) as [buffer n] eqn:Hres.
  cbn [fst snd].
  destruct (hasToolCalls st) eqn:Hflag.
  - destruct buffer as [|call rest].
    + cbn. split; [done |]. split; [done |]. split; [done |].
      split; [done | by intros []].
    + cbn [andb length Nat.ltb Nat.leb].
      destruct (executeMCPTools P settings net m (call :: rest)
                  mentionedMCPTools n []) as [[toolResults n'] sent] eqn:Hexec.
      cbn [out_toolCalls out_toolResults out_sent out_fullResponse].
      rewrite Hexec. cbn [fst snd].
      split; [done |]. split; [done |]. split; [done |].
      split; [| done].
      intros [Hset | Hnil]; [| done].
      rewrite followUp_loop_cancelled by exact Hset. reflexivity.
  - assert (buffer = []) as ->.
    { change buffer with (fst (buffer, n)). rewrite <- Hres.
      apply resolve_tool_calls_flag; [intros _; by apply Hinv | exact Hflag]. }
    cbn. split; [done |]. split; [done |]. split; [done |].
    split; [done | by intros []].
Qed.

(** A run cancelled at the [k]-th chunk, in terms of the state reached
    on the [k] chunks before it. *)
Lemma cancelled_run (aborted : nat -> bool)
    (mentionedMCPTools : list jsstring) (messages : list Message)
    (chatStream : list Chunk) (followUpStream : list Message -> list Chunk)
    (k : nat) :
  (forall j, (j < k)%nat -> aborted j = false) ->
  aborted k = true ->
  (k < length chatStream)%nat ->
  let st := fold_left (process_chunk P) (take k chatStream) initial_loop_state in
  let o := streamMultimodalResponse P settings net m aborted mentionedMCPTools
             messages chatStream followUpStream in
  stream_loop P aborted 0 chatStream initial_loop_state = (st, S k)
  /\ out_toolCalls o = fst (resolve_tool_calls P st)
  /\ out_toolResults o
     = fst (fst (executeMCPTools P settings net m (out_toolCalls o)
                   mentionedMCPTools (snd (resolve_tool_calls P st)) []))
  /\ out_sent o
     = snd (executeMCPTools P settings net m (out_toolCalls o)
              mentionedMCPTools (snd (resolve_tool_calls P st)) [])
  /\ (aborted (S k) = true \/ out_toolCalls o = [] ->
      out_fullResponse o = concat (map chunk_text (take k chatStream))).
Proof.
  intros Hnot Hset Hlen st o.
  assert (stream_loop P aborted 0 chatStream initial_loop_state = (st, S k))
    as Hloop.
  { rewrite (stream_loop_cancelled P aborted k); [done | | done | done].
    intros j Hj. apply Hnot. lia. }
  split; [exact Hloop |].
  destruct (streamMultimodalResponse_after_loop aborted mentionedMCPTools
              messages chatStream followUpStream st (S k) Hloop)
    as (Hcalls & Hresults & Hsent & Htext & _).
  { subst st. by apply fold_process_chunk_buffer_flag. }
  split; [exact Hcalls |]. split; [exact Hresults |]. split; [exact Hsent |].
  intros Hstill. subst o. rewrite (Htext Hstill). subst st.
  by rewrite fold_process_chunk_text.
Qed.
End OrchestratorFacts.

(** ** The accumulator *)

(** The entry of the index of a fragment after the fragment. *)
Lemma accumulate_get (acc : JSMap.t (option Z) Accumulator)
    (toolChunk : ToolCallChunk) :
  exists accumulator,
    JSMap.get (tcc_index toolChunk) (accumulate acc toolChunk) = Some accumulator
    /\ acc_args accumulator
       = accumulated_args acc (tcc_index toolChunk)
         ++ default [] (tcc_args toolChunk)
    /\ acc_name accumulator
       = if truthy_ostr (tcc_name toolChunk)
         then default [] (tcc_name toolChunk)
         else accumulated_name acc (tcc_index toolChunk).
Proof.
  unfold accumulate, accumulated_args, accumulated_name, JSMap.has.
  destruct (JSMap.get (tcc_index toolChunk) acc) as [old|] eqn:Hold.
  - rewrite Hold. eexists. rewrite get_set_eq. split; [done |].
    cbn [acc_args acc_name]. split; [| done].
    destruct (tcc_args toolChunk) as [[|c s]|]; cbn; by rewrite ?app_nil_r.
  - rewrite get_set_eq. eexists. rewrite get_set_eq. split; [done |].
    cbn [acc_args acc_name]. split; [| done].
    destruct (tcc_args toolChunk) as [[|c s]|]; cbn; done.
Qed.

Lemma accumulate_get_other (acc : JSMap.t (option Z) Accumulator)
    (toolChunk : ToolCallChunk) (index : option Z) :
  tcc_index toolChunk <> index ->
  JSMap.get index (accumulate acc toolChunk) = JSMap.get index acc.
Proof.
  intros Hne. unfold accumulate, JSMap.has.
  destruct (JSMap.get (tcc_index toolChunk) acc) as [old|] eqn:Hold.
  - rewrite Hold. by rewrite get_set_ne.
  - rewrite get_set_eq. by rewrite !get_set_ne.
Qed.

Lemma accumulate_args (acc : JSMap.t (option Z) Accumulator)
    (toolChunk : ToolCallChunk) (index : option Z) :
  accumulated_args (accumulate acc toolChunk) index
  = accumulated_args acc index ++ concat (args_for index [toolChunk]).
Proof.
  unfold args_for. cbn [List.filter].
  destruct (decide (tcc_index toolChunk = index)) as [<-|Hne].
  - rewrite bool_decide_eq_true_2 by done. cbn [map concat].
    rewrite app_nil_r.
    destruct (accumulate_get acc toolChunk) as (a & Hget & Hargs & _).
    unfold accumulated_args at 1. by rewrite Hget.
  - rewrite bool_decide_eq_false_2 by done. cbn [map concat].
    rewrite app_nil_r. unfold accumulated_args.
    by rewrite accumulate_get_other.
Qed.

Lemma args_for_cons (index : option Z) (toolChunk : ToolCallChunk)
    (toolChunks : list ToolCallChunk) :
  concat (args_for index (toolChunk :: toolChunks))
  = concat (args_for index [toolChunk]) ++ concat (args_for index toolChunks).
Proof.
  unfold args_for. cbn [List.filter].
  destruct (bool_decide (tcc_index toolChunk = index)); cbn [map concat app].
  - by rewrite app_nil_r.
  - done.
Qed.

(** Every fragment appends to the argument text of its index. *)
Lemma fold_accumulate_args (toolChunks : list ToolCallChunk) (index : option Z) :
  forall acc,
    accumulated_args (fold_left accumulate toolChunks acc) index
    = accumulated_args acc index ++ concat (args_for index toolChunks).
Proof.
  induction toolChunks as [|toolChunk rest IH]; intros acc.
  - cbn. by rewrite app_nil_r.
  - cbn [fold_left].
    rewrite (args_for_cons index toolChunk rest), IH, accumulate_args.
    by rewrite <- app_assoc.
Qed.

Lemma accumulate_name (acc : JSMap.t (option Z) Accumulator)
    (toolChunk : ToolCallChunk) :
  accumulated_name (accumulate acc toolChunk) (tcc_index toolChunk)
  = if truthy_ostr (tcc_name toolChunk)
    then default [] (tcc_name toolChunk)
    else accumulated_name acc (tcc_index toolChunk).
Proof.
  destruct (accumulate_get acc toolChunk) as (a & Hget & _ & Hname).
  unfold accumulated_name at 1. by rewrite Hget.
Qed.

Lemma accumulate_nonempty (acc : JSMap.t (option Z) Accumulator)
    (toolChunk : ToolCallChunk) :
  accumulate acc toolChunk <> [].
Proof.
  destruct (accumulate_get acc toolChunk) as (a & Hget & _).
  intros Hnil. by rewrite Hnil in Hget.
Qed.

Lemma fold_accumulate_nonempty (toolChunks : list ToolCallChunk) :
  forall acc, toolChunks <> [] \/ acc <> [] ->
              fold_left accumulate toolChunks acc <> [].
Proof.
  induction toolChunks as [|toolChunk rest IH]; intros acc [H|H]; cbn; try done.
  - apply IH. right. apply accumulate_nonempty.
  - apply IH. right. apply accumulate_nonempty.
Qed.

Lemma filter_filter_ext {A} (f g h : A -> bool) (l : list A) :
  (forall x, h x = g x && f x) ->
  List.filter f (List.filter g l) = List.filter h l.
Proof.
  intros Hh. induction l as [|x l IH]; [done |]. cbn [List.filter].
  rewrite (Hh x). destruct (g x); cbn [andb List.filter]; [| exact IH].
  destruct (f x); by rewrite IH.
Qed.

Lemma in_keys_has {V} (index : option Z) (acc : JSMap.t (option Z) V) :
  JSMap.has index acc = bool_decide (index ∈ JSMap.keys acc).
Proof.
  unfold JSMap.has. destruct (JSMap.get index acc) eqn:Hget.
  - symmetry. apply bool_decide_eq_true_2, list_elem_of_In.
    destruct (decide (index ∈ JSMap.keys acc)) as [Hin|Hnot];
      [by apply list_elem_of_In |].
    rewrite list_elem_of_In in Hnot. apply get_None_keys in Hnot. congruence.
  - symmetry. apply bool_decide_eq_false_2. rewrite list_elem_of_In.
    by apply get_None_keys.
Qed.

(** A fragment adds the key of its index to the accumulator when it is
    the first for that index, and leaves the keys otherwise. *)
Lemma accumulate_keys (acc : JSMap.t (option Z) Accumulator)
    (toolChunk : ToolCallChunk) :
  JSMap.keys (accumulate acc toolChunk)
  = if bool_decide (tcc_index toolChunk ∈ JSMap.keys acc) then JSMap.keys acc
    else JSMap.keys acc ++ [tcc_index toolChunk].
Proof.
  unfold accumulate. cbv zeta. rewrite in_keys_has.
  destruct (decide (tcc_index toolChunk ∈ JSMap.keys acc)) as [Hin|Hnot].
  - rewrite bool_decide_eq_true_2 by done.
    destruct (JSMap.get (tcc_index toolChunk) acc); [| done].
    apply keys_set_in. by apply list_elem_of_In.
  - rewrite bool_decide_eq_false_2 by done. rewrite get_set_eq.
    rewrite keys_set_in.
    + apply keys_set_notin. by rewrite <- list_elem_of_In.
    + rewrite keys_set_notin by (by rewrite <- list_elem_of_In).
      apply in_or_app. right. by left.
Qed.

(** The keys of the accumulator are the indices of the fragments, in
    the order in which they first appeared. *)
Lemma fold_accumulate_keys (toolChunks : list ToolCallChunk) :
  forall acc : JSMap.t (option Z) Accumulator,
    JSMap.keys (fold_left accumulate toolChunks acc)
    = JSMap.keys acc
      ++ List.filter (fun index => negb (bool_decide (index ∈ JSMap.keys acc)))
           (first_occurrences (map tcc_index toolChunks)).
Proof.
  induction toolChunks as [|toolChunk rest IH]; intros acc.
  { cbn. by rewrite app_nil_r. }
  cbn [fold_left map first_occurrences List.filter].
  rewrite IH, accumulate_keys.
  destruct (decide (tcc_index toolChunk ∈ JSMap.keys acc)) as [Hin|Hnot].
  - rewrite !(bool_decide_eq_true_2 (tcc_index toolChunk ∈ JSMap.keys acc))
      by done.
    cbn [negb]. f_equal. symmetry. apply filter_filter_ext.
    intros index. destruct (decide (index = tcc_index toolChunk)) as [->|Hne].
    + rewrite (bool_decide_eq_true_2 (tcc_index toolChunk ∈ JSMap.keys acc))
        by done.
      by rewrite andb_false_r.
    + by rewrite (bool_decide_eq_false_2 (index = tcc_index toolChunk)).
  - rewrite !(bool_decide_eq_false_2 (tcc_index toolChunk ∈ JSMap.keys acc))
      by done.
    cbn [negb]. rewrite <- app_assoc. cbn [app]. do 2 f_equal.
    symmetry. apply filter_filter_ext.
    intros index. destruct (decide (index = tcc_index toolChunk)) as [->|Hne].
    + rewrite bool_decide_eq_true_2 by (apply elem_of_app; right; by left).
      by rewrite (bool_decide_eq_true_2 (tcc_index toolChunk = tcc_index toolChunk)).
    + rewrite (bool_decide_eq_false_2 (index = tcc_index toolChunk)) by done.
      cbn [negb andb]. f_equal. apply bool_decide_ext.
      rewrite elem_of_app, list_elem_of_singleton. naive_solver.
Qed.

Section AccumulatorFacts.
Variable P : Platform.

(** The accumulator after a chunk: the fragments of the chunk are
    accumulated in their order. *)
Lemma process_chunk_accumulator (st : LoopState) (chunk : Chunk) :
  toolCallAccumulator (process_chunk P st chunk)
  = fold_left accumulate (default [] (tool_call_chunks chunk))
      (toolCallAccumulator st).
Proof.
  unfold process_chunk. cbn [toolCallAccumulator].
  destruct (handle_tool_calls_cases P chunk (handle_tool_call_chunks chunk st))
    as [[-> _] | (calls & _ & _ & _ & ->)]; cbn [toolCallAccumulator];
    destruct (handle_tool_call_chunks_cases chunk st)
      as [[[-> | ->] ->] | (toolChunks & -> & _ & ->)]; done.
Qed.

Lemma fold_process_chunk_accumulator (chunks : list Chunk) :
  forall st,
    toolCallAccumulator (fold_left (process_chunk P) chunks st)
    = fold_left accumulate (fragments_of chunks) (toolCallAccumulator st).
Proof.
  induction chunks as [|chunk rest IH]; intros st; [done |].
  cbn [fold_left]. rewrite IH, process_chunk_accumulator.
  unfold fragments_of. cbn [flat_map]. by rewrite fold_left_app.
Qed.

(** Over a whole stream: the argument text of an index is the
    concatenation of the substrings its fragments carried. *)
Lemma stream_accumulated_args (chunks : list Chunk) (index : option Z) :
  accumulated_args
    (toolCallAccumulator (fold_left (process_chunk P) chunks initial_loop_state))
    index
  = concat (args_for index (fragments_of chunks)).
Proof. by rewrite fold_process_chunk_accumulator, fold_accumulate_args. Qed.
End AccumulatorFacts.

(** C4 (amended). Fragment reassembly: over a whole stream the
    argument text of an index is the concatenation, in order of
    arrival, of the substrings its fragments carried; a single fragment
    appends its substring to the text of its index and leaves the text
    of the other indices; a fragment whose name is missing or empty
    leaves the name of its index as it is, and a fragment with any
    other name, be it of white space only, makes that name the name of
    the index; and the three fragments of the claim for index 0, which cut the text of
    the object with [a] = 1 and [b] = 2 after its first colon and after
    its comma, resolve at the end of the stream to one call whose
    arguments are what [JSON.parse] makes of the whole text: that
    object. *)
Theorem fragment_reassembly (P : Platform) :
  (forall (chatStream : list Chunk) (index : option Z),
     accumulated_args
       (toolCallAccumulator
          (fold_left (process_chunk P) chatStream initial_loop_state)) index
     = concat (args_for index (fragments_of chatStream)))
  /\ (forall (acc : JSMap.t (option Z) Accumulator) (toolChunk : ToolCallChunk)
             (index : option Z),
        accumulated_args (accumulate acc toolChunk) index
        = accumulated_args acc index ++ concat (args_for index [toolChunk]))
  /\ (forall (acc : JSMap.t (option Z) Accumulator) (toolChunk : ToolCallChunk),
        accumulated_name (accumulate acc toolChunk) (tcc_index toolChunk)
        = if truthy_ostr (tcc_name toolChunk)
          then default [] (tcc_name toolChunk)
          else accumulated_name acc (tcc_index toolChunk))
  /\ (forall (settings : Settings) (net : Providers) (m : MCPClientManager)
             (mentionedMCPTools : list jsstring) (messages : list Message)
             (followUpStream : list Message -> list Chunk),
        JSON_parse P Scenario.a1_b2_text = Ok Scenario.a1_b2 ->
        concat (args_for (Some 0%Z) (fragments_of Scenario.reassembly_stream))
        = Scenario.a1_b2_text
        /\ out_toolCalls
             (streamMultimodalResponse P settings net m Scenario.never
                mentionedMCPTools messages Scenario.reassembly_stream
                followUpStream)
           = [{| call_id := u16 "call_1";
                 call_name := u16 "echo";
                 call_args := Scenario.a1_b2;
                 call_input := None |}]).
Proof.
  split; [apply stream_accumulated_args |].
  split; [apply accumulate_args |].
  split; [apply accumulate_name |].
  intros settings net m mentionedMCPTools messages followUpStream Hparse.
  split; [reflexivity |].
  assert (stream_loop P Scenario.never 0 Scenario.reassembly_stream
            initial_loop_state
          = (fold_left (process_chunk P) Scenario.reassembly_stream
               initial_loop_state, 3%nat)) as Hloop.
  { by apply stream_loop_complete. }
  destruct (streamMultimodalResponse_after_loop P settings net m Scenario.never
              mentionedMCPTools messages Scenario.reassembly_stream
              followUpStream _ _ Hloop) as (-> & _).
  { by apply fold_process_chunk_buffer_flag. }
  unfold resolve_tool_calls.
  change (fold_left (process_chunk P) Scenario.reassembly_stream
            initial_loop_state)
    with {| streamer :=
              {| fullResponse := []; shown := [[]; []; []] |};
            toolCallsBuffer := [];
            hasToolCalls := true;
            toolCallAccumulator :=
              [(Some 0%Z,
                {| acc_name := u16 "echo";
                   acc_args := Scenario.a1_b2_text;
                   acc_id := Some (u16 "call_1") |})];
            ids := 0%nat |}.
  cbn [hasToolCalls toolCallAccumulator JSMap.size JSMap.entries length
       Nat.ltb Nat.leb andb ids fold_left].
  unfold parse_accumulated. cbn [acc_name acc_args acc_id].
  rewrite Hparse. reflexivity.
Qed.

(** C4 as stated fails for a blank name of white space: the call is
    named [echo] by its first fragment, the second fragment for the
    same index bears a name of one space, which is blank, and the name
    of the index and of the resolved call is that space. *)
Lemma fragment_reassembly_counterexample :
  non_blank (u16 "echo") = true
  /\ non_blank (u16 " ") = false
  /\ accumulated_name
       (toolCallAccumulator
          (fold_left (process_chunk reference_platform)
             (take 1 Scenario.renamed_blank) initial_loop_state))
       (Some 0%Z)
     = u16 "echo"
  /\ accumulated_name
       (toolCallAccumulator
          (fold_left (process_chunk reference_platform)
             Scenario.renamed_blank initial_loop_state))
       (Some 0%Z)
     = u16 " "
  /\ map call_name
       (out_toolCalls
          (streamMultimodalResponse reference_platform (Scenario.settings_with [])
             Scenario.pong (Scenario.connected [u16 "echo"]) Scenario.never
             [canonical_id Scenario.alpha (u16 "echo")] [Scenario.user_message]
             Scenario.renamed_blank Scenario.follow_up))
     = [u16 " "].
Proof. repeat split; vm_compute; reflexivity. Qed.

Lemma fragment_reassembly_witness :
  JSON_parse reference_platform Scenario.a1_b2_text = Ok Scenario.a1_b2
  /\ out_toolCalls
       (streamMultimodalResponse reference_platform (Scenario.settings_with [])
          Scenario.pong (Scenario.connected [u16 "echo"]) Scenario.never
          [canonical_id Scenario.alpha (u16 "echo")] [Scenario.user_message]
          Scenario.reassembly_stream Scenario.follow_up)
     = [{| call_id := u16 "call_1";
           call_name := u16 "echo";
           call_args := Scenario.a1_b2;
           call_input := None |}].
Proof.
  assert (JSON_parse reference_platform Scenario.a1_b2_text = Ok Scenario.a1_b2)
    as Hparse by (vm_compute; reflexivity).
  split; [exact Hparse |].
  apply (proj2 (proj2 (proj2 (proj2 (fragment_reassembly reference_platform)))
                  (Scenario.settings_with []) Scenario.pong
                  (Scenario.connected [u16 "echo"])
                  [canonical_id Scenario.alpha (u16 "echo")]
                  [Scenario.user_message] Scenario.follow_up Hparse)).
Defined.

(** ** Complete calls *)

Section BufferFacts.
Variable P : Platform.

Lemma push_tool_call_spec (buffer : list BufferedCall) (n : nat)
    (toolCall : ToolCall) :
  exists call n',
    push_tool_call P (buffer, n) toolCall = (buffer ++ [call], n')
    /\ (valid_tool_call toolCall = true -> accepted_as toolCall call).
Proof.
  assert (valid_tool_call toolCall = true ->
          Some (default [] (tc_name toolCall)) = tc_name toolCall) as Hname.
  { unfold valid_tool_call. by destruct (tc_name toolCall). }
  unfold push_tool_call.
  destruct (truthy_ostr (tc_id toolCall)) eqn:Hid.
  - eexists. eexists. split; [reflexivity |].
    intros Hvalid. unfold accepted_as.
    cbn [call_name call_args call_input call_id].
    split; [by apply Hname |]. split; [done |]. split; [done |].
    intros _. by destruct (tc_id toolCall).
  - eexists. eexists. split; [reflexivity |].
    intros Hvalid. unfold accepted_as.
    cbn [call_name call_args call_input call_id].
    split; [by apply Hname |]. split; [done |]. split; [done |].
    rewrite Hid. done.
Qed.

Lemma fold_push_tool_call (calls : list ToolCall) :
  forall (buffer : list BufferedCall) (n : nat),
  exists ext,
    fst (fold_left (push_tool_call P) calls (buffer, n)) = buffer ++ ext
    /\ (forall toolCall,
          In toolCall calls -> valid_tool_call toolCall = true ->
          exists call, In call ext /\ accepted_as toolCall call).
Proof.
  induction calls as [|toolCall rest IH]; intros buffer n.
  - exists []. cbn. rewrite app_nil_r. split; [done |]. by intros tc [].
  - cbn [fold_left].
    destruct (push_tool_call_spec buffer n toolCall) as (c0 & n0 & -> & Hc0).
    destruct (IH (buffer ++ [c0]) n0) as (ext & Hfst & Hin).
    exists (c0 :: ext). split.
    + rewrite Hfst, <- app_assoc. done.
    + intros tc [<- | Htc] Hvalid.
      * exists c0. split; [by left | by apply Hc0].
      * destruct (Hin tc Htc Hvalid) as (c & Hc & Hacc).
        exists c. split; [by right | done].
Qed.

(** A chunk only adds to the buffer, and it adds every complete call
    with a non-blank name when it has no [tool_call_chunks]. *)
Lemma process_chunk_buffer (st : LoopState) (chunk : Chunk) :
  exists ext,
    toolCallsBuffer (process_chunk P st chunk) = toolCallsBuffer st ++ ext
    /\ (forall calls toolCall,
          tool_call_chunks chunk = None ->
          tool_calls chunk = Some calls ->
          In toolCall calls -> valid_tool_call toolCall = true ->
          exists call, In call ext /\ accepted_as toolCall call).
Proof.
  unfold process_chunk. cbn [toolCallsBuffer].
  assert (toolCallsBuffer (handle_tool_call_chunks chunk st) = toolCallsBuffer st)
    as Hsame.
  { destruct (handle_tool_call_chunks_cases chunk st)
      as [[_ ->] | (toolChunks & _ & _ & ->)]; done. }
  destruct (handle_tool_calls_cases P chunk (handle_tool_call_chunks chunk st))
    as [[-> Hnone] | (calls & Hchunks & Hcalls & _ & ->)].
  - exists []. rewrite Hsame, app_nil_r. split; [done |].
    intros calls tc Hchunks Hcalls Hin Hvalid.
    specialize (Hnone calls Hchunks Hcalls).
    assert (In tc (List.filter valid_tool_call calls)) as Hf
      by (apply filter_In; done).
    rewrite Hnone in Hf. destruct Hf.
  - cbn [toolCallsBuffer]. rewrite Hsame.
    destruct (fold_push_tool_call (List.filter valid_tool_call calls)
                (toolCallsBuffer st) (ids (handle_tool_call_chunks chunk st)))
      as (ext & Hfst & Hin).
    exists ext. split; [exact Hfst |].
    intros calls' tc _ Hcalls' Htc Hvalid.
    rewrite Hcalls in Hcalls'. injection Hcalls' as <-.
    apply Hin; [| done]. apply filter_In. done.
Qed.

Lemma fold_process_chunk_buffer_grows (chunks : list Chunk) :
  forall st, exists ext,
    toolCallsBuffer (fold_left (process_chunk P) chunks st)
    = toolCallsBuffer st ++ ext.
Proof.
  induction chunks as [|chunk rest IH]; intros st.
  - exists []. cbn. by rewrite app_nil_r.
  - cbn [fold_left].
    destruct (IH (process_chunk P st chunk)) as (ext & ->).
    destruct (process_chunk_buffer st chunk) as (ext0 & -> & _).
    exists (ext0 ++ ext). by rewrite app_assoc.
Qed.

(** At the end of the loop the buffer holds every complete call with
    a non-blank name that came in a chunk without [tool_call_chunks]. *)
Lemma fold_process_chunk_buffer (chunks : list Chunk) :
  forall st chunk calls toolCall,
    In chunk chunks ->
    tool_call_chunks chunk = None ->
    tool_calls chunk = Some calls ->
    In toolCall calls -> valid_tool_call toolCall = true ->
    exists call,
      In call (toolCallsBuffer (fold_left (process_chunk P) chunks st))
      /\ accepted_as toolCall call.
Proof.
  induction chunks as [|chunk0 rest IH];
    intros st chunk calls tc Hin Hchunks Hcalls Htc Hvalid; [destruct Hin |].
  cbn [fold_left]. destruct Hin as [-> | Hin].
  - destruct (process_chunk_buffer st chunk) as (ext0 & Hbuf & Hcall).
    destruct (Hcall calls tc Hchunks Hcalls Htc Hvalid) as (c & Hc & Hacc).
    destruct (fold_process_chunk_buffer_grows rest (process_chunk P st chunk))
      as (ext & ->).
    exists c. split; [| done].
    rewrite Hbuf. apply in_or_app. left. apply in_or_app. by right.
  - by apply (IH _ chunk calls).
Qed.

Lemma process_chunk_flag (st : LoopState) (chunk : Chunk) :
  hasToolCalls st = true \/ default [] (tool_call_chunks chunk) <> [] ->
  hasToolCalls (process_chunk P st chunk) = true.
Proof.
  unfold process_chunk. cbn [hasToolCalls]. intros Hor.
  destruct (handle_tool_calls_cases P chunk (handle_tool_call_chunks chunk st))
    as [[-> _] | (calls & _ & _ & _ & ->)]; [| done].
  destruct (handle_tool_call_chunks_cases chunk st)
    as [[[Hn | Hn] ->] | (toolChunks & _ & _ & ->)]; [| | done].
  - destruct Hor as [H | H]; [done |]. by rewrite Hn in H.
  - destruct Hor as [H | H]; [done |]. by rewrite Hn in H.
Qed.

Lemma fold_process_chunk_flag (chunks : list Chunk) :
  forall st,
    hasToolCalls st = true \/ fragments_of chunks <> [] ->
    hasToolCalls (fold_left (process_chunk P) chunks st) = true.
Proof.
  induction chunks as [|chunk rest IH]; intros st Hor.
  - destruct Hor as [H | H]; done.
  - cbn [fold_left]. apply IH.
    destruct Hor as [H | H].
    + left. apply process_chunk_flag. by left.
    + unfold fragments_of in H. cbn [flat_map] in H.
      destruct (default [] (tool_call_chunks chunk)) as [|tc tcs] eqn:Hd.
      * right. exact H.
      * left. apply process_chunk_flag. right. by rewrite Hd.
Qed.

Lemma parse_accumulated_spec (buffer : list BufferedCall) (n : nat)
    (index : option Z) (accumulator : Accumulator) :
  parse_accumulated P (buffer, n) (index, accumulator) = (buffer, n)
  \/ exists call n',
       parse_accumulated P (buffer, n) (index, accumulator)
       = (buffer ++ [call], n')
       /\ rebuilt_from P accumulator call.
Proof.
  unfold parse_accumulated.
  destruct (truthy_str (acc_name accumulator) && truthy_str (acc_args accumulator));
    [| by left].
  destruct (JSON_parse P (acc_args accumulator)) as [parsedArgs|error] eqn:Hparse;
    [| by left].
  right. destruct (truthy_ostr (acc_id accumulator));
    eexists; eexists; (split; [reflexivity |]); by repeat split.
Qed.

(** The calls rebuilt at the end of the stream all come from entries
    of the accumulator. *)
Lemma fold_parse_accumulated (entries : list (option Z * Accumulator)) :
  forall (buffer : list BufferedCall) (n : nat) (call : BufferedCall),
    In call (fst (fold_left (parse_accumulated P) entries (buffer, n))) ->
    In call buffer
    \/ exists index accumulator,
         In (index, accumulator) entries /\ rebuilt_from P accumulator call.
Proof.
  induction entries as [|[index accumulator] rest IH]; intros buffer n call Hin.
  - by left.
  - cbn [fold_left] in Hin.
    destruct (parse_accumulated_spec buffer n index accumulator)
      as [Heq | (c & n' & Heq & Hc)]; rewrite Heq in Hin.
    + destruct (IH _ _ _ Hin) as [H | (i & a & Hia & Hr)]; [by left |].
      right. exists i, a. split; [by right | done].
    + destruct (IH _ _ _ Hin) as [H | (i & a & Hia & Hr)].
      * apply in_app_or in H as [H | [<- | []]]; [by left |].
        right. exists index, accumulator. split; [by left | done].
      * right. exists i, a. split; [by right | done].
Qed.
End BufferFacts.

Section Resolution.
Variable P : Platform.

Lemma fold_parse_accumulated_resolvable
    (entries : list (option Z * Accumulator)) :
  forall (buffer : list BufferedCall) (n : nat),
  exists calls,
    fst (fold_left (parse_accumulated P) entries (buffer, n)) = buffer ++ calls
    /\ Forall2
         (fun entry call =>
            rebuilt_from P (snd entry) call
            /\ (truthy_ostr (acc_id (snd entry)) = true ->
                Some (call_id call) = acc_id (snd entry)))
         (List.filter (resolvable P) entries) calls.
Proof.
  induction entries as [|[index accumulator] rest IH]; intros buffer n.
  { exists []. cbn. by rewrite app_nil_r. }
  cbn [fold_left List.filter]. unfold resolvable at 1. cbn [snd].
  unfold parse_accumulated at 2.
  destruct (truthy_str (acc_name accumulator)
            && truthy_str (acc_args accumulator)); [| by apply IH].
  destruct (JSON_parse P (acc_args accumulator)) as [parsedArgs|error] eqn:Hp;
    [| by apply IH].
  cbn [andb is_ok].
  destruct (truthy_ostr (acc_id accumulator)) eqn:Hid.
  - destruct (IH (buffer ++ [{| call_id := default [] (acc_id accumulator);
                                call_name := acc_name accumulator;
                                call_args := parsedArgs;
                                call_input := None |}]) n)
      as (calls & E & Hall).
    eexists (_ :: calls). split; [by rewrite E, <- app_assoc |].
    constructor; [| done]. cbn [snd].
    split; [unfold rebuilt_from; by cbn |]. intros _. cbn [call_id].
    destruct (acc_id accumulator); [done | discriminate].
  - destruct (IH (buffer ++ [{| call_id := indexed_call_id P n index;
                                call_name := acc_name accumulator;
                                call_args := parsedArgs;
                                call_input := None |}]) (S n))
      as (calls & E & Hall).
    eexists (_ :: calls). split; [by rewrite E, <- app_assoc |].
    constructor; [| done]. cbn [snd].
    split; [unfold rebuilt_from; by cbn |]. intros Hx. congruence.
Qed.
End Resolution.

Section CompleteCalls.
Variable P : Platform.
Variable settings : Settings.
Variable net : Providers.
Variable m : MCPClientManager.

Lemma initial_buffer_flag :
  hasToolCalls initial_loop_state = false ->
  toolCallsBuffer initial_loop_state = [].
Proof. done. Qed.

Lemma present_chunk_buffer (st : LoopState) (chunk : Chunk) :
  tool_call_chunks chunk <> None ->
  toolCallsBuffer (process_chunk P st chunk) = toolCallsBuffer st.
Proof.
  intros Hpresent. unfold process_chunk. cbn [toolCallsBuffer].
  destruct (handle_tool_calls_cases P chunk (handle_tool_call_chunks chunk st))
    as [[-> _] | (calls & Hnone & _)]; [| done].
  destruct (handle_tool_call_chunks_cases chunk st)
    as [[_ ->] | (toolChunks & _ & _ & ->)]; done.
Qed.

Lemma fold_present_chunk_buffer (chunks : list Chunk) :
  forall st,
    Forall (fun chunk => tool_call_chunks chunk <> None) chunks ->
    toolCallsBuffer (fold_left (process_chunk P) chunks st) = toolCallsBuffer st.
Proof.
  induction chunks as [|chunk rest IH]; intros st Hall; [done |].
  apply Forall_cons in Hall as [Hchunk Hrest]. cbn [fold_left].
  rewrite (IH _ Hrest). by apply present_chunk_buffer.
Qed.

(** C3. Acceptance of complete calls, on a stream consumed to its end.
    When no fragment was accumulated, a complete call with a non-blank
    name is among the resolved calls if it came in a chunk without
    [tool_call_chunks] property. The code diverges from the claim for a
    chunk that has the property, were it the empty array: such a chunk
    adds no call, so that in a stream whose chunks all have the property
    and carry no fragment no call is resolved, no result produced and no
    request sent, whatever complete calls the chunks carry. When some
    fragment was accumulated, every resolved call is rebuilt from an
    entry of the accumulator, the complete calls being dropped. *)
Theorem complete_call_acceptance (aborted : nat -> bool)
    (mentionedMCPTools : list jsstring) (messages : list Message)
    (chatStream : list Chunk) (followUpStream : list Message -> list Chunk) :
  (forall j, (j < length chatStream)%nat -> aborted j = false) ->
  let st := fold_left (process_chunk P) chatStream initial_loop_state in
  let o := streamMultimodalResponse P settings net m aborted mentionedMCPTools
             messages chatStream followUpStream in
  (fragments_of chatStream = [] ->
   forall chunk calls toolCall,
     In chunk chatStream ->
     tool_call_chunks chunk = None ->
     tool_calls chunk = Some calls ->
     In toolCall calls ->
     valid_tool_call toolCall = true ->
     exists call, In call (out_toolCalls o) /\ accepted_as toolCall call)
  /\ (fragments_of chatStream = [] ->
      Forall (fun chunk => tool_call_chunks chunk <> None) chatStream ->
      out_toolCalls o = [] /\ out_toolResults o = [] /\ out_sent o = []
      /\ out_messages o = messages)
  /\ (fragments_of chatStream <> [] ->
      forall call,
        In call (out_toolCalls o) ->
        exists index accumulator,
          In (index, accumulator) (JSMap.entries (toolCallAccumulator st))
          /\ rebuilt_from P accumulator call).
Proof.
  intros Hnot st o.
  assert (stream_loop P aborted 0 chatStream initial_loop_state
          = (st, (0 + length chatStream)%nat)) as Hloop.
  { apply stream_loop_complete. intros j Hj. apply Hnot. lia. }
  destruct (streamMultimodalResponse_after_loop P settings net m aborted
              mentionedMCPTools messages chatStream followUpStream st _ Hloop)
    as (Hcalls & Hresults & Hsent & _).
  { subst st. apply fold_process_chunk_buffer_flag. done. }
  fold o in Hcalls, Hresults, Hsent.
  assert (toolCallAccumulator st = fold_left accumulate (fragments_of chatStream) [])
    as Hacc by (subst st; apply fold_process_chunk_accumulator).
  split; [| split].
  - intros Hnone chunk calls toolCall Hchunk Hchunks Hcallsc Hin Hvalid.
    rewrite Hcalls. unfold resolve_tool_calls.
    rewrite Hacc, Hnone. cbn [fold_left JSMap.size length Nat.ltb Nat.leb].
    rewrite andb_false_r. cbn [fst]. subst st.
    by apply (fold_process_chunk_buffer P chatStream _ chunk calls).
  - intros Hnone Hpresent.
    assert (out_toolCalls o = []) as Hempty.
    { rewrite Hcalls. unfold resolve_tool_calls.
      rewrite Hacc, Hnone. cbn [fold_left JSMap.size length Nat.ltb Nat.leb].
      rewrite andb_false_r. cbn [fst]. subst st.
      by rewrite fold_present_chunk_buffer. }
    split; [exact Hempty |].
    rewrite Hresults, Hsent, Hempty. split; [done |]. split; [done |].
    unfold o, streamMultimodalResponse. rewrite Hloop.
    fold o. rewrite (surjective_pairing (resolve_tool_calls P st)).
    rewrite <- Hcalls, Hempty. cbn [length Nat.ltb Nat.leb].
    by rewrite andb_false_r.
  - intros Hsome call Hin.
    rewrite Hcalls in Hin. unfold resolve_tool_calls in Hin.
    assert (hasToolCalls st = true) as Hflag
      by (subst st; apply fold_process_chunk_flag; by right).
    rewrite Hflag in Hin.
    assert (toolCallAccumulator st <> []) as Hne.
    { rewrite Hacc. apply fold_accumulate_nonempty. by left. }
    destruct (toolCallAccumulator st) as [|entry entries] eqn:Hentries; [done |].
    cbn [JSMap.size length Nat.ltb Nat.leb andb] in Hin.
    apply fold_parse_accumulated in Hin as [[] | Hin].
    exact Hin.
Qed.
End CompleteCalls.

Lemma complete_call_acceptance_witness :
  (forall j, (j < length Scenario.call_beside_empty_chunks)%nat ->
             Scenario.never j = false)
  /\ fragments_of Scenario.call_beside_empty_chunks = []
  /\ Forall (fun chunk => tool_call_chunks chunk <> None)
       Scenario.call_beside_empty_chunks
  /\ out_toolCalls
       (streamMultimodalResponse reference_platform (Scenario.settings_with [])
          Scenario.pong (Scenario.connected [u16 "echo"]) Scenario.never
          [canonical_id Scenario.alpha (u16 "echo")] [Scenario.user_message]
          Scenario.call_beside_empty_chunks Scenario.follow_up) = []
  /\ out_toolResults
       (streamMultimodalResponse reference_platform (Scenario.settings_with [])
          Scenario.pong (Scenario.connected [u16 "echo"]) Scenario.never
          [canonical_id Scenario.alpha (u16 "echo")] [Scenario.user_message]
          Scenario.call_beside_empty_chunks Scenario.follow_up) = []
  /\ out_sent
       (streamMultimodalResponse reference_platform (Scenario.settings_with [])
          Scenario.pong (Scenario.connected [u16 "echo"]) Scenario.never
          [canonical_id Scenario.alpha (u16 "echo")] [Scenario.user_message]
          Scenario.call_beside_empty_chunks Scenario.follow_up) = []
  /\ out_messages
       (streamMultimodalResponse reference_platform (Scenario.settings_with [])
          Scenario.pong (Scenario.connected [u16 "echo"]) Scenario.never
          [canonical_id Scenario.alpha (u16 "echo")] [Scenario.user_message]
          Scenario.call_beside_empty_chunks Scenario.follow_up)
     = [Scenario.user_message].
Proof.
  assert (forall j, (j < length Scenario.call_beside_empty_chunks)%nat ->
                    Scenario.never j = false) as Hnever by done.
  assert (Forall (fun chunk => tool_call_chunks chunk <> None)
            Scenario.call_beside_empty_chunks) as Hpresent.
  { repeat constructor. discriminate. }
  split; [exact Hnever |]. split; [reflexivity |]. split; [exact Hpresent |].
  apply (proj1 (proj2 (complete_call_acceptance reference_platform
                         (Scenario.settings_with []) Scenario.pong
                         (Scenario.connected [u16 "echo"]) Scenario.never
                         [canonical_id Scenario.alpha (u16 "echo")]
                         [Scenario.user_message]
                         Scenario.call_beside_empty_chunks Scenario.follow_up
                         Hnever))
           eq_refl Hpresent).
Defined.

(** The call [echo] of [call_beside_empty_chunks] is valid and comes in
    a pass without fragment; the same call in a chunk without
    [tool_call_chunks] property is resolved. *)
Example complete_call_beside_empty_chunks :
  valid_tool_call (Scenario.complete_call "whole_1" "echo") = true
  /\ map tool_calls Scenario.call_beside_empty_chunks
     = [Some [Scenario.complete_call "whole_1" "echo"]]
  /\ map tool_call_chunks Scenario.call_beside_empty_chunks = [Some []]
  /\ map call_name
       (out_toolCalls
          (streamMultimodalResponse reference_platform (Scenario.settings_with [])
             Scenario.pong (Scenario.connected [u16 "echo"]) Scenario.never
             [canonical_id Scenario.alpha (u16 "echo")] [Scenario.user_message]
             [Scenario.calls_chunk [Scenario.complete_call "whole_1" "echo"]]
             Scenario.follow_up))
     = [u16 "echo"].
Proof. repeat split; vm_compute; reflexivity. Qed.

(** Where the claim differs from the code by design: a complete call
    [echo] followed by a fragment for index 1 is dropped although index
    0 has no accumulated fragment, the acceptance being per pass; and a
    complete call whose name is a single space is dropped although its
    name is not empty, the test being on the trimmed name. *)
Example complete_calls_dropped_by_design :
  (valid_tool_call (Scenario.complete_call "whole_1" "echo") = true
   /\ JSMap.get (Some 0%Z)
        (toolCallAccumulator
           (fold_left (process_chunk reference_platform)
              Scenario.call_then_fragment initial_loop_state)) = None
   /\ map call_name
        (out_toolCalls
           (streamMultimodalResponse reference_platform (Scenario.settings_with [])
              Scenario.pong (Scenario.connected [u16 "echo"]) Scenario.never
              [canonical_id Scenario.alpha (u16 "echo")] [Scenario.user_message]
              Scenario.call_then_fragment Scenario.follow_up))
      = [u16 "other"])
  /\ (fragments_of Scenario.blank_named_call = []
      /\ tc_name (Scenario.complete_call "whole_1" " ") = Some (u16 " ")
      /\ out_toolCalls
           (streamMultimodalResponse reference_platform (Scenario.settings_with [])
              Scenario.pong (Scenario.connected [u16 "echo"]) Scenario.never
              [canonical_id Scenario.alpha (u16 "echo")] [Scenario.user_message]
              Scenario.blank_named_call Scenario.follow_up)
         = []).
Proof. repeat split; vm_compute; reflexivity. Qed.

(** ** Fan-out *)

Lemma str_or_truthy (s d : jsstring) :
  truthy_str s = true -> str_or (Some s) d = s.
Proof. intros H. unfold str_or. by rewrite H. Qed.

Section FanOut.
Variable P : Platform.
Variable settings : Settings.
Variable net : Providers.
Variable m : MCPClientManager.

(** The result of a call carries the id and the name of the call. *)
Lemma execute_one_id_name (mentionedMCPTools : list jsstring)
    (toolCall : BufferedCall) (n : nat) (sent : list ToolRequest) :
  well_formed_call toolCall ->
  tool_call_id
    (fst (fst (execute_one P settings net m mentionedMCPTools toolCall n sent)))
  = call_id toolCall
  /\ result_tool_name
       (fst (fst (execute_one P settings net m mentionedMCPTools toolCall n sent)))
     = call_name toolCall.
Proof.
  intros [Hid Hname]. unfold execute_one. rewrite Hid.
  rewrite !(str_or_truthy _ _ Hname), (str_or_truthy _ _ Hid).
  destruct (List.find _ mentionedMCPTools) as [mcpToolName|]; [| done].
  destruct (executeMCPTool settings net m mcpToolName
              (extract_tool_args toolCall) sent) as [sent' [result|error]]; done.
Qed.

(** An error raised by the execution of a call becomes the payload of
    the result of that call. *)
Lemma execute_one_error (mentionedMCPTools : list jsstring)
    (toolCall : BufferedCall) (n : nat) (sent sent' : list ToolRequest)
    (mcpToolName : jsstring) (error : JsError) :
  List.find (fun name => includes name
               (str_or (Some (call_name toolCall)) (u16 "unknown_tool")))
    mentionedMCPTools = Some mcpToolName ->
  executeMCPTool settings net m mcpToolName (extract_tool_args toolCall) sent
  = (sent', Throw error) ->
  output
    (fst (fst (execute_one P settings net m mentionedMCPTools toolCall n sent)))
  = error_payload (err2String P error).
Proof.
  intros Hfind Hexec. unfold execute_one.
  destruct (truthy_str (call_id toolCall)); by rewrite Hfind, Hexec.
Qed.

Lemma executeMCPTools_cons (toolCall : BufferedCall) (rest : list BufferedCall)
    (mentionedMCPTools : list jsstring) (n : nat) (sent : list ToolRequest) :
  fst (fst (executeMCPTools P settings net m (toolCall :: rest)
              mentionedMCPTools n sent))
  = fst (fst (execute_one P settings net m mentionedMCPTools toolCall n sent))
    :: fst (fst (executeMCPTools P settings net m rest mentionedMCPTools
                   (snd (fst (execute_one P settings net m mentionedMCPTools
                                toolCall n sent)))
                   (snd (execute_one P settings net m mentionedMCPTools
                           toolCall n sent)))).
Proof.
  cbn [executeMCPTools].
  destruct (execute_one P settings net m mentionedMCPTools toolCall n sent)
    as [[r n1] sent1].
  cbn [fst snd].
  by destruct (executeMCPTools P settings net m rest mentionedMCPTools n1 sent1)
    as [[rs n2] sent2].
Qed.

Lemma executeMCPTools_snd_cons (toolCall : BufferedCall)
    (rest : list BufferedCall) (mentionedMCPTools : list jsstring) (n : nat)
    (sent : list ToolRequest) :
  snd (executeMCPTools P settings net m (toolCall :: rest)
         mentionedMCPTools n sent)
  = snd (executeMCPTools P settings net m rest mentionedMCPTools
           (snd (fst (execute_one P settings net m mentionedMCPTools
                        toolCall n sent)))
           (snd (execute_one P settings net m mentionedMCPTools
                   toolCall n sent))).
Proof.
  cbn [executeMCPTools].
  destruct (execute_one P settings net m mentionedMCPTools toolCall n sent)
    as [[r n1] sent1].
  cbn [fst snd].
  by destruct (executeMCPTools P settings net m rest mentionedMCPTools n1 sent1)
    as [[rs n2] sent2].
Qed.

(** A request for an enabled id that decodes to a connected server goes
    out, and the outcome of the call is that of the provider. *)
Lemma executeMCPTool_routed (mcpToolName serverName actualToolName : jsstring)
    (args : value) (sent : list ToolRequest) :
  mcpToolName ∉ disabledTools settings ->
  match_tool_name mcpToolName = Some (serverName, actualToolName) ->
  isServerConnected m serverName = true ->
  executeMCPTool settings net m mcpToolName args sent
  = (sent ++ [{| req_server := serverName; req_name := actualToolName;
                 req_arguments := args |}],
     net sent {| req_server := serverName; req_name := actualToolName;
                 req_arguments := args |}).
Proof.
  intros Henabled Hmatch Hconnected. unfold executeMCPTool.
  rewrite bool_decide_eq_false_2 by exact Henabled.
  rewrite Hmatch, Hconnected. cbn [negb]. unfold executeTool.
  apply has_get in Hconnected as [client ->]. done.
Qed.

(** No call takes a request back. *)
Lemma executeMCPTool_keeps_sent (toolName : jsstring) (args : value)
    (sent : list ToolRequest) :
  sent `prefix_of` fst (executeMCPTool settings net m toolName args sent).
Proof.
  unfold executeMCPTool, executeTool.
  destruct (bool_decide _); [done |].
  destruct (match_tool_name toolName) as [[serverName actualToolName]|]; [| done].
  destruct (negb _); [done |].
  destruct (JSMap.get serverName (clients m)); [| done].
  cbn [fst]. by apply prefix_app_r.
Qed.

Lemma execute_one_keeps_sent (mentionedMCPTools : list jsstring)
    (toolCall : BufferedCall) (n : nat) (sent : list ToolRequest) :
  sent `prefix_of`
    snd (execute_one P settings net m mentionedMCPTools toolCall n sent).
Proof.
  unfold execute_one.
  destruct (if truthy_str (call_id toolCall) then (call_id toolCall, n)
            else (random_call_id P n, S n)) as [toolCallId n'].
  destruct (List.find _ mentionedMCPTools) as [mcpToolName|]; [| done].
  pose proof (executeMCPTool_keeps_sent mcpToolName (extract_tool_args toolCall) sent)
    as Hsent.
  by destruct (executeMCPTool settings net m mcpToolName
                 (extract_tool_args toolCall) sent) as [sent' [result|error]].
Qed.

(** A call whose name occurs in a mentioned id that is enabled and
    decodes to a connected server is sent, and its result holds the
    outcome of the request. *)
Lemma execute_one_routed (mentionedMCPTools : list jsstring)
    (toolCall : BufferedCall) (n : nat) (sent : list ToolRequest)
    (mcpToolName serverName actualToolName : jsstring) :
  List.find (fun name => includes name
               (str_or (Some (call_name toolCall)) (u16 "unknown_tool")))
    mentionedMCPTools = Some mcpToolName ->
  mcpToolName ∉ disabledTools settings ->
  match_tool_name mcpToolName = Some (serverName, actualToolName) ->
  isServerConnected m serverName = true ->
  snd (execute_one P settings net m mentionedMCPTools toolCall n sent)
  = sent ++ [request_for serverName actualToolName toolCall]
  /\ output
       (fst (fst (execute_one P settings net m mentionedMCPTools toolCall n sent)))
     = collected P (net sent (request_for serverName actualToolName toolCall)).
Proof.
  intros Hfind Henabled Hmatch Hconnected. unfold execute_one.
  destruct (if truthy_str (call_id toolCall) then (call_id toolCall, n)
            else (random_call_id P n, S n)) as [toolCallId n'].
  rewrite Hfind.
  rewrite (executeMCPTool_routed _ _ _ _ _ Henabled Hmatch Hconnected).
  fold (request_for serverName actualToolName toolCall).
  by destruct (net sent (request_for serverName actualToolName toolCall)).
Qed.

(** A call whose name occurs in no mentioned id is answered without any
    request. *)
Lemma execute_one_unmatched (mentionedMCPTools : list jsstring)
    (toolCall : BufferedCall) (n : nat) (sent : list ToolRequest) :
  List.find (fun name => includes name
               (str_or (Some (call_name toolCall)) (u16 "unknown_tool")))
    mentionedMCPTools = None ->
  snd (execute_one P settings net m mentionedMCPTools toolCall n sent) = sent
  /\ output
       (fst (fst (execute_one P settings net m mentionedMCPTools toolCall n sent)))
     = error_payload (u16 "Tool not found").
Proof.
  intros Hfind. unfold execute_one.
  destruct (if truthy_str (call_id toolCall) then (call_id toolCall, n)
            else (random_call_id P n, S n)) as [toolCallId n'].
  by rewrite Hfind.
Qed.

Lemma executeMCPTools_keeps_sent (toolCalls : list BufferedCall)
    (mentionedMCPTools : list jsstring) :
  forall (n : nat) (sent : list ToolRequest),
    sent `prefix_of`
      snd (executeMCPTools P settings net m toolCalls mentionedMCPTools n sent).
Proof.
  induction toolCalls as [|toolCall rest IH]; intros n sent; [done |].
  rewrite executeMCPTools_snd_cons.
  etrans; [apply (execute_one_keeps_sent mentionedMCPTools toolCall n sent) |].
  apply IH.
Qed.

(** One result per call. *)
Lemma executeMCPTools_length (toolCalls : list BufferedCall)
    (mentionedMCPTools : list jsstring) :
  forall (n : nat) (sent : list ToolRequest),
    length (fst (fst (executeMCPTools P settings net m toolCalls
                        mentionedMCPTools n sent)))
    = length toolCalls.
Proof.
  induction toolCalls as [|toolCall rest IH]; intros n sent; [done |].
  rewrite executeMCPTools_cons. cbn [length]. by rewrite IH.
Qed.

(** The result at a position is the result of the call at that
    position, whatever happened to the calls before it. *)
Lemma executeMCPTools_lookup (toolCalls : list BufferedCall)
    (mentionedMCPTools : list jsstring) :
  forall (n : nat) (sent : list ToolRequest) (i : nat) (toolCall : BufferedCall),
    toolCalls !! i = Some toolCall ->
    exists n_i sent_i,
      fst (fst (executeMCPTools P settings net m toolCalls
                  mentionedMCPTools n sent)) !! i
      = Some (fst (fst (execute_one P settings net m mentionedMCPTools
                          toolCall n_i sent_i))).
Proof.
  induction toolCalls as [|toolCall0 rest IH]; intros n sent i toolCall Hi;
    [done |].
  rewrite executeMCPTools_cons. destruct i as [|i].
  - injection Hi as <-. by exists n, sent.
  - cbn in Hi. cbn [lookup list_lookup]. by apply IH.
Qed.

(** The call at a position is executed after the requests of the calls
    before it, and what it sends stays sent. *)
Lemma executeMCPTools_at (toolCalls : list BufferedCall)
    (mentionedMCPTools : list jsstring) :
  forall (n : nat) (sent : list ToolRequest) (i : nat) (toolCall : BufferedCall),
    toolCalls !! i = Some toolCall ->
    exists n_i sent_i,
      sent `prefix_of` sent_i
      /\ fst (fst (executeMCPTools P settings net m toolCalls
                     mentionedMCPTools n sent)) !! i
         = Some (fst (fst (execute_one P settings net m mentionedMCPTools
                             toolCall n_i sent_i)))
      /\ snd (execute_one P settings net m mentionedMCPTools toolCall n_i sent_i)
         `prefix_of`
         snd (executeMCPTools P settings net m toolCalls mentionedMCPTools
                n sent).
Proof.
  induction toolCalls as [|toolCall0 rest IH]; intros n sent i toolCall Hi;
    [done |].
  rewrite executeMCPTools_cons, executeMCPTools_snd_cons. destruct i as [|i].
  - injection Hi as <-. exists n, sent. split; [done |]. split; [done |].
    apply executeMCPTools_keeps_sent.
  - cbn in Hi. cbn [lookup list_lookup].
    destruct (IH (snd (fst (execute_one P settings net m mentionedMCPTools
                              toolCall0 n sent)))
                 (snd (execute_one P settings net m mentionedMCPTools
                         toolCall0 n sent)) i toolCall Hi)
      as (n_i & sent_i & Hprefix & Hresult & Hsent).
    exists n_i, sent_i. split; [| done].
    etrans; [apply (execute_one_keeps_sent mentionedMCPTools toolCall0 n sent) |].
    exact Hprefix.
Qed.

(** Whatever happens to the other calls, a call that can be routed is
    sent and its outcome collected at its position. *)
Lemma executeMCPTools_routed (toolCalls : list BufferedCall)
    (mentionedMCPTools : list jsstring) (n : nat) (sent : list ToolRequest)
    (i : nat) (toolCall : BufferedCall)
    (mcpToolName serverName actualToolName : jsstring) :
  toolCalls !! i = Some toolCall ->
  List.find (fun name => includes name
               (str_or (Some (call_name toolCall)) (u16 "unknown_tool")))
    mentionedMCPTools = Some mcpToolName ->
  mcpToolName ∉ disabledTools settings ->
  match_tool_name mcpToolName = Some (serverName, actualToolName) ->
  isServerConnected m serverName = true ->
  exists sent_i r,
    sent `prefix_of` sent_i
    /\ (sent_i ++ [request_for serverName actualToolName toolCall])
       `prefix_of`
       snd (executeMCPTools P settings net m toolCalls mentionedMCPTools n sent)
    /\ fst (fst (executeMCPTools P settings net m toolCalls
                   mentionedMCPTools n sent)) !! i = Some r
    /\ output r
       = collected P
           (net sent_i (request_for serverName actualToolName toolCall)).
Proof.
  intros Hi Hfind Henabled Hmatch Hconnected.
  destruct (executeMCPTools_at toolCalls mentionedMCPTools n sent i toolCall Hi)
    as (n_i & sent_i & Hprefix & Hresult & Hsent).
  destruct (execute_one_routed mentionedMCPTools toolCall n_i sent_i
              mcpToolName serverName actualToolName
              Hfind Henabled Hmatch Hconnected) as [Hone Houtput].
  rewrite Hone in Hsent.
  exists sent_i, (fst (fst (execute_one P settings net m mentionedMCPTools
                              toolCall n_i sent_i))).
  done.
Qed.

Lemma executeMCPTools_unmatched (toolCalls : list BufferedCall)
    (mentionedMCPTools : list jsstring) (n : nat) (sent : list ToolRequest)
    (i : nat) (toolCall : BufferedCall) :
  toolCalls !! i = Some toolCall ->
  List.find (fun name => includes name
               (str_or (Some (call_name toolCall)) (u16 "unknown_tool")))
    mentionedMCPTools = None ->
  exists r,
    fst (fst (executeMCPTools P settings net m toolCalls
                mentionedMCPTools n sent)) !! i = Some r
    /\ output r = error_payload (u16 "Tool not found").
Proof.
  intros Hi Hfind.
  destruct (executeMCPTools_at toolCalls mentionedMCPTools n sent i toolCall Hi)
    as (n_i & sent_i & _ & Hresult & _).
  destruct (execute_one_unmatched mentionedMCPTools toolCall n_i sent_i Hfind)
    as [_ Houtput].
  by eexists.
Qed.

(** The results are in the order of the calls. *)
Lemma executeMCPTools_order (toolCalls : list BufferedCall)
    (mentionedMCPTools : list jsstring) :
  forall (n : nat) (sent : list ToolRequest),
    Forall well_formed_call toolCalls ->
    map tool_call_id
      (fst (fst (executeMCPTools P settings net m toolCalls
                   mentionedMCPTools n sent)))
    = map call_id toolCalls
    /\ map result_tool_name
         (fst (fst (executeMCPTools P settings net m toolCalls
                      mentionedMCPTools n sent)))
       = map call_name toolCalls.
Proof.
  induction toolCalls as [|toolCall rest IH]; intros n sent Hwf; [done |].
  apply Forall_cons in Hwf as [Hcall Hrest].
  rewrite executeMCPTools_cons. cbn [map].
  destruct (execute_one_id_name mentionedMCPTools toolCall n sent Hcall)
    as [-> ->].
  destruct (IH (snd (fst (execute_one P settings net m mentionedMCPTools
                            toolCall n sent)))
               (snd (execute_one P settings net m mentionedMCPTools
                       toolCall n sent)) Hrest) as [-> ->].
  done.
Qed.
End FanOut.

Section WellFormedCalls.
Variable P : Platform.

Lemma random_call_id_truthy (n : nat) : truthy_str (random_call_id P n) = true.
Proof. reflexivity. Qed.

Lemma indexed_call_id_truthy (n : nat) (index : option Z) :
  truthy_str (indexed_call_id P n index) = true.
Proof. reflexivity. Qed.

Lemma push_tool_call_well_formed (buffer : list BufferedCall) (n : nat)
    (toolCall : ToolCall) :
  Forall well_formed_call buffer ->
  valid_tool_call toolCall = true ->
  Forall well_formed_call (fst (push_tool_call P (buffer, n) toolCall)).
Proof.
  intros Hbuffer Hvalid. unfold push_tool_call.
  assert (truthy_str (default [] (tc_name toolCall)) = true) as Hname.
  { unfold valid_tool_call in Hvalid.
    destruct (tc_name toolCall) as [name|]; [| done].
    by apply andb_prop in Hvalid as [? _]. }
  destruct (truthy_ostr (tc_id toolCall)) eqn:Hid; cbn [fst];
    apply Forall_app; (split; [done |]); apply Forall_singleton; split;
    cbn [call_id call_name]; try done.
  by destruct (tc_id toolCall).
Qed.

Lemma fold_push_tool_call_well_formed (calls : list ToolCall) :
  forall (buffer : list BufferedCall) (n : nat),
    Forall well_formed_call buffer ->
    (forall toolCall, In toolCall calls -> valid_tool_call toolCall = true) ->
    Forall well_formed_call (fst (fold_left (push_tool_call P) calls (buffer, n))).
Proof.
  induction calls as [|toolCall rest IH]; intros buffer n Hbuffer Hvalid;
    [done |].
  cbn [fold_left].
  pose proof (push_tool_call_well_formed buffer n toolCall Hbuffer
                (Hvalid toolCall (or_introl eq_refl))) as Hpush.
  destruct (push_tool_call P (buffer, n) toolCall) as [buffer' n'].
  apply IH; [exact Hpush |]. intros tc Htc. apply Hvalid. by right.
Qed.

Lemma process_chunk_well_formed (st : LoopState) (chunk : Chunk) :
  Forall well_formed_call (toolCallsBuffer st) ->
  Forall well_formed_call (toolCallsBuffer (process_chunk P st chunk)).
Proof.
  intros Hst. unfold process_chunk. cbn [toolCallsBuffer].
  assert (toolCallsBuffer (handle_tool_call_chunks chunk st) = toolCallsBuffer st)
    as Hsame.
  { destruct (handle_tool_call_chunks_cases chunk st)
      as [[_ ->] | (toolChunks & _ & _ & ->)]; done. }
  destruct (handle_tool_calls_cases P chunk (handle_tool_call_chunks chunk st))
    as [[-> _] | (calls & _ & _ & _ & ->)]; [by rewrite Hsame |].
  cbn [toolCallsBuffer]. rewrite Hsame.
  apply fold_push_tool_call_well_formed; [done |].
  intros tc Htc. by apply filter_In in Htc as [_ ?].
Qed.

Lemma fold_process_chunk_well_formed (chunks : list Chunk) :
  forall st,
    Forall well_formed_call (toolCallsBuffer st) ->
    Forall well_formed_call
      (toolCallsBuffer (fold_left (process_chunk P) chunks st)).
Proof.
  induction chunks as [|chunk rest IH]; intros st Hst; [done |].
  cbn [fold_left]. apply IH. by apply process_chunk_well_formed.
Qed.

Lemma fold_parse_accumulated_well_formed (entries : list (option Z * Accumulator)) :
  forall (buffer : list BufferedCall) (n : nat),
    Forall well_formed_call buffer ->
    Forall well_formed_call
      (fst (fold_left (parse_accumulated P) entries (buffer, n))).
Proof.
  induction entries as [|[index accumulator] rest IH]; intros buffer n Hbuffer;
    [done |].
  cbn [fold_left]. unfold parse_accumulated at 2.
  destruct (truthy_str (acc_name accumulator)) eqn:Hname; cbn [andb];
    [| by apply IH].
  destruct (truthy_str (acc_args accumulator)); [| by apply IH].
  destruct (JSON_parse P (acc_args accumulator)); [| by apply IH].
  destruct (truthy_ostr (acc_id accumulator)) eqn:Hid; apply IH;
    apply Forall_app; (split; [done |]); apply Forall_singleton; split;
    cbn [call_id call_name]; try done.
  by destruct (acc_id accumulator).
Qed.

Lemma resolve_tool_calls_well_formed (st : LoopState) :
  Forall well_formed_call (toolCallsBuffer st) ->
  Forall well_formed_call (fst (resolve_tool_calls P st)).
Proof.
  intros Hst. unfold resolve_tool_calls.
  destruct (hasToolCalls st && (0 <? JSMap.size (toolCallAccumulator st))%nat);
    [| done].
  by apply fold_parse_accumulated_well_formed.
Qed.
End WellFormedCalls.

(** C10 (amended). Fan-out order and failure isolation.
    [executeMCPTools] gives one result per call, at the position of the
    call. Whatever happens to the other calls, a call whose name occurs
    in a mentioned id that is enabled and decodes to a connected server
    is sent, after the requests of the calls before it, and the result
    at its position holds the answer of the provider, or the payload
    of its error; a call whose name occurs in no mentioned id gets the
    payload [Tool not found]; an error raised by the execution of a call
    becomes the payload of the result of that call; and for calls with
    an id and a name the ids and names of the results are those of the
    calls, in the same order. In a run of [streamMultimodalResponse]
    the results are those of [executeMCPTools] on the resolved calls,
    and the conversation is extended with the assistant message and
    then one tool message per result, in that order. The order of the
    resolved calls is that of the entries of the accumulator, whose
    indices stand in the order in which they first appeared in the
    stream, not in their numeric order. *)
Theorem fan_out_order_and_isolation (P : Platform) (settings : Settings)
    (net : Providers) (m : MCPClientManager) (mentionedMCPTools : list jsstring) :
  (forall (toolCalls : list BufferedCall) (n : nat) (sent : list ToolRequest),
     let run := executeMCPTools P settings net m toolCalls mentionedMCPTools
                  n sent in
     length (fst (fst run)) = length toolCalls
     /\ (forall i toolCall mcpToolName serverName actualToolName,
           toolCalls !! i = Some toolCall ->
           List.find (fun name => includes name
                        (str_or (Some (call_name toolCall)) (u16 "unknown_tool")))
             mentionedMCPTools = Some mcpToolName ->
           mcpToolName ∉ disabledTools settings ->
           match_tool_name mcpToolName = Some (serverName, actualToolName) ->
           isServerConnected m serverName = true ->
           exists sent_i r,
             sent `prefix_of` sent_i
             /\ (sent_i ++ [request_for serverName actualToolName toolCall])
                `prefix_of` snd run
             /\ fst (fst run) !! i = Some r
             /\ output r
                = collected P
                    (net sent_i
                       (request_for serverName actualToolName toolCall)))
     /\ (forall i toolCall,
           toolCalls !! i = Some toolCall ->
           List.find (fun name => includes name
                        (str_or (Some (call_name toolCall)) (u16 "unknown_tool")))
             mentionedMCPTools = None ->
           exists r,
             fst (fst run) !! i = Some r
             /\ output r = error_payload (u16 "Tool not found"))
     /\ (forall i toolCall,
           toolCalls !! i = Some toolCall ->
           exists n_i sent_i,
             fst (fst run) !! i
             = Some (fst (fst (execute_one P settings net m mentionedMCPTools
                                 toolCall n_i sent_i))))
     /\ (Forall well_formed_call toolCalls ->
         map tool_call_id (fst (fst run)) = map call_id toolCalls
         /\ map result_tool_name (fst (fst run)) = map call_name toolCalls))
  /\ (forall (toolCall : BufferedCall) (n : nat) (sent sent' : list ToolRequest)
             (mcpToolName : jsstring) (error : JsError),
        List.find (fun name => includes name
                     (str_or (Some (call_name toolCall)) (u16 "unknown_tool")))
          mentionedMCPTools = Some mcpToolName ->
        executeMCPTool settings net m mcpToolName (extract_tool_args toolCall) sent
        = (sent', Throw error) ->
        output (fst (fst (execute_one P settings net m mentionedMCPTools
                            toolCall n sent)))
        = error_payload (err2String P error))
  /\ (forall (aborted : nat -> bool) (messages : list Message)
             (chatStream : list Chunk)
             (followUpStream : list Message -> list Chunk),
        let o := streamMultimodalResponse P settings net m aborted
                   mentionedMCPTools messages chatStream followUpStream in
        length (out_toolResults o) = length (out_toolCalls o)
        /\ map tool_call_id (out_toolResults o) = map call_id (out_toolCalls o)
        /\ map result_tool_name (out_toolResults o)
           = map call_name (out_toolCalls o)
        /\ (exists n,
              out_toolResults o
              = fst (fst (executeMCPTools P settings net m (out_toolCalls o)
                            mentionedMCPTools n []))
              /\ out_sent o
                 = snd (executeMCPTools P settings net m (out_toolCalls o)
                          mentionedMCPTools n []))
        /\ (out_toolCalls o <> [] ->
            exists assistant,
              msg_tool_calls assistant = Some (out_toolCalls o)
              /\ out_messages o
                 = messages ++ [assistant]
                   ++ map (toolResultMessage P) (out_toolResults o))
        /\ ((forall j, (j < length chatStream)%nat -> aborted j = false) ->
            fragments_of chatStream <> [] ->
            let entries :=
              JSMap.entries
                (fold_left accumulate (fragments_of chatStream) []) in
            map fst entries
            = first_occurrences (map tcc_index (fragments_of chatStream))
            /\ Forall2
                 (fun entry call =>
                    rebuilt_from P (snd entry) call
                    /\ (truthy_ostr (acc_id (snd entry)) = true ->
                        Some (call_id call) = acc_id (snd entry)))
                 (List.filter (resolvable P) entries) (out_toolCalls o))).
Proof.
  split.
  { intros toolCalls n sent run.
    split; [apply executeMCPTools_length |].
    split; [intros i toolCall mcpToolName serverName actualToolName;
            apply executeMCPTools_routed |].
    split; [intros i toolCall; apply executeMCPTools_unmatched |].
    split; [apply executeMCPTools_lookup |].
    apply executeMCPTools_order. }
  split.
  { intros toolCall n sent sent' mcpToolName error. apply execute_one_error. }
  intros aborted messages chatStream followUpStream o.
  destruct (stream_loop P aborted 0 chatStream initial_loop_state)
    as [st checks] eqn:Hloop.
  destruct (stream_loop_prefix P aborted chatStream 0%nat initial_loop_state)
    as [k Hk].
  rewrite Hloop in Hk. cbn [fst] in Hk.
  destruct (streamMultimodalResponse_after_loop P settings net m aborted
              mentionedMCPTools messages chatStream followUpStream st checks Hloop)
    as (Hcalls & Hresults & Hsent & _ & Hmessages).
  { rewrite Hk. by apply fold_process_chunk_buffer_flag. }
  fold o in Hcalls, Hresults, Hsent, Hmessages.
  assert (Forall well_formed_call (out_toolCalls o)) as Hwf.
  { rewrite Hcalls. apply resolve_tool_calls_well_formed.
    rewrite Hk. by apply fold_process_chunk_well_formed. }
  destruct (executeMCPTools_order P settings net m (out_toolCalls o)
              mentionedMCPTools (snd (resolve_tool_calls P st)) [] Hwf)
    as [Hids Hnames].
  split; [rewrite Hresults; apply executeMCPTools_length |].
  split; [by rewrite Hresults |]. split; [by rewrite Hresults |].
  split; [by exists (snd (resolve_tool_calls P st)) |].
  split.
  { intros Hne. eexists. split; [| exact (Hmessages Hne)]. reflexivity. }
  intros Hnot Hsome entries. split.
  { unfold entries, JSMap.entries.
    change (map fst (fold_left accumulate (fragments_of chatStream) []))
      with (JSMap.keys (fold_left accumulate (fragments_of chatStream) [])).
    rewrite fold_accumulate_keys. cbn [JSMap.keys map app].
    apply filter_all. intros index _.
    apply negb_true_iff, bool_decide_eq_false_2, not_elem_of_nil. }
  assert (stream_loop P aborted 0 chatStream initial_loop_state
          = (fold_left (process_chunk P) chatStream initial_loop_state,
             (0 + length chatStream)%nat)) as Hfull.
  { apply stream_loop_complete. intros j Hj. apply Hnot. lia. }
  rewrite Hloop in Hfull. injection Hfull as Hst _.
  rewrite Hcalls. unfold resolve_tool_calls.
  assert (toolCallAccumulator st
          = fold_left accumulate (fragments_of chatStream) []) as Hacc
    by (rewrite Hst; apply fold_process_chunk_accumulator).
  assert (hasToolCalls st = true) as ->
    by (rewrite Hst; apply fold_process_chunk_flag; by right).
  rewrite Hacc.
  assert ((0 <? JSMap.size (fold_left accumulate (fragments_of chatStream) []))%nat
          = true) as ->.
  { pose proof (fold_accumulate_nonempty (fragments_of chatStream) []
                  (or_introl Hsome)) as Hne.
    destruct (fold_left accumulate (fragments_of chatStream) []); done. }
  cbn [andb].
  destruct (fold_parse_accumulated_resolvable P entries [] (ids st))
    as (calls & E & Hall).
  unfold entries in E. rewrite E. exact Hall.
Qed.

Lemma fan_out_order_and_isolation_witness :
  Scenario.two_calls !! 1%nat = Some Samples.echo_call
  /\ List.find (fun name => includes name
                  (str_or (Some (call_name Samples.echo_call))
                     (u16 "unknown_tool")))
       [canonical_id Scenario.alpha (u16 "boom");
        canonical_id Scenario.alpha (u16 "echo")]
     = Some (canonical_id Scenario.alpha (u16 "echo"))
  /\ (canonical_id Scenario.alpha (u16 "echo")
      ∉ disabledTools (Scenario.settings_with []))
  /\ match_tool_name (canonical_id Scenario.alpha (u16 "echo"))
     = Some (Scenario.alpha, u16 "echo")
  /\ isServerConnected (Scenario.connected [u16 "boom"; u16 "echo"])
       Scenario.alpha = true
  /\ exists sent_i r,
       [] `prefix_of` sent_i
       /\ (sent_i ++ [request_for Scenario.alpha (u16 "echo") Samples.echo_call])
          `prefix_of`
          snd (executeMCPTools reference_platform (Scenario.settings_with [])
                 Scenario.boom_fails
                 (Scenario.connected [u16 "boom"; u16 "echo"])
                 Scenario.two_calls
                 [canonical_id Scenario.alpha (u16 "boom");
                  canonical_id Scenario.alpha (u16 "echo")] 0 [])
       /\ fst (fst (executeMCPTools reference_platform
                      (Scenario.settings_with []) Scenario.boom_fails
                      (Scenario.connected [u16 "boom"; u16 "echo"])
                      Scenario.two_calls
                      [canonical_id Scenario.alpha (u16 "boom");
                       canonical_id Scenario.alpha (u16 "echo")] 0 [])) !! 1%nat
          = Some r
       /\ output r
          = collected reference_platform
              (Scenario.boom_fails sent_i
                 (request_for Scenario.alpha (u16 "echo") Samples.echo_call)).
Proof.
  assert (canonical_id Scenario.alpha (u16 "echo")
          ∉ disabledTools (Scenario.settings_with [])) as Henabled
    by by_compute.
  split; [reflexivity |]. split; [reflexivity |]. split; [exact Henabled |].
  split; [reflexivity |]. split; [reflexivity |].
  apply (proj1 (proj2 (proj1 (fan_out_order_and_isolation reference_platform
           (Scenario.settings_with []) Scenario.boom_fails
           (Scenario.connected [u16 "boom"; u16 "echo"])
           [canonical_id Scenario.alpha (u16 "boom");
            canonical_id Scenario.alpha (u16 "echo")])
           Scenario.two_calls 0%nat []))
           1%nat Samples.echo_call (canonical_id Scenario.alpha (u16 "echo"))
           Scenario.alpha (u16 "echo") eq_refl eq_refl Henabled eq_refl eq_refl).
Defined.

(** C10 as stated fails for the order: the model streams the call of
    index 1 before the call of index 0; the calls are resolved, executed
    and answered in the conversation in the order [call_b], [call_a], in
    which the indices appeared, and not in the order of the indices. *)
Lemma fan_out_order_and_isolation_counterexample :
  map tcc_index (fragments_of Scenario.index_one_first) = [Some 1%Z; Some 0%Z]
  /\ map call_id
       (out_toolCalls
          (streamMultimodalResponse reference_platform (Scenario.settings_with [])
             Scenario.pong (Scenario.connected [u16 "boom"; u16 "echo"])
             Scenario.never
             [canonical_id Scenario.alpha (u16 "boom");
              canonical_id Scenario.alpha (u16 "echo")]
             [Scenario.user_message] Scenario.index_one_first
             Scenario.follow_up))
     = [u16 "call_b"; u16 "call_a"]
  /\ map tool_call_id
       (out_toolResults
          (streamMultimodalResponse reference_platform (Scenario.settings_with [])
             Scenario.pong (Scenario.connected [u16 "boom"; u16 "echo"])
             Scenario.never
             [canonical_id Scenario.alpha (u16 "boom");
              canonical_id Scenario.alpha (u16 "echo")]
             [Scenario.user_message] Scenario.index_one_first
             Scenario.follow_up))
     = [u16 "call_b"; u16 "call_a"]
  /\ map req_name
       (out_sent
          (streamMultimodalResponse reference_platform (Scenario.settings_with [])
             Scenario.pong (Scenario.connected [u16 "boom"; u16 "echo"])
             Scenario.never
             [canonical_id Scenario.alpha (u16 "boom");
              canonical_id Scenario.alpha (u16 "echo")]
             [Scenario.user_message] Scenario.index_one_first
             Scenario.follow_up))
     = [u16 "boom"; u16 "echo"]
  /\ map msg_tool_call_id
       (out_messages
          (streamMultimodalResponse reference_platform (Scenario.settings_with [])
             Scenario.pong (Scenario.connected [u16 "boom"; u16 "echo"])
             Scenario.never
             [canonical_id Scenario.alpha (u16 "boom");
              canonical_id Scenario.alpha (u16 "echo")]
             [Scenario.user_message] Scenario.index_one_first
             Scenario.follow_up))
     = [None; None; Some (u16 "call_b"); Some (u16 "call_a")].
Proof. repeat split; vm_compute; reflexivity. Qed.

(** The first of two calls fails: its result is the error payload, and
    the second call is still sent and answered. *)
Example fan_out_first_call_fails :
  executeMCPTools reference_platform (Scenario.settings_with [])
    Scenario.boom_fails (Scenario.connected [u16 "boom"; u16 "echo"])
    Scenario.two_calls
    [canonical_id Scenario.alpha (u16 "boom");
     canonical_id Scenario.alpha (u16 "echo")] 0 []
  = ([{| tool_call_id := u16 "call_0"; result_tool_name := u16 "boom";
         output := error_payload (u16 "Request timed out") |};
      {| tool_call_id := u16 "call_1"; result_tool_name := u16 "echo";
         output := VStr (u16 "pong") |}],
     0%nat,
     [{| req_server := Scenario.alpha; req_name := u16 "boom";
         req_arguments := VObj [] |};
      {| req_server := Scenario.alpha; req_name := u16 "echo";
         req_arguments := VObj [] |}]).
Proof. vm_compute. reflexivity. Qed.

(** ** Cancellation *)

Section Cancellation.
Variable P : Platform.
Variable settings : Settings.
Variable net : Providers.
Variable m : MCPClientManager.

(** C2. Cancellation. When the signal is first seen set at the [k]-th
    chunk of the stream, the loop stops: it ends in the state reached on
    the [k] chunks before it, and the text returned is the text of those
    chunks when the signal is still set at its next reading or no call
    was resolved. The code diverges from the claim after the loop,
    where the signal is not read again: the fragments accumulated before
    the cancellation are parsed, each entry with a name and an argument
    text that parses giving a call, and every resolved call whose name
    occurs in a mentioned id that is enabled and decodes to a connected
    server is sent to the provider, its outcome being collected in the
    result at its position. *)
Theorem execution_after_cancellation (aborted : nat -> bool)
    (mentionedMCPTools : list jsstring) (messages : list Message)
    (chatStream : list Chunk) (followUpStream : list Message -> list Chunk)
    (k : nat) :
  (forall j, (j < k)%nat -> aborted j = false) ->
  aborted k = true ->
  (k < length chatStream)%nat ->
  let st := fold_left (process_chunk P) (take k chatStream) initial_loop_state in
  let o := streamMultimodalResponse P settings net m aborted mentionedMCPTools
             messages chatStream followUpStream in
  stream_loop P aborted 0 chatStream initial_loop_state = (st, S k)
  /\ (aborted (S k) = true \/ out_toolCalls o = [] ->
      out_fullResponse o = concat (map chunk_text (take k chatStream)))
  /\ (fragments_of (take k chatStream) <> [] ->
      Forall2
        (fun entry call =>
           rebuilt_from P (snd entry) call
           /\ (truthy_ostr (acc_id (snd entry)) = true ->
               Some (call_id call) = acc_id (snd entry)))
        (List.filter (resolvable P)
           (JSMap.entries
              (fold_left accumulate (fragments_of (take k chatStream)) [])))
        (out_toolCalls o))
  /\ (forall i toolCall mcpToolName serverName actualToolName,
        out_toolCalls o !! i = Some toolCall ->
        List.find (fun name => includes name
                     (str_or (Some (call_name toolCall)) (u16 "unknown_tool")))
          mentionedMCPTools = Some mcpToolName ->
        mcpToolName ∉ disabledTools settings ->
        match_tool_name mcpToolName = Some (serverName, actualToolName) ->
        isServerConnected m serverName = true ->
        exists sent_i r,
          (sent_i ++ [request_for serverName actualToolName toolCall])
          `prefix_of` out_sent o
          /\ out_toolResults o !! i = Some r
          /\ output r
             = collected P
                 (net sent_i (request_for serverName actualToolName toolCall))).
Proof.
  intros Hnot Hset Hlen st o.
  destruct (cancelled_run P settings net m aborted mentionedMCPTools messages
              chatStream followUpStream k Hnot Hset Hlen)
    as (Hloop & Hcalls & Hresults & Hsent & Htext).
  fold st in Hloop, Hcalls, Hresults, Hsent. fold o in Hcalls, Hresults, Hsent, Htext.
  split; [exact Hloop |]. split; [exact Htext |]. split.
  - intros Hsome. rewrite Hcalls. unfold resolve_tool_calls.
    assert (toolCallAccumulator st
            = fold_left accumulate (fragments_of (take k chatStream)) [])
      as Hacc by (unfold st; apply fold_process_chunk_accumulator).
    assert (hasToolCalls st = true) as ->
      by (unfold st; apply fold_process_chunk_flag; by right).
    rewrite Hacc.
    assert ((0 <? JSMap.size
                    (fold_left accumulate (fragments_of (take k chatStream)) []))%nat
            = true) as ->.
    { pose proof (fold_accumulate_nonempty (fragments_of (take k chatStream)) []
                    (or_introl Hsome)) as Hne.
      destruct (fold_left accumulate (fragments_of (take k chatStream)) []);
        done. }
    cbn [andb].
    destruct (fold_parse_accumulated_resolvable P
                (JSMap.entries
                   (fold_left accumulate (fragments_of (take k chatStream)) []))
                [] (ids st))
      as (calls & E & Hall).
    rewrite E. exact Hall.
  - intros i toolCall mcpToolName serverName actualToolName Hi Hfind Henabled
      Hmatch Hconnected.
    destruct (executeMCPTools_routed P settings net m (out_toolCalls o)
                mentionedMCPTools (snd (resolve_tool_calls P st)) [] i toolCall
                mcpToolName serverName actualToolName
                Hi Hfind Henabled Hmatch Hconnected)
      as (sent_i & r & _ & Hprefix & Hresult & Houtput).
    exists sent_i, r. by rewrite Hsent, Hresults.
Qed.
End Cancellation.

Lemma execution_after_cancellation_witness :
  (forall j, (j < 2)%nat -> Scenario.cancel_at 2 j = false)
  /\ Scenario.cancel_at 2 2 = true
  /\ (2 < length Scenario.fragment_then_text)%nat
  /\ out_toolCalls
       (streamMultimodalResponse reference_platform (Scenario.settings_with [])
          Scenario.pong (Scenario.connected [u16 "echo"]) (Scenario.cancel_at 2)
          [canonical_id Scenario.alpha (u16 "echo")] [Scenario.user_message]
          Scenario.fragment_then_text Scenario.follow_up) !! 0%nat
     = Some Samples.echo_call
  /\ List.find (fun name => includes name
                  (str_or (Some (call_name Samples.echo_call))
                     (u16 "unknown_tool")))
       [canonical_id Scenario.alpha (u16 "echo")]
     = Some (canonical_id Scenario.alpha (u16 "echo"))
  /\ (canonical_id Scenario.alpha (u16 "echo")
      ∉ disabledTools (Scenario.settings_with []))
  /\ match_tool_name (canonical_id Scenario.alpha (u16 "echo"))
     = Some (Scenario.alpha, u16 "echo")
  /\ isServerConnected (Scenario.connected [u16 "echo"]) Scenario.alpha = true
  /\ exists sent_i r,
       (sent_i ++ [request_for Scenario.alpha (u16 "echo") Samples.echo_call])
       `prefix_of`
       out_sent
         (streamMultimodalResponse reference_platform (Scenario.settings_with [])
            Scenario.pong (Scenario.connected [u16 "echo"]) (Scenario.cancel_at 2)
            [canonical_id Scenario.alpha (u16 "echo")] [Scenario.user_message]
            Scenario.fragment_then_text Scenario.follow_up)
       /\ out_toolResults
            (streamMultimodalResponse reference_platform
               (Scenario.settings_with []) Scenario.pong
               (Scenario.connected [u16 "echo"]) (Scenario.cancel_at 2)
               [canonical_id Scenario.alpha (u16 "echo")]
               [Scenario.user_message] Scenario.fragment_then_text
               Scenario.follow_up) !! 0%nat = Some r
       /\ output r
          = collected reference_platform
              (Scenario.pong sent_i
                 (request_for Scenario.alpha (u16 "echo") Samples.echo_call)).
Proof.
  assert (forall j, (j < 2)%nat -> Scenario.cancel_at 2 j = false) as Hnot.
  { intros j Hj. unfold Scenario.cancel_at. apply Nat.leb_gt. exact Hj. }
  assert (2 < length Scenario.fragment_then_text)%nat as Hlen.
  { cbn. apply le_n. }
  assert (canonical_id Scenario.alpha (u16 "echo")
          ∉ disabledTools (Scenario.settings_with [])) as Henabled
    by by_compute.
  split; [exact Hnot |]. split; [reflexivity |]. split; [exact Hlen |].
  split; [reflexivity |]. split; [reflexivity |]. split; [exact Henabled |].
  split; [reflexivity |]. split; [reflexivity |].
  apply (proj2 (proj2 (proj2 (execution_after_cancellation reference_platform
           (Scenario.settings_with []) Scenario.pong
           (Scenario.connected [u16 "echo"]) (Scenario.cancel_at 2)
           [canonical_id Scenario.alpha (u16 "echo")] [Scenario.user_message]
           Scenario.fragment_then_text Scenario.follow_up 2 Hnot eq_refl Hlen)))
           0%nat Samples.echo_call (canonical_id Scenario.alpha (u16 "echo"))
           Scenario.alpha (u16 "echo") eq_refl eq_refl Henabled eq_refl eq_refl).
Defined.

(** A cancelled run: the stream carries a text chunk, then a call in
    one fragment, then more text, and the signal is seen set at the
    third chunk. The text returned is that of the first chunk, the
    third chunk is not processed, and the request to [echo] goes out
    all the same, after the cancellation. *)
Example request_after_cancellation :
  Scenario.cancel_at 2 0 = false
  /\ Scenario.cancel_at 2 1 = false
  /\ Scenario.cancel_at 2 2 = true
  /\ length Scenario.fragment_then_text = 3%nat
  /\ out_fullResponse
       (streamMultimodalResponse reference_platform (Scenario.settings_with [])
          Scenario.pong (Scenario.connected [u16 "echo"]) (Scenario.cancel_at 2)
          [canonical_id Scenario.alpha (u16 "echo")] [Scenario.user_message]
          Scenario.fragment_then_text Scenario.follow_up)
     = u16 "Let me check."
  /\ out_sent
       (streamMultimodalResponse reference_platform (Scenario.settings_with [])
          Scenario.pong (Scenario.connected [u16 "echo"]) (Scenario.cancel_at 2)
          [canonical_id Scenario.alpha (u16 "echo")] [Scenario.user_message]
          Scenario.fragment_then_text Scenario.follow_up)
     = [{| req_server := Scenario.alpha;
           req_name := u16 "echo";
           req_arguments := VObj [] |}]
  /\ map output
       (out_toolResults
          (streamMultimodalResponse reference_platform (Scenario.settings_with [])
             Scenario.pong (Scenario.connected [u16 "echo"]) (Scenario.cancel_at 2)
             [canonical_id Scenario.alpha (u16 "echo")] [Scenario.user_message]
             Scenario.fragment_then_text Scenario.follow_up))
     = [VStr (u16 "pong")].
Proof. repeat split; vm_compute; reflexivity. Qed.

(** * Further properties of the code *)

(** ** The registry *)

Lemma manager_eq (a b : MCPClientManager) :
  clients a = clients b -> transports a = transports b ->
  servers a = servers b -> tools a = tools b -> resources a = resources b ->
  a = b.
Proof. destruct a, b; simpl; intros; by subst. Qed.

(** X1. Registering a server stores its configuration under its name and
    does nothing else: a configuration registered before under the same
    name is replaced, registering twice is registering once, the other
    names keep their configurations, and no connection or catalog
    changes. *)
Theorem addServer_overwrites (c c' : MCPServerConfig) (m : MCPClientManager) :
  cfg_name c = cfg_name c' ->
  addServer c' (addServer c m) = addServer c' m
  /\ addServer c (addServer c m) = addServer c m
  /\ getServerConfig (addServer c m) (cfg_name c) = Some c
  /\ (forall name, name <> cfg_name c ->
        getServerConfig (addServer c m) name = getServerConfig m name)
  /\ clients (addServer c m) = clients m
  /\ tools (addServer c m) = tools m.
Proof.
  intros Hname. unfold addServer, getServerConfig, set_servers. simpl.
  rewrite Hname, !set_set, get_set_eq. repeat split.
  intros name Hne. rewrite get_set_ne; [done | congruence].
Qed.

Lemma addServer_overwrites_witness :
  cfg_name Scenario.alpha_config = cfg_name (Scenario.config_of Scenario.alpha)
  /\ addServer (Scenario.config_of Scenario.alpha)
       (addServer Scenario.alpha_config new_MCPClientManager)
     = addServer (Scenario.config_of Scenario.alpha) new_MCPClientManager.
Proof.
  split; [reflexivity |].
  apply (proj1 (addServer_overwrites Scenario.alpha_config
                  (Scenario.config_of Scenario.alpha) new_MCPClientManager
                  eq_refl)).
Defined.

(** The fields of the manager after [disconnectFromServer]. *)
Lemma disconnectFromServer_fields (client_close transport_close : result unit)
    (serverName : jsstring) (m : MCPClientManager) :
  let m' := disconnectFromServer client_close transport_close serverName m in
  clients m'
  = (if JSMap.has serverName (clients m) && is_ok client_close
     then JSMap.delete serverName (clients m) else clients m)
  /\ transports m'
     = (if JSMap.has serverName (transports m) && is_ok transport_close
        then JSMap.delete serverName (transports m) else transports m)
  /\ servers m' = servers m
  /\ tools m' = JSMap.delete serverName (tools m)
  /\ resources m' = JSMap.delete serverName (resources m).
Proof.
  unfold disconnectFromServer, JSMap.has.
  destruct (JSMap.get serverName (clients m)),
    (JSMap.get serverName (transports m)), client_close, transport_close;
    simpl; done.
Qed.

Lemma has_delete_ne {V} (k k' : jsstring) (m : JSMap.t jsstring V) :
  k <> k' -> JSMap.has k' (JSMap.delete k m) = JSMap.has k' m.
Proof. intros Hne. unfold JSMap.has. by rewrite get_delete_ne. Qed.

Lemma get_cond_delete {V} (b : bool) (k other : jsstring)
    (mp : JSMap.t jsstring V) :
  k <> other ->
  JSMap.get other (if b then JSMap.delete k mp else mp) = JSMap.get other mp.
Proof. intros Hne. destruct b; [by apply get_delete_ne | done]. Qed.

Lemma disconnectFromServer_connected (client_close transport_close : result unit)
    (serverName name : jsstring) (m : MCPClientManager) :
  isServerConnected
    (disconnectFromServer client_close transport_close serverName m) name
  = if bool_decide (name = serverName) && is_ok client_close then false
    else isServerConnected m name.
Proof.
  destruct (disconnectFromServer_fields client_close transport_close serverName m)
    as (Ec & _).
  cbv zeta in Ec. unfold isServerConnected. rewrite Ec.
  destruct (decide (name = serverName)) as [->|Hne].
  - rewrite bool_decide_eq_true_2 by done. cbn [andb].
    destruct (is_ok client_close); rewrite ?andb_true_r, ?andb_false_r; [| done].
    destruct (JSMap.has serverName (clients m)) eqn:Hhas;
      [apply has_delete_eq | exact Hhas].
  - rewrite bool_decide_eq_false_2 by done. cbn [andb].
    destruct (_ && _); [| done]. apply has_delete_ne. congruence.
Qed.

(** X2. Disconnecting a server touches the entries of that server only:
    the configurations stay, the handles and catalogs of every other
    server are as before, and the handle of the server is gone as soon
    as its close succeeded. *)
Theorem disconnectFromServer_only_that_server
    (client_close transport_close : result unit) (serverName : jsstring)
    (m : MCPClientManager) :
  let m' := disconnectFromServer client_close transport_close serverName m in
  servers m' = servers m
  /\ (is_ok client_close = true -> isServerConnected m' serverName = false)
  /\ (is_ok transport_close = true -> JSMap.get serverName (transports m') = None)
  /\ (forall other, other <> serverName ->
        JSMap.get other (clients m') = JSMap.get other (clients m)
        /\ JSMap.get other (transports m') = JSMap.get other (transports m)
        /\ JSMap.get other (tools m') = JSMap.get other (tools m)
        /\ JSMap.get other (resources m') = JSMap.get other (resources m)).
Proof.
  intros m'.
  destruct (disconnectFromServer_fields client_close transport_close serverName m)
    as (Hc & Ht & Hs & Hto & Hr).
  fold m' in Hc, Ht, Hs, Hto, Hr.
  split; [exact Hs |]. split; [| split].
  - intros Hok. unfold isServerConnected. rewrite Hc, Hok, andb_true_r.
    destruct (JSMap.has serverName (clients m)) eqn:Hhas.
    + apply has_delete_eq.
    + exact Hhas.
  - intros Hok. rewrite Ht, Hok, andb_true_r.
    unfold JSMap.has. destruct (JSMap.get serverName (transports m)) eqn:Hget.
    + apply get_delete_eq.
    + exact Hget.
  - intros other Hne. rewrite Hc, Ht, Hto, Hr.
    assert (serverName <> other) as Hne' by congruence.
    rewrite !(get_delete_ne _ _ _ Hne'), !(get_cond_delete _ _ _ _ Hne').
    done.
Qed.

Lemma disconnectFromServer_only_that_server_witness :
  is_ok (Ok tt : result unit) = true
  /\ isServerConnected
       (disconnectFromServer (Ok tt) (Ok tt) Scenario.alpha
          (Scenario.connected [u16 "echo"])) Scenario.alpha = false.
Proof.
  split; [reflexivity |].
  apply (proj1 (proj2 (disconnectFromServer_only_that_server (Ok tt) (Ok tt)
                         Scenario.alpha (Scenario.connected [u16 "echo"])))).
  reflexivity.
Defined.

(** X3. Disconnections of two different servers commute, whatever the
    outcomes of their closes: the manager they leave does not depend on
    the order in which the two are served. *)
Theorem disconnectFromServer_commute
    (close1 transport1 close2 transport2 : result unit)
    (name1 name2 : jsstring) (m : MCPClientManager) :
  name1 <> name2 ->
  disconnectFromServer close1 transport1 name1
    (disconnectFromServer close2 transport2 name2 m)
  = disconnectFromServer close2 transport2 name2
      (disconnectFromServer close1 transport1 name1 m).
Proof.
  intros Hne. assert (name2 <> name1) as Hne' by congruence.
  destruct (disconnectFromServer_fields close2 transport2 name2 m)
    as (Hc2 & Ht2 & Hs2 & Hto2 & Hr2).
  destruct (disconnectFromServer_fields close1 transport1 name1 m)
    as (Hc1 & Ht1 & Hs1 & Hto1 & Hr1).
  destruct (disconnectFromServer_fields close1 transport1 name1
              (disconnectFromServer close2 transport2 name2 m))
    as (Hc12 & Ht12 & Hs12 & Hto12 & Hr12).
  destruct (disconnectFromServer_fields close2 transport2 name2
              (disconnectFromServer close1 transport1 name1 m))
    as (Hc21 & Ht21 & Hs21 & Hto21 & Hr21).
  cbv zeta in *.
  apply manager_eq.
  - rewrite Hc12, Hc21, Hc2, Hc1.
    destruct (JSMap.has name2 (clients m) && is_ok close2) eqn:H2,
      (JSMap.has name1 (clients m) && is_ok close1) eqn:H1;
      rewrite ?has_delete_ne, ?H1, ?H2 by done; try done.
    apply delete_delete.
  - rewrite Ht12, Ht21, Ht2, Ht1.
    destruct (JSMap.has name2 (transports m) && is_ok transport2) eqn:H2,
      (JSMap.has name1 (transports m) && is_ok transport1) eqn:H1;
      rewrite ?has_delete_ne, ?H1, ?H2 by done; try done.
    apply delete_delete.
  - by rewrite Hs12, Hs21, Hs2, Hs1.
  - rewrite Hto12, Hto21, Hto2, Hto1. apply delete_delete.
  - rewrite Hr12, Hr21, Hr2, Hr1. apply delete_delete.
Qed.

Lemma disconnectFromServer_commute_witness :
  u16 "a" <> u16 "a-@mcp-a-x"
  /\ disconnectFromServer (Throw Scenario.close_failed) (Ok tt) (u16 "a")
       (disconnectFromServer (Ok tt) (Ok tt) (u16 "a-@mcp-a-x")
          Scenario.two_servers)
     = disconnectFromServer (Ok tt) (Ok tt) (u16 "a-@mcp-a-x")
         (disconnectFromServer (Throw Scenario.close_failed) (Ok tt) (u16 "a")
            Scenario.two_servers).
Proof.
  split; [discriminate |].
  apply disconnectFromServer_commute. discriminate.
Defined.

(** ** Connection and catalog *)

(** The fields of the manager after a loader, for a connected server. *)
Lemma loadServerTools_fields (listTools : result ListToolsResponse)
    (serverName : jsstring) (m : MCPClientManager) :
  let m' := fst (loadServerTools listTools serverName m) in
  clients m' = clients m /\ transports m' = transports m
  /\ servers m' = servers m /\ resources m' = resources m
  /\ (forall other, other <> serverName ->
        JSMap.get other (tools m') = JSMap.get other (tools m))
  /\ (isServerConnected m serverName = true ->
      JSMap.get serverName (tools m')
      = tools_after listTools (JSMap.get serverName (tools m)))
  /\ (isServerConnected m serverName = false -> m' = m).
Proof.
  unfold loadServerTools, isServerConnected, JSMap.has, tools_after.
  destruct (JSMap.get serverName (clients m)); cbn [fst]; [| done].
  destruct listTools as [[[ts|]]|error]; cbn [lt_tools fst].
  - simpl. repeat split; try done.
    + intros other Hne. rewrite get_set_ne; [done | congruence].
    + intros _. by rewrite get_set_eq.
  - done.
  - destruct (is_method_not_found error); cbn [fst]; [| done].
    simpl. repeat split; try done.
    + intros other Hne. rewrite get_set_ne; [done | congruence].
    + intros _. by rewrite get_set_eq.
Qed.

Lemma loadServerResources_fields (listResources : result ListResourcesResponse)
    (serverName : jsstring) (m : MCPClientManager) :
  let m' := fst (loadServerResources listResources serverName m) in
  clients m' = clients m /\ transports m' = transports m
  /\ servers m' = servers m /\ tools m' = tools m
  /\ (forall other, other <> serverName ->
        JSMap.get other (resources m') = JSMap.get other (resources m)).
Proof.
  unfold loadServerResources.
  destruct (JSMap.get serverName (clients m)); cbn [fst]; [| done].
  destruct listResources as [[[rs|]]|error]; cbn [lr_resources fst].
  - simpl. repeat split; try done.
    intros other Hne. rewrite get_set_ne; [done | congruence].
  - done.
  - destruct (is_method_not_found error); cbn [fst]; [| done].
    simpl. repeat split; try done.
    intros other Hne. rewrite get_set_ne; [done | congruence].
Qed.



(** The transport of the server registered in capitals holds the
    address in lower case and with its path. *)
Example connection_keeps_the_parsed_address :
  JSMap.get (u16 "caps")
    (transports
       (fst (connectToServer Samples.capitals_run (u16 "caps")
               (addServer Samples.capitals_config new_MCPClientManager))))
  = Some {| transport_url := u16 "http://localhost:3000/" |}
  /\ cfg_sseUrl Samples.capitals_config = u16 "HTTP://LocalHost:3000".
Proof. split; reflexivity. Qed.

(** ** Removal *)

Lemma getAllMCPTools_In_iff (m : MCPClientManager) (t : ListedTool) :
  In t (getAllMCPTools m) <->
  exists ts tool,
    In (listed_serverName t, ts) (tools m) /\ In tool ts
    /\ listed_name t = canonical_id (listed_serverName t) (tool_name tool)
    /\ listed_description t
       = u16 "[" ++ listed_serverName t ++ u16 "] " ++ tool_description tool.
Proof.
  unfold getAllMCPTools, JSMap.entries. rewrite in_flat_map. split.
  - intros [[serverName ts] [Hentry Hin]].
    apply in_map_iff in Hin as [tool [<- Htool]]. simpl.
    by exists ts, tool.
  - intros (ts & tool & Hentry & Htool & Hname & Hdescr).
    exists (listed_serverName t, ts). split; [done |].
    apply in_map_iff. exists tool. split; [| done].
    destruct t; simpl in *. by subst.
Qed.

Lemma in_delete_iff {V} (k k' : jsstring) (v : V) (mp : JSMap.t jsstring V) :
  In (k', v) (JSMap.delete k mp) <-> k' <> k /\ In (k', v) mp.
Proof.
  split; [apply in_delete |].
  induction mp as [|[k0 v0] mp IH]; simpl; [naive_solver |].
  intros [Hne [[= -> ->] | Hin]].
  - rewrite decide_False by congruence. by left.
  - destruct (decide (k = k0)); [by apply IH | right; by apply IH].
Qed.

(** X6. Removing a server forgets it: its configuration, its tools and
    its resources are gone, the discovery list loses exactly the tools
    of that server, and the server is no longer connected when its
    session closed. Removing a server the manager does not know
    changes nothing. *)
Theorem removeServer_forgets (client_close transport_close : result unit)
    (serverName : jsstring) (m : MCPClientManager) :
  let m' := removeServer client_close transport_close serverName m in
  getServerConfig m' serverName = None
  /\ getServerTools m' serverName = []
  /\ getServerResources m' serverName = []
  /\ (forall t, In t (getAllMCPTools m') <->
                In t (getAllMCPTools m) /\ listed_serverName t <> serverName)
  /\ (is_ok client_close = true -> isServerConnected m' serverName = false)
  /\ (getServerConfig m serverName = None ->
      isServerConnected m serverName = false ->
      JSMap.get serverName (transports m) = None ->
      JSMap.get serverName (tools m) = None ->
      JSMap.get serverName (resources m) = None ->
      m' = m).
Proof.
  intros m'.
  destruct (disconnectFromServer_fields client_close transport_close serverName m)
    as (Ec & Et & Es & Eto & Er).
  cbv zeta in *.
  assert (clients m' = clients (disconnectFromServer client_close transport_close
                                  serverName m)) as Hc by done.
  assert (transports m' = transports (disconnectFromServer client_close
                                        transport_close serverName m)) as Ht by done.
  assert (servers m' = JSMap.delete serverName (servers m)) as Hs.
  { unfold m', removeServer.
    cbn [servers set_resources set_tools set_servers]. by rewrite Es. }
  assert (tools m' = JSMap.delete serverName (tools m)) as Hto.
  { unfold m', removeServer.
    cbn [tools set_resources set_tools set_servers]. rewrite Eto.
    apply delete_absent, get_delete_eq. }
  assert (resources m' = JSMap.delete serverName (resources m)) as Hr.
  { unfold m', removeServer.
    cbn [resources set_resources set_tools set_servers]. rewrite Er.
    apply delete_absent, get_delete_eq. }
  split. { unfold getServerConfig. rewrite Hs. apply get_delete_eq. }
  split. { unfold getServerTools. by rewrite Hto, get_delete_eq. }
  split. { unfold getServerResources. by rewrite Hr, get_delete_eq. }
  split.
  { intros t. rewrite !getAllMCPTools_In_iff, Hto. split.
    - intros (ts & tool & Hentry & Hrest).
      apply in_delete_iff in Hentry as [Hne Hentry].
      split; [by exists ts, tool | done].
    - intros [(ts & tool & Hentry & Hrest) Hne].
      exists ts, tool. split; [by apply in_delete_iff | done]. }
  split.
  { intros Hok.
    assert (isServerConnected m' serverName
            = isServerConnected
                (disconnectFromServer client_close transport_close serverName m)
                serverName) as -> by (unfold isServerConnected; by rewrite Hc).
    rewrite disconnectFromServer_connected, Hok.
    by rewrite bool_decide_eq_true_2. }
  unfold getServerConfig, isServerConnected.
  intros Hcfg Hconn Htr Htools Hres.
  apply manager_eq.
  - rewrite Hc, Ec, Hconn. done.
  - rewrite Ht, Et. unfold JSMap.has. by rewrite Htr.
  - rewrite Hs. by apply delete_absent.
  - rewrite Hto. by apply delete_absent.
  - rewrite Hr. by apply delete_absent.
Qed.

Lemma removeServer_forgets_witness :
  is_ok (Ok tt : result unit) = true
  /\ isServerConnected
       (removeServer (Ok tt) (Ok tt) Scenario.alpha
          (Scenario.connected [u16 "echo"])) Scenario.alpha = false.
Proof.
  split; [reflexivity |].
  apply (proj1 (proj2 (proj2 (proj2 (proj2
           (removeServer_forgets (Ok tt) (Ok tt) Scenario.alpha
              (Scenario.connected [u16 "echo"]))))))).
  reflexivity.
Defined.

(** ** Disconnecting every server *)

Lemma fold_disconnect_connected closes (names : list jsstring) (name : jsstring) :
  forall m,
    isServerConnected
      (fold_left
         (fun m serverName =>
            disconnectFromServer (fst (closes serverName))
              (snd (closes serverName)) serverName m) names m) name
    = if bool_decide (name ∈ names) && is_ok (fst (closes name)) then false
      else isServerConnected m name.
Proof.
  induction names as [|n rest IH]; intros m; [done |].
  cbn [fold_left]. rewrite IH, disconnectFromServer_connected.
  destruct (decide (name = n)) as [->|Hne].
  - rewrite (bool_decide_eq_true_2 (n ∈ n :: rest)) by (by left).
    rewrite (bool_decide_eq_true_2 (n = n)) by done. cbn [andb].
    destruct (is_ok (fst (closes n))); [| by rewrite andb_false_r].
    by destruct (bool_decide (n ∈ rest)).
  - rewrite (bool_decide_eq_false_2 (name = n)) by done. cbn [andb].
    destruct (decide (name ∈ rest)) as [Hin|Hnot].
    + rewrite !bool_decide_eq_true_2; [done | by right | done].
    + rewrite !bool_decide_eq_false_2; [done | | done].
      intros Hin. apply elem_of_cons in Hin as [? | ?]; done.
Qed.

(** X7. Disconnecting every server empties the registry and the catalogs,
    so that no tool is listed any more, and a second call changes
    nothing. A registered server whose session closes is no longer
    connected; one whose close fails keeps its handle although its
    configuration is gone; a server that was connected without being
    registered is not disconnected at all. *)
Theorem disconnectAll_clears (closes : jsstring -> result unit * result unit)
    (m : MCPClientManager) :
  let m' := disconnectAll closes m in
  (getAllServerConfigs m' = [] /\ tools m' = [] /\ resources m' = []
   /\ getAllMCPTools m' = [])
  /\ (forall closes', disconnectAll closes' m' = m')
  /\ (forall name,
        In name (JSMap.keys (servers m)) ->
        is_ok (fst (closes name)) = true ->
        isServerConnected m' name = false)
  /\ (forall name,
        is_ok (fst (closes name)) = false ->
        isServerConnected m' name = isServerConnected m name)
  /\ (forall name,
        ~ In name (JSMap.keys (servers m)) ->
        isServerConnected m' name = isServerConnected m name).
Proof.
  intros m'.
  assert (forall name, isServerConnected m' name
            = if bool_decide (name ∈ JSMap.keys (servers m))
                 && is_ok (fst (closes name))
              then false else isServerConnected m name) as Hconn.
  { intros name. unfold m', disconnectAll, isServerConnected. cbn [clients].
    apply (fold_disconnect_connected closes). }
  split; [done |]. split; [| split; [| split]].
  - intros closes'. unfold disconnectAll. by apply manager_eq.
  - intros name Hin Hok. rewrite Hconn, Hok.
    rewrite bool_decide_eq_true_2; [done | by apply list_elem_of_In].
  - intros name Hfail. rewrite Hconn, Hfail. by rewrite andb_false_r.
  - intros name Hnot. rewrite Hconn.
    rewrite bool_decide_eq_false_2; [done | by rewrite list_elem_of_In].
Qed.

Lemma disconnectAll_clears_witness :
  In Scenario.alpha (JSMap.keys (servers (Scenario.connected [u16 "echo"])))
  /\ is_ok (fst ((fun _ : jsstring => (Ok tt, Ok tt)) Scenario.alpha
                 : result unit * result unit)) = true
  /\ isServerConnected
       (disconnectAll (fun _ => (Ok tt, Ok tt)) (Scenario.connected [u16 "echo"]))
       Scenario.alpha = false.
Proof.
  assert (In Scenario.alpha
            (JSMap.keys (servers (Scenario.connected [u16 "echo"])))) as Hin
    by (left; reflexivity).
  split; [exact Hin |]. split; [reflexivity |].
  apply (proj1 (proj2 (proj2 (disconnectAll_clears (fun _ => (Ok tt, Ok tt))
                                (Scenario.connected [u16 "echo"]))))
           Scenario.alpha Hin eq_refl).
Defined.

(** ** Refreshing every server *)

Lemma tools_after_idempotent (listTools : result ListToolsResponse)
    (previous : option (list MCPTool)) :
  tools_after listTools (tools_after listTools previous)
  = tools_after listTools previous.
Proof.
  unfold tools_after. destruct listTools as [[[ts|]]|error]; cbn; try done.
  by destruct (is_method_not_found error).
Qed.

Lemma refresh_server_fields (listTools : result ListToolsResponse)
    (listResources : result ListResourcesResponse) (serverName : jsstring)
    (m : MCPClientManager) :
  let m' := refresh_server listTools listResources serverName m in
  clients m' = clients m /\ transports m' = transports m
  /\ servers m' = servers m
  /\ (forall name,
        JSMap.get name (tools m')
        = if bool_decide (name = serverName) && isServerConnected m name
          then tools_after listTools (JSMap.get name (tools m))
          else JSMap.get name (tools m)).
Proof.
  destruct (loadServerTools_fields listTools serverName m)
    as (Tc & Tt & Ts & Tr & Tother & Tself & Tnone).
  destruct (loadServerResources_fields listResources serverName
              (fst (loadServerTools listTools serverName m)))
    as (Rc & Rt & Rs & Rto & _).
  cbv zeta in *. unfold refresh_server.
  destruct (loadServerTools listTools serverName m) as [m1 r] eqn:Hload.
  cbn [fst] in *.
  assert (forall name,
            JSMap.get name (tools m1)
            = if bool_decide (name = serverName) && isServerConnected m name
              then tools_after listTools (JSMap.get name (tools m))
              else JSMap.get name (tools m)) as Htools.
  { intros name. destruct (decide (name = serverName)) as [->|Hne].
    - rewrite bool_decide_eq_true_2 by done. cbn [andb].
      destruct (isServerConnected m serverName) eqn:Hconn.
      + by apply Tself.
      + by rewrite (Tnone eq_refl).
    - rewrite bool_decide_eq_false_2 by done. by apply Tother. }
  destruct r as [[]|error].
  - rewrite Rc, Rt, Rs, Rto. done.
  - done.
Qed.

Lemma refreshAllTools_tools
    (responses : jsstring -> result ListToolsResponse * result ListResourcesResponse)
    (order : list jsstring) :
  forall m : MCPClientManager,
    clients (refreshAllTools responses order m) = clients m
    /\ servers (refreshAllTools responses order m) = servers m
    /\ forall name,
         JSMap.get name (tools (refreshAllTools responses order m))
         = if bool_decide (name ∈ order) && isServerConnected m name
           then tools_after (fst (responses name)) (JSMap.get name (tools m))
           else JSMap.get name (tools m).
Proof.
  unfold refreshAllTools.
  induction order as [|n rest IH]; intros m; [done |].
  cbn [fold_left].
  destruct (refresh_server_fields (fst (responses n)) (snd (responses n)) n m)
    as (Ec & _ & Es & Etools).
  cbv zeta in *.
  destruct (IH (refresh_server (fst (responses n)) (snd (responses n)) n m))
    as (Hc & Hs & Ht).
  split; [by rewrite Hc |]. split; [by rewrite Hs |].
  intros name. rewrite Ht. unfold isServerConnected. rewrite Ec.
  fold (isServerConnected m name). rewrite Etools.
  destruct (isServerConnected m name) eqn:Hconn;
    rewrite ?andb_true_r, ?andb_false_r; [| done].
  destruct (decide (name = n)) as [->|Hne].
  - rewrite (bool_decide_eq_true_2 (n = n)) by done.
    rewrite (bool_decide_eq_true_2 (n ∈ n :: rest)) by (by left).
    destruct (bool_decide (n ∈ rest)); [apply tools_after_idempotent | done].
  - rewrite (bool_decide_eq_false_2 (name = n)) by done.
    destruct (decide (name ∈ rest)) as [Hin|Hnot].
    + rewrite !bool_decide_eq_true_2; [done | by right | done].
    + rewrite !bool_decide_eq_false_2; [done | | done].
      intros Hin. apply elem_of_cons in Hin as [? | ?]; done.
Qed.

Lemma connected_in_keys (m : MCPClientManager) (name : jsstring) :
  isServerConnected m name = true -> name ∈ getConnectedServers m.
Proof.
  unfold isServerConnected, JSMap.has, getConnectedServers. intros Hhas.
  apply list_elem_of_In.
  destruct (decide (name ∈ JSMap.keys (clients m))) as [Hin|Hnot];
    [by apply list_elem_of_In |].
  rewrite list_elem_of_In in Hnot. apply get_None_keys in Hnot.
  by rewrite Hnot in Hhas.
Qed.

(** X8. Refreshing serves each server by itself. The connected servers
    are refreshed together, in some order; whatever that order, the
    catalog entry of a connected server is afterwards what its own tool
    list leaves of its previous entry (the listed tools, the empty list
    for a provider without tool list, the previous entry after any
    other failure), whatever the other servers answer; the connections
    and the registry are not touched, and a server that is not
    connected keeps its entry. *)
Theorem refreshAllTools_per_server
    (responses : jsstring -> result ListToolsResponse * result ListResourcesResponse)
    (order : list jsstring) (m : MCPClientManager) :
  order ≡ₚ getConnectedServers m ->
  let m' := refreshAllTools responses order m in
  getConnectedServers m' = getConnectedServers m
  /\ servers m' = servers m
  /\ (forall name,
        isServerConnected m name = true ->
        JSMap.get name (tools m')
        = tools_after (fst (responses name)) (JSMap.get name (tools m)))
  /\ (forall name,
        isServerConnected m name = false ->
        JSMap.get name (tools m') = JSMap.get name (tools m)).
Proof.
  intros Horder m'.
  destruct (refreshAllTools_tools responses order m) as (Hc & Hs & Ht).
  fold m' in Hc, Hs, Ht.
  split; [unfold getConnectedServers; by rewrite Hc |]. split; [done |]. split.
  - intros name Hconn. rewrite Ht, Hconn.
    rewrite bool_decide_eq_true_2; [done |].
    rewrite Horder. by apply connected_in_keys.
  - intros name Hconn. rewrite Ht, Hconn. by rewrite andb_false_r.
Qed.

Lemma refreshAllTools_per_server_witness :
  [Scenario.alpha] ≡ₚ getConnectedServers (Scenario.connected [u16 "echo"])
  /\ isServerConnected (Scenario.connected [u16 "echo"]) Scenario.alpha = true
  /\ JSMap.get Scenario.alpha
       (tools (refreshAllTools
                 (fun _ => (Throw Scenario.timed_out, Throw Scenario.timed_out))
                 [Scenario.alpha] (Scenario.connected [u16 "echo"])))
     = tools_after (Throw Scenario.timed_out)
         (JSMap.get Scenario.alpha (tools (Scenario.connected [u16 "echo"]))).
Proof.
  assert ([Scenario.alpha]
          ≡ₚ getConnectedServers (Scenario.connected [u16 "echo"])) as Horder
    by reflexivity.
  split; [exact Horder |]. split; [reflexivity |].
  apply (proj1 (proj2 (proj2 (refreshAllTools_per_server
           (fun _ => (Throw Scenario.timed_out, Throw Scenario.timed_out))
           [Scenario.alpha] (Scenario.connected [u16 "echo"]) Horder)))
           Scenario.alpha eq_refl).
Defined.

(** ** Tool names *)

Lemma strip_prefix_Some (p s rest : jsstring) :
  strip_prefix p s = Some rest -> s = p ++ rest.
Proof.
  revert s. induction p as [|a p IH]; intros s H.
  - by injection H as ->.
  - destruct s as [|b s]; [done |]. cbn [strip_prefix] in H.
    destruct (N.eqb_spec a b) as [->|]; [| done].
    cbn [app]. f_equal. by apply IH.
Qed.

Lemma forallb_dot_app (a b : jsstring) :
  forallb dot (a ++ b) = forallb dot a && forallb dot b.
Proof. apply forallb_app. Qed.

Lemma lazy_group_sound (s g t : jsstring) :
  lazy_group s = Some (g, t) ->
  s = g ++ DASH :: t /\ g <> [] /\ dot_plus_end t = true
  /\ forallb dot g = true /\ (DASH ∉ tail g).
Proof.
  revert g t. induction s as [|c rest IH]; intros g t H; [done |].
  cbn [lazy_group] in H.
  destruct (dot c) eqn:Hc; [| done].
  destruct rest as [|d tl]; [done |].
  destruct ((d =? DASH) && dot_plus_end tl) eqn:Hcond.
  - injection H as <- <-.
    apply andb_true_iff in Hcond as [Hd Ht]. apply N.eqb_eq in Hd as ->.
    repeat split; try done.
    + cbn. by rewrite Hc.
    + cbn. apply not_elem_of_nil.
  - destruct (lazy_group (d :: tl)) as [[g' t']|] eqn:Hrec; [| done].
    injection H as <- <-.
    destruct (IH g' t' eq_refl) as (Hs & Hg & Ht & Hdot & Hdash).
    destruct g' as [|d' g'']; [done |].
    cbn [app] in Hs. injection Hs as <- ->.
    cbn [tail] in Hdash.
    repeat split; try done.
    + cbn [forallb]. by rewrite Hc.
    + cbn [tail]. apply not_elem_of_cons. split; [| done].
      intros <-. rewrite N.eqb_refl in Hcond. cbn [andb] in Hcond.
      unfold dot_plus_end in Hcond, Ht.
      apply andb_true_iff in Ht as [Ht1 Ht2].
      cbn [forallb] in Hdot. apply andb_true_iff in Hdot as [_ Hdot].
      rewrite forallb_dot_app in Hcond. cbn [forallb] in Hcond.
      rewrite Hdot, Ht2 in Hcond.
      by destruct g''.
Qed.

Lemma match_tool_name_canonical (serverName localName : jsstring) :
  serverName <> [] ->
  localName <> [] ->
  DASH ∉ serverName ->
  forallb dot serverName = true ->
  forallb dot localName = true ->
  match_tool_name (canonical_id serverName localName)
  = Some (serverName, localName).
Proof.
  intros Hs Hl Hdash Hds Hdl.
  unfold match_tool_name, canonical_id.
  rewrite strip_prefix_app.
  apply lazy_group_first_dash; try done.
  unfold dot_plus_end. rewrite Hdl.
  by destruct localName.
Qed.

Lemma isMCPTool_canonical_id (serverName localName : jsstring) :
  isMCPTool (canonical_id serverName localName) = true.
Proof.
  unfold isMCPTool, startsWith, canonical_id. by rewrite strip_prefix_app.
Qed.

Lemma match_tool_name_sound (toolName serverName localName : jsstring) :
  match_tool_name toolName = Some (serverName, localName) ->
  toolName = canonical_id serverName localName
  /\ serverName <> [] /\ localName <> []
  /\ (DASH ∉ tail serverName)
  /\ isMCPTool toolName = true.
Proof.
  unfold match_tool_name. intros H.
  destruct (strip_prefix (u16 "@mcp-") toolName) as [rest|] eqn:Hp; [| done].
  apply strip_prefix_Some in Hp.
  destruct (lazy_group_sound _ _ _ H) as (Hs & Hg & Ht & _ & Hdash).
  assert (toolName = canonical_id serverName localName) as ->.
  { rewrite Hp, Hs. unfold canonical_id. reflexivity. }
  split; [done |]. split; [done |]. split; [by intros -> |].
  split; [done |]. apply isMCPTool_canonical_id.
Qed.

(** X9. Decoding is inverted by encoding: a name the pattern accepts is the
    canonical id of the pair it is decoded into; the two parts are not
    empty, and the server part holds no dash after its first
    character. *)
Theorem match_tool_name_inverse (toolName serverName localName : jsstring) :
  match_tool_name toolName = Some (serverName, localName) ->
  toolName = canonical_id serverName localName
  /\ serverName <> [] /\ localName <> []
  /\ (DASH ∉ tail serverName)
  /\ isMCPTool toolName = true.
Proof. apply match_tool_name_sound. Qed.

Lemma match_tool_name_inverse_witness :
  match_tool_name (u16 "@mcp--a-b-c") = Some (u16 "-a", u16 "b-c")
  /\ u16 "@mcp--a-b-c" = canonical_id (u16 "-a") (u16 "b-c")
  /\ u16 "-a" <> [] /\ u16 "b-c" <> []
  /\ (DASH ∉ tail (u16 "-a"))
  /\ isMCPTool (u16 "@mcp--a-b-c") = true.
Proof.
  split; [reflexivity |].
  apply (match_tool_name_inverse (u16 "@mcp--a-b-c") (u16 "-a") (u16 "b-c")
           eq_refl).
Defined.

Lemma first_dash_unique (s1 s2 t1 t2 : jsstring) :
  DASH ∉ s1 -> DASH ∉ s2 ->
  s1 ++ DASH :: t1 = s2 ++ DASH :: t2 -> s1 = s2 /\ t1 = t2.
Proof.
  revert s2. induction s1 as [|a s1 IH]; intros s2 H1 H2 E.
  - destruct s2 as [|b s2]; cbn in E.
    + by injection E as ->.
    + injection E as <- _. exfalso. apply H2. by left.
  - destruct s2 as [|b s2]; cbn in E.
    + injection E as -> _. exfalso. apply H1. by left.
    + injection E as <- E.
      apply not_elem_of_cons in H1 as [_ H1].
      apply not_elem_of_cons in H2 as [_ H2].
      destruct (IH s2 H1 H2 E) as [-> ->]. done.
Qed.

(** X10. Two tools of servers whose names hold no dash have the same
    canonical id only if they are the same tool of the same server. *)
Theorem canonical_id_injective (s1 s2 t1 t2 : jsstring) :
  DASH ∉ s1 -> DASH ∉ s2 ->
  canonical_id s1 t1 = canonical_id s2 t2 ->
  s1 = s2 /\ t1 = t2.
Proof.
  intros H1 H2 E. unfold canonical_id in E.
  apply app_inv_head in E.
  by apply first_dash_unique.
Qed.

Lemma canonical_id_injective_witness :
  (DASH ∉ u16 "alpha") /\ (DASH ∉ u16 "alpha")
  /\ canonical_id (u16 "alpha") (u16 "get-time")
     = canonical_id (u16 "alpha") (u16 "get-time")
  /\ u16 "alpha" = u16 "alpha" /\ u16 "get-time" = u16 "get-time".
Proof.
  assert (DASH ∉ u16 "alpha") as H by by_compute.
  split; [exact H |]. split; [exact H |]. split; [reflexivity |].
  apply (canonical_id_injective (u16 "alpha") (u16 "alpha") (u16 "get-time")
           (u16 "get-time") H H eq_refl).
Defined.

(** ** Dispatch *)

Lemma executeMCPTool_cases (settings : Settings) (net : Providers)
    (m : MCPClientManager) (toolName : jsstring) (args : value)
    (sent : list ToolRequest) :
  let r := executeMCPTool settings net m toolName args sent in
  (fst r = sent /\ is_ok (snd r) = false)
  \/ (exists serverName actualToolName,
        let request := {| req_server := serverName;
                          req_name := actualToolName;
                          req_arguments := args |} in
        match_tool_name toolName = Some (serverName, actualToolName)
        /\ isMCPTool toolName = true
        /\ (toolName ∉ disabledTools settings)
        /\ isServerConnected m serverName = true
        /\ fst r = sent ++ [request]
        /\ snd r = net sent request).
Proof.
  unfold executeMCPTool.
  destruct (decide (toolName ∈ disabledTools settings)) as [Hin|Hnot].
  { rewrite bool_decide_eq_true_2 by done. by left. }
  rewrite bool_decide_eq_false_2 by done.
  destruct (match_tool_name toolName) as [[serverName actualToolName]|] eqn:Hm;
    [| by left].
  destruct (isServerConnected m serverName) eqn:Hconn; [| by left].
  cbn [negb]. right. exists serverName, actualToolName. cbv zeta.
  destruct (match_tool_name_sound _ _ _ Hm) as (_ & _ & _ & _ & Hmcp).
  unfold executeTool.
  pose proof Hconn as Hhas.
  apply has_get in Hhas as [client Hclient]. rewrite Hclient.
  cbn [fst snd]. auto 10.
Qed.

(** X11. A call of [executeMCPTool] either sends nothing and throws, or sends
    exactly one request: the tool name is then enabled, it decodes to a
    connected server and a tool, the request names both and carries the
    arguments as they are, and the outcome is that of the provider. *)
Theorem executeMCPTool_request (settings : Settings) (net : Providers)
    (m : MCPClientManager) (toolName : jsstring) (args : value)
    (sent : list ToolRequest) :
  let r := executeMCPTool settings net m toolName args sent in
  (fst r = sent /\ is_ok (snd r) = false)
  \/ (exists serverName actualToolName,
        let request := {| req_server := serverName;
                          req_name := actualToolName;
                          req_arguments := args |} in
        match_tool_name toolName = Some (serverName, actualToolName)
        /\ isMCPTool toolName = true
        /\ (toolName ∉ disabledTools settings)
        /\ isServerConnected m serverName = true
        /\ fst r = sent ++ [request]
        /\ snd r = net sent request).
Proof. apply executeMCPTool_cases. Qed.

(** ** Calls to a server that is not connected *)




(** ** Schemas of the catalog *)

Lemma find_to_MCPTool (name : jsstring) (listed : list Tool) :
  List.find (fun t => bool_decide (tool_name t = name)) (map to_MCPTool listed)
  = option_map to_MCPTool
      (List.find (fun t => bool_decide (sdk_name t = name)) listed).
Proof.
  induction listed as [|t listed IH]; [done |].
  cbn [map List.find]. unfold to_MCPTool at 1. cbn [tool_name].
  by destruct (bool_decide (sdk_name t = name)).
Qed.

Lemma truthy_value_or_object (o : option value) :
  truthy (value_or o (VObj [])) = true.
Proof.
  destruct o as [v|]; [| done]. cbn [value_or].
  by destruct (truthy v) eqn:Hv.
Qed.

(** X13. After a server answered its tool list, the schema looked up under
    the canonical id of a tool is the schema of the first listed tool of
    that name, the empty object standing for a missing or falsy one; an
    id of a tool the server did not list has no schema. *)
Theorem getMCPToolSchema_after_load (listed : list Tool)
    (serverName localName : jsstring) (m : MCPClientManager) :
  serverName <> [] ->
  localName <> [] ->
  DASH ∉ serverName ->
  forallb dot serverName = true ->
  forallb dot localName = true ->
  isServerConnected m serverName = true ->
  let m' := fst (loadServerTools (Ok {| lt_tools := Some listed |})
                   serverName m) in
  getMCPToolSchema m' (canonical_id serverName localName)
  = match List.find (fun t => bool_decide (sdk_name t = localName)) listed with
    | Some tool => Some (value_or (sdk_inputSchema tool) (VObj []))
    | None => None
    end.
Proof.
  intros Hs Hl Hdash Hds Hdl Hconn m'.
  destruct (loadServerTools_fields (Ok {| lt_tools := Some listed |})
              serverName m) as (_ & _ & _ & _ & _ & Hself & _).
  cbv zeta in Hself. specialize (Hself Hconn). fold m' in Hself.
  unfold getMCPToolSchema.
  rewrite (match_tool_name_canonical _ _ Hs Hl Hdash Hds Hdl).
  unfold getServerTools. rewrite Hself. cbn [tools_after lt_tools].
  rewrite find_to_MCPTool.
  destruct (List.find _ listed) as [tool|]; [| done].
  cbn [option_map]. unfold to_MCPTool. cbn [tool_inputSchema].
  by rewrite truthy_value_or_object.
Qed.

Lemma getMCPToolSchema_after_load_witness :
  Scenario.alpha <> [] /\ u16 "echo" <> []
  /\ (DASH ∉ Scenario.alpha)
  /\ forallb dot Scenario.alpha = true
  /\ forallb dot (u16 "echo") = true
  /\ isServerConnected (Scenario.connected []) Scenario.alpha = true
  /\ getMCPToolSchema
       (fst (loadServerTools
               (Ok {| lt_tools := Some [Scenario.provider_tool (u16 "echo")] |})
               Scenario.alpha (Scenario.connected [])))
       (canonical_id Scenario.alpha (u16 "echo"))
     = match List.find (fun t => bool_decide (sdk_name t = u16 "echo"))
               [Scenario.provider_tool (u16 "echo")] with
       | Some tool => Some (value_or (sdk_inputSchema tool) (VObj []))
       | None => None
       end.
Proof.
  assert (Scenario.alpha <> []) as H1 by done.
  assert (u16 "echo" <> []) as H2 by done.
  assert (DASH ∉ Scenario.alpha) as H3 by by_compute.
  split; [exact H1 |]. split; [exact H2 |]. split; [exact H3 |].
  split; [reflexivity |]. split; [reflexivity |]. split; [reflexivity |].
  apply (getMCPToolSchema_after_load [Scenario.provider_tool (u16 "echo")]
           Scenario.alpha (u16 "echo") (Scenario.connected [])
           H1 H2 H3 eq_refl eq_refl eq_refl).
Defined.

(** ** Adding a server through the tools manager *)

Lemma connectToServer_servers (run : ConnectRun) (serverName : jsstring)
    (m : MCPClientManager) :
  servers (fst (connectToServer run serverName m)) = servers m.
Proof.
  unfold connectToServer.
  destruct (JSMap.get serverName (servers m)) as [serverConfig|]; [| done].
  destruct (run_new_URL run); [| done].
  destruct (run_connect run); [| done]. cbn [fst].
  destruct (loadServerResources_fields (run_listResources run) serverName
              (fst (loadServerTools (run_listTools run) serverName
                 (set_transports
                    (JSMap.set serverName
                       {| transport_url := run_href run |})
                    (set_clients
                       (JSMap.set serverName
                          {| client_name := u16 "obsidian-copilot";
                             client_version := u16 "1.0.0" |}) m)))))
    as (_ & _ & -> & _).
  destruct (loadServerTools_fields (run_listTools run) serverName
              (set_transports
                 (JSMap.set serverName {| transport_url := run_href run |})
                 (set_clients
                    (JSMap.set serverName
                       {| client_name := u16 "obsidian-copilot";
                          client_version := u16 "1.0.0" |}) m)))
    as (_ & _ & -> & _).
  done.
Qed.

Lemma connectToServer_connected (run : ConnectRun) (serverName name : jsstring)
    (m : MCPClientManager) :
  isServerConnected (fst (connectToServer run serverName m)) name
  = (bool_decide (name = serverName)
     && is_ok (snd (connectToServer run serverName m)))
    || isServerConnected m name.
Proof.
  unfold connectToServer.
  destruct (JSMap.get serverName (servers m)) as [serverConfig|];
    [| by rewrite andb_false_r].
  destruct (run_new_URL run); [| by rewrite andb_false_r].
  destruct (run_connect run); [| by rewrite andb_false_r]. cbn [fst snd is_ok].
  rewrite andb_true_r. unfold isServerConnected.
  destruct (loadServerResources_fields (run_listResources run) serverName
              (fst (loadServerTools (run_listTools run) serverName
                 (set_transports
                    (JSMap.set serverName
                       {| transport_url := run_href run |})
                    (set_clients
                       (JSMap.set serverName
                          {| client_name := u16 "obsidian-copilot";
                             client_version := u16 "1.0.0" |}) m)))))
    as (-> & _).
  destruct (loadServerTools_fields (run_listTools run) serverName
              (set_transports
                 (JSMap.set serverName
                    {| transport_url := run_href run |})
                 (set_clients
                    (JSMap.set serverName
                       {| client_name := u16 "obsidian-copilot";
                          client_version := u16 "1.0.0" |}) m)))
    as (-> & _).
  cbn [clients set_transports set_clients].
  destruct (decide (name = serverName)) as [->|Hne].
  - rewrite bool_decide_eq_true_2 by done. cbn [orb]. apply has_set_eq.
  - rewrite bool_decide_eq_false_2 by done. cbn [orb].
    unfold JSMap.has. rewrite get_set_ne; [done | congruence].
Qed.

Lemma connectToServer_result (run : ConnectRun) (serverName : jsstring)
    (m : MCPClientManager) :
  is_ok (snd (connectToServer run serverName m))
  = JSMap.has serverName (servers m) && is_ok (run_new_URL run)
    && is_ok (run_connect run).
Proof.
  unfold connectToServer, JSMap.has.
  destruct (JSMap.get serverName (servers m)); [| done].
  destruct (run_new_URL run); [| done].
  by destruct (run_connect run).
Qed.

(** X14. Adding a server through the tools manager: a failed connection test
    leaves the manager as it was; once the test has passed the
    configuration is stored whatever follows, so a failure of the real
    connection is reported to the caller but leaves the server
    registered and not connected. *)
Theorem ToolsManager_addServer_outcomes (test : TestRun) (run : ConnectRun)
    (serverConfig : MCPServerConfig) (m : MCPClientManager) :
  let r := ToolsManager.addServer test run serverConfig m in
  (testConnection test = false ->
   r = (m, Throw connection_test_failed))
  /\ (testConnection test = true ->
      getServerConfig (fst r) (cfg_name serverConfig) = Some serverConfig
      /\ is_ok (snd r) = is_ok (run_new_URL run) && is_ok (run_connect run)
      /\ isServerConnected (fst r) (cfg_name serverConfig)
         = is_ok (snd r) || isServerConnected m (cfg_name serverConfig)
      /\ (forall other, other <> cfg_name serverConfig ->
            isServerConnected (fst r) other = isServerConnected m other
            /\ getServerConfig (fst r) other = getServerConfig m other)).
Proof.
  unfold ToolsManager.addServer.
  destruct (testConnection test); (split; [done |]); [| done].
  intros _. unfold getServerConfig.
  rewrite connectToServer_servers, connectToServer_result.
  unfold addServer at 1 2 3. cbn [servers set_servers].
  rewrite get_set_eq, has_set_eq. cbn [andb].
  split; [done |]. split; [done |]. split.
  - rewrite connectToServer_connected, connectToServer_result.
    rewrite bool_decide_eq_true_2 by done.
    unfold addServer at 1. cbn [servers set_servers].
    rewrite has_set_eq. done.
  - intros other Hne. rewrite connectToServer_connected.
    rewrite bool_decide_eq_false_2 by done. cbn [andb orb].
    split; [done |].
    unfold addServer. cbn [servers set_servers].
    rewrite get_set_ne; [done | congruence].
Qed.

Lemma ToolsManager_addServer_outcomes_witness :
  testConnection Samples.passing_test = true
  /\ getServerConfig
       (fst (ToolsManager.addServer Samples.passing_test Scenario.refused_run
               Scenario.alpha_config new_MCPClientManager))
       (cfg_name Scenario.alpha_config) = Some Scenario.alpha_config.
Proof.
  split; [reflexivity |].
  apply (proj1 (proj2 (ToolsManager_addServer_outcomes Samples.passing_test
           Scenario.refused_run Scenario.alpha_config new_MCPClientManager)
           eq_refl)).
Defined.

(** ** Start-up *)

Lemma initialize_step_connected (run : ConnectRun) (c : MCPServerConfig)
    (m : MCPClientManager) (name : jsstring) :
  isServerConnected
    (fst (connectToServer run (cfg_name c) (addServer c m))) name
  = (bool_decide (name = cfg_name c) && is_ok (run_new_URL run)
     && is_ok (run_connect run))
    || isServerConnected m name.
Proof.
  rewrite connectToServer_connected, connectToServer_result.
  unfold addServer at 1. cbn [servers set_servers]. rewrite has_set_eq.
  cbn [andb]. by rewrite andb_assoc.
Qed.

Lemma initialize_step_servers (run : ConnectRun) (c : MCPServerConfig)
    (m : MCPClientManager) :
  servers (fst (connectToServer run (cfg_name c) (addServer c m)))
  = JSMap.set (cfg_name c) c (servers m).
Proof. by rewrite connectToServer_servers. Qed.

Lemma initialize_servers_spec (runs : nat -> ConnectRun)
    (cfgs : list MCPServerConfig) :
  forall (k : nat) (m : MCPClientManager),
    let m' := initialize_servers runs k cfgs m in
    (forall name, isServerConnected m name = true ->
       isServerConnected m' name = true)
    /\ (forall name, is_Some (JSMap.get name (servers m)) ->
          is_Some (JSMap.get name (servers m')))
    /\ (forall i c, cfgs !! i = Some c -> cfg_enabled c <> Some false ->
          is_Some (JSMap.get (cfg_name c) (servers m'))
          /\ (is_ok (run_new_URL (runs (k + i)%nat))
              && is_ok (run_connect (runs (k + i)%nat)) = true ->
              isServerConnected m' (cfg_name c) = true))
    /\ (forall name,
          (forall c, In c cfgs -> cfg_name c = name ->
             cfg_enabled c = Some false) ->
          JSMap.get name (servers m') = JSMap.get name (servers m)
          /\ isServerConnected m' name = isServerConnected m name).
Proof.
  induction cfgs as [|c rest IH]; intros k m; cbn [initialize_servers].
  { repeat split; try done. }
  cbv zeta.
  set (m1 := if bool_decide (cfg_enabled c = Some false) then m
             else fst (connectToServer (runs k) (cfg_name c) (addServer c m))).
  destruct (IH (S k) m1) as (Hmono & Hkeep & Hat & Hskip). cbv zeta in *.
  assert (forall name, isServerConnected m name = true ->
            isServerConnected m1 name = true) as Hmono1.
  { intros name Hc. unfold m1. destruct (bool_decide _); [done |].
    rewrite initialize_step_connected, Hc. apply orb_true_r. }
  assert (forall name, is_Some (JSMap.get name (servers m)) ->
            is_Some (JSMap.get name (servers m1))) as Hkeep1.
  { intros name Hc. unfold m1. destruct (bool_decide _); [done |].
    rewrite initialize_step_servers.
    destruct (decide (name = cfg_name c)) as [->|Hne].
    - by rewrite get_set_eq.
    - rewrite get_set_ne; [done | congruence]. }
  split; [by auto |]. split; [by auto |]. split.
  - intros [|i] c' Hi Hen.
    + cbn in Hi. injection Hi as <-.
      assert (m1 = fst (connectToServer (runs k) (cfg_name c) (addServer c m)))
        as Hm1.
      { unfold m1. by rewrite bool_decide_eq_false_2. }
      split.
      * apply Hkeep. rewrite Hm1, initialize_step_servers.
        by rewrite get_set_eq.
      * intros Hok. apply Hmono. rewrite Hm1, initialize_step_connected.
        rewrite Nat.add_0_r in Hok.
        rewrite bool_decide_eq_true_2 by done. cbn [andb].
        by rewrite Hok.
    + cbn in Hi. destruct (Hat i c' Hi Hen) as [H1 H2].
      split; [done |]. intros Hok. apply H2.
      by replace (S k + i)%nat with (k + S i)%nat by lia.
  - intros name Hoff.
    destruct (Hskip name) as [H1 H2].
    { intros c' Hin. apply Hoff. by right. }
    rewrite H1, H2. unfold m1.
    destruct (decide (cfg_enabled c = Some false)) as [Hdis|Hen].
    + by rewrite bool_decide_eq_true_2.
    + rewrite bool_decide_eq_false_2 by done.
      assert (name <> cfg_name c) as Hne.
      { intros ->. apply Hen. apply Hoff; [by left | done]. }
      rewrite initialize_step_servers, initialize_step_connected.
      rewrite bool_decide_eq_false_2 by done. cbn [andb orb].
      split; [| done]. rewrite get_set_ne; [done | congruence].
Qed.

(** X15. Start-up from the settings: every server that is not switched off
    is registered, and it is connected when its own connection
    succeeds, whatever happens to the connections of the other servers;
    a name that only switched-off entries bear is left alone; servers
    connected before stay connected; and a second call does nothing,
    whatever the settings have become. *)
Theorem initialize_connects (runs : nat -> ConnectRun) (settings : Settings)
    (tm : MCPToolsManager) (cfgs : list MCPServerConfig) :
  initialized tm = false ->
  mcpServers settings = Some cfgs ->
  let tm' := initialize runs settings tm in
  initialized tm' = true
  /\ (forall i c, cfgs !! i = Some c -> cfg_enabled c <> Some false ->
        is_Some (getServerConfig (mcpClient tm') (cfg_name c))
        /\ (is_ok (run_new_URL (runs i)) && is_ok (run_connect (runs i)) = true ->
            isServerConnected (mcpClient tm') (cfg_name c) = true))
  /\ (forall name,
        (forall c, In c cfgs -> cfg_name c = name ->
           cfg_enabled c = Some false) ->
        getServerConfig (mcpClient tm') name
        = getServerConfig (mcpClient tm) name
        /\ isServerConnected (mcpClient tm') name
           = isServerConnected (mcpClient tm) name)
  /\ (forall name, isServerConnected (mcpClient tm) name = true ->
        isServerConnected (mcpClient tm') name = true)
  /\ (forall runs' settings', initialize runs' settings' tm' = tm').
Proof.
  intros Hinit Hcfgs tm'.
  assert (tm' = {| mcpClient := initialize_servers runs 0 cfgs (mcpClient tm);
                   initialized := true |}) as ->.
  { unfold tm', initialize. by rewrite Hinit, Hcfgs. }
  cbn [mcpClient initialized].
  destruct (initialize_servers_spec runs cfgs 0 (mcpClient tm))
    as (Hmono & _ & Hat & Hskip). cbv zeta in *.
  split; [done |]. split; [| split; [| split]].
  - intros i c Hi Hen. apply (Hat i c Hi Hen).
  - exact Hskip.
  - exact Hmono.
  - done.
Qed.

Lemma initialize_connects_witness :
  initialized Samples.fresh_tools_manager = false
  /\ mcpServers {| mcpServers := Some Samples.down_then_alpha;
                   mcpDisabledTools := None |}
     = Some Samples.down_then_alpha
  /\ Samples.down_then_alpha !! 1%nat = Some Scenario.alpha_config
  /\ cfg_enabled Scenario.alpha_config <> Some false
  /\ is_ok (run_new_URL (Samples.first_refused 1%nat))
     && is_ok (run_connect (Samples.first_refused 1%nat)) = true
  /\ isServerConnected
       (mcpClient
          (initialize Samples.first_refused
             {| mcpServers := Some Samples.down_then_alpha;
                mcpDisabledTools := None |}
             Samples.fresh_tools_manager))
       (cfg_name Scenario.alpha_config) = true.
Proof.
  assert (cfg_enabled Scenario.alpha_config <> Some false) as Hen by done.
  split; [reflexivity |]. split; [reflexivity |]. split; [reflexivity |].
  split; [exact Hen |]. split; [reflexivity |].
  apply (proj2 (proj1 (proj2 (initialize_connects Samples.first_refused
           {| mcpServers := Some Samples.down_then_alpha;
              mcpDisabledTools := None |}
           Samples.fresh_tools_manager Samples.down_then_alpha
           eq_refl eq_refl)) 1%nat Scenario.alpha_config eq_refl Hen) eq_refl).
Defined.

(** ** Descriptions for display *)

Lemma fold_descriptions (name : jsstring) (listed : list ListedTool) :
  forall descriptions : JSMap.t jsstring jsstring,
    JSMap.get name
      (fold_left
         (fun descriptions tool =>
            JSMap.set (listed_name tool) (listed_description tool) descriptions)
         listed descriptions)
    = match last (List.filter (fun t => bool_decide (listed_name t = name))
                    listed) with
      | Some t => Some (listed_description t)
      | None => JSMap.get name descriptions
      end.
Proof.
  induction listed as [|t listed IH]; intros descriptions; [done |].
  cbn [fold_left List.filter]. rewrite IH.
  destruct (decide (listed_name t = name)) as [E|Hne].
  - rewrite bool_decide_eq_true_2 by done. rewrite last_cons.
    destruct (last _); [done |]. rewrite E. by rewrite get_set_eq.
  - rewrite bool_decide_eq_false_2 by done.
    destruct (last _); [done |]. by rewrite get_set_ne.
Qed.

(** X16. The description table has an entry for a name exactly when a listed
    tool bears it, and the entry is the description of the last listed
    tool of that name: when two tools share an id, the later one hides
    the earlier. *)
Theorem getToolDescriptions_lookup (m : MCPClientManager) (name : jsstring) :
  JSMap.get name (getToolDescriptions m)
  = option_map listed_description
      (last (List.filter (fun t => bool_decide (listed_name t = name))
               (getAllMCPTools m))).
Proof.
  unfold getToolDescriptions. rewrite fold_descriptions.
  by destruct (last _).
Qed.

(** ** Schema conversion *)

Lemma flat_zod_of_type (type : option value) (is_required : bool) :
  flat_type (if is_required then zod_of_type type
             else ZOptional (zod_of_type type)) = true.
Proof.
  unfold zod_of_type.
  destruct type as [[| | |t| |]|]; destruct is_required; try done;
    repeat (destruct (bool_decide _); [done |]); done.
Qed.

Lemma Forall_set {V} (Q : jsstring * V -> Prop) (k : jsstring) (v : V)
    (mp : JSMap.t jsstring V) :
  Q (k, v) -> Forall Q mp -> Forall Q (JSMap.set k v mp).
Proof.
  intros Hq. induction 1 as [|[k0 v0] mp Hx Hall IH]; simpl.
  - by repeat constructor.
  - destruct (decide (k = k0)); by constructor.
Qed.

Lemma get_assign_shape_eq (key : jsstring) (z : ZodType)
    (shape : list (jsstring * ZodType)) :
  key <> u16 "__proto__" ->
  JSMap.get key (assign_shape key z shape) = Some z.
Proof.
  intros Hne. unfold assign_shape. rewrite bool_decide_eq_false_2 by done.
  apply get_set_eq.
Qed.

Lemma get_assign_shape_ne (key other : jsstring) (z : ZodType)
    (shape : list (jsstring * ZodType)) :
  key <> other ->
  JSMap.get other (assign_shape key z shape) = JSMap.get other shape.
Proof.
  intros Hne. unfold assign_shape. destruct (bool_decide _); [done |].
  by apply get_set_ne.
Qed.

Lemma get_assign_shape_proto (key : jsstring) (z : ZodType)
    (shape : list (jsstring * ZodType)) :
  JSMap.get (u16 "__proto__") (assign_shape key z shape)
  = JSMap.get (u16 "__proto__") shape.
Proof.
  unfold assign_shape.
  destruct (decide (key = u16 "__proto__")) as [E|Hne].
  - by rewrite bool_decide_eq_true_2.
  - rewrite bool_decide_eq_false_2 by done. by apply get_set_ne.
Qed.

Lemma shape_of_entries_spec (required : option value)
    (entries : list (jsstring * value)) :
  forall shape0 shape : list (jsstring * ZodType),
    shape_of_entries required entries shape0 = Ok shape ->
    NoDup (map fst entries) ->
    (forall key propSchema,
       In (key, propSchema) entries -> key <> u16 "__proto__" ->
       exists type is_required,
         get_property propSchema (u16 "type") = Ok type
         /\ required_includes required key = Ok is_required
         /\ JSMap.get key shape
            = Some (if is_required then zod_of_type type
                    else ZOptional (zod_of_type type)))
    /\ (forall key, ~ In key (map fst entries) ->
          JSMap.get key shape = JSMap.get key shape0)
    /\ JSMap.get (u16 "__proto__") shape = JSMap.get (u16 "__proto__") shape0
    /\ (Forall (fun entry => flat_type (snd entry) = true) shape0 ->
        Forall (fun entry => flat_type (snd entry) = true) shape).
Proof.
  induction entries as [|[key0 propSchema0] rest IH]; intros shape0 shape Hok Hnd.
  { cbn in Hok. injection Hok as <-. repeat split; try done. }
  cbn [shape_of_entries] in Hok.
  destruct (get_property propSchema0 (u16 "type")) as [type0|] eqn:Htype;
    [| done].
  destruct (required_includes required key0) as [r0|] eqn:Hreq; [| done].
  cbn [map fst] in Hnd. apply NoDup_cons in Hnd as [Hfresh Hnd].
  rewrite list_elem_of_In in Hfresh.
  destruct (IH _ _ Hok Hnd) as (Hin & Hout & Hproto & Hflat).
  split; [| split; [| split]].
  - intros key propSchema [[= <- <-] | Hrest] Hne.
    + exists type0, r0. split; [done |]. split; [done |].
      rewrite (Hout key0 Hfresh). by apply get_assign_shape_eq.
    + by apply Hin.
  - intros key Hnot. cbn [map fst] in Hnot.
    rewrite Hout by (intros Hx; apply Hnot; by right).
    apply get_assign_shape_ne. intros ->. apply Hnot. by left.
  - rewrite Hproto. apply get_assign_shape_proto.
  - intros H0. apply Hflat. unfold assign_shape.
    destruct (bool_decide _); [done |].
    apply Forall_set; [| done]. apply flat_zod_of_type.
Qed.

(** X17. The shape built from an object schema: each property of the schema
    but [__proto__] gets the type of its [type] tag, optional unless
    [required] holds its key; nothing else is in the shape; and every
    type of the shape is flat, so a nested object schema is not
    checked beyond its first level. *)
Theorem jsonSchemaToZod_shape (fields props : list (jsstring * value))
    (z : ZodType) :
  JSMap.get (u16 "type") fields = Some (VStr (u16 "object")) ->
  JSMap.get (u16 "properties") fields = Some (VObj props) ->
  NoDup (JSMap.keys props) ->
  jsonSchemaToZod (VObj fields) = Ok z ->
  exists shape,
    z = ZObject shape
    /\ (forall key propSchema,
          In (key, propSchema) props -> key <> u16 "__proto__" ->
          exists type is_required,
            get_property propSchema (u16 "type") = Ok type
            /\ required_includes (JSMap.get (u16 "required") fields) key
               = Ok is_required
            /\ JSMap.get key shape
               = Some (if is_required then zod_of_type type
                       else ZOptional (zod_of_type type)))
    /\ (forall key, ~ In key (JSMap.keys props) -> JSMap.get key shape = None)
    /\ JSMap.get (u16 "__proto__") shape = None
    /\ Forall (fun entry => flat_type (snd entry) = true) shape.
Proof.
  intros Htype Hprops Hnd Hok.
  unfold jsonSchemaToZod in Hok. cbn [get_property] in Hok.
  rewrite Htype, Hprops in Hok.
  rewrite bool_decide_eq_true_2 in Hok by done.
  cbn [truthy Object_entries] in Hok.
  destruct (shape_of_entries (JSMap.get (u16 "required") fields) props [])
    as [shape|] eqn:Hshape; [| done].
  injection Hok as <-. exists shape. split; [done |].
  destruct (shape_of_entries_spec _ _ _ _ Hshape Hnd)
    as (Hin & Hout & Hproto & Hflat).
  split; [exact Hin |]. split; [| split].
  - intros key Hnot. by rewrite Hout.
  - by rewrite Hproto.
  - by apply Hflat.
Qed.

Lemma jsonSchemaToZod_shape_witness :
  JSMap.get (u16 "type") Samples.weather_fields = Some (VStr (u16 "object"))
  /\ JSMap.get (u16 "properties") Samples.weather_fields
     = Some (VObj Samples.weather_properties)
  /\ NoDup (JSMap.keys Samples.weather_properties)
  /\ jsonSchemaToZod (VObj Samples.weather_fields)
     = Ok (ZObject [(u16 "city", ZString); (u16 "where", ZOptional ZAny)])
  /\ exists shape,
       ZObject [(u16 "city", ZString); (u16 "where", ZOptional ZAny)]
       = ZObject shape
       /\ (forall key propSchema,
             In (key, propSchema) Samples.weather_properties ->
             key <> u16 "__proto__" ->
             exists type is_required,
               get_property propSchema (u16 "type") = Ok type
               /\ required_includes
                    (JSMap.get (u16 "required") Samples.weather_fields) key
                  = Ok is_required
               /\ JSMap.get key shape
                  = Some (if is_required then zod_of_type type
                          else ZOptional (zod_of_type type)))
       /\ (forall key, ~ In key (JSMap.keys Samples.weather_properties) ->
             JSMap.get key shape = None)
       /\ JSMap.get (u16 "__proto__") shape = None
       /\ Forall (fun entry => flat_type (snd entry) = true) shape.
Proof.
  assert (NoDup (JSMap.keys Samples.weather_properties)) as Hnd by by_compute.
  split; [reflexivity |]. split; [reflexivity |]. split; [exact Hnd |].
  split; [reflexivity |].
  apply (jsonSchemaToZod_shape Samples.weather_fields
           Samples.weather_properties
           (ZObject [(u16 "city", ZString); (u16 "where", ZOptional ZAny)])
           eq_refl eq_refl Hnd eq_refl).
Defined.






(** ** Tool definitions *)

Lemma startsWith_refl (s : jsstring) : startsWith s s = true.
Proof.
  unfold startsWith.
  rewrite <- (app_nil_r s) at 2. by rewrite strip_prefix_app.
Qed.

Lemma includes_refl (s : jsstring) : includes s s = true.
Proof. destruct s; cbn [includes]; by rewrite startsWith_refl. Qed.

Lemma includes_suffix (p s : jsstring) : includes (p ++ s) s = true.
Proof.
  induction p as [|a p IH]; [apply includes_refl |].
  cbn [app includes]. rewrite IH. apply orb_true_r.
Qed.

Lemma includes_canonical_id (serverName localName : jsstring) :
  includes (canonical_id serverName localName) localName = true.
Proof.
  unfold canonical_id. rewrite !app_assoc. apply includes_suffix.
Qed.

Lemma find_is_Some {A} (f : A -> bool) (l : list A) (x : A) :
  In x l -> f x = true -> is_Some (List.find f l).
Proof.
  intros Hin Hf. destruct (List.find f l) eqn:Hfind; [done |].
  by rewrite (find_none _ _ Hfind x Hin) in Hf.
Qed.

Lemma find_In_name (name : jsstring) (ts : list MCPTool) (mcpTool : MCPTool) :
  List.find (fun t => bool_decide (tool_name t = name)) ts = Some mcpTool ->
  In mcpTool ts /\ tool_name mcpTool = name.
Proof.
  intros Hfind. apply find_some in Hfind as [Hin Hname].
  split; [done |]. by apply bool_decide_eq_true_1 in Hname.
Qed.

Lemma non_blank_nonempty (s : jsstring) : non_blank s = true -> s <> [].
Proof. by destruct s. Qed.

Lemma str_or_nonempty (o : option jsstring) (d : jsstring) :
  d <> [] -> str_or o d <> [].
Proof.
  intros Hd. destruct o as [[|c s]|]; cbn; try done.
Qed.

Lemma getMCPToolDefinitions_spec (m : MCPClientManager)
    (toolNames : list jsstring) :
  forall definitions : list ToolDefinition,
    getMCPToolDefinitions m toolNames = Ok definitions ->
    map def_mcpToolName definitions `sublist_of` toolNames
    /\ (forall d, In d definitions ->
          match_tool_name (def_mcpToolName d)
          = Some (def_mcpServerName d, def_name d)
          /\ non_blank (def_name d) = true
          /\ def_description d <> []
          /\ exists mcpTool,
               In mcpTool (getServerTools m (def_mcpServerName d))
               /\ tool_name mcpTool = def_name d
               /\ jsonSchemaToZod
                    (value_or (Some (tool_inputSchema mcpTool))
                       empty_object_schema)
                  = Ok (def_schema d))
    /\ (forall toolName serverName localName,
          In toolName toolNames ->
          match_tool_name toolName = Some (serverName, localName) ->
          non_blank localName = true ->
          is_Some (List.find (fun t => bool_decide (tool_name t = localName))
                     (getServerTools m serverName)) ->
          In toolName (map def_mcpToolName definitions)).
Proof.
  induction toolNames as [|toolName rest IH]; intros definitions Hok.
  { cbn in Hok. injection Hok as <-. split; [done |]. split; done. }
  cbn [getMCPToolDefinitions] in Hok. cbv zeta in Hok.
  assert (forall definitions,
            getMCPToolDefinitions m rest = Ok definitions ->
            (forall serverName localName,
               match_tool_name toolName = Some (serverName, localName) ->
               non_blank localName = true ->
               is_Some (List.find
                          (fun t => bool_decide (tool_name t = localName))
                          (getServerTools m serverName)) -> False) ->
            map def_mcpToolName definitions `sublist_of` toolName :: rest
            /\ (forall d, In d definitions ->
                  match_tool_name (def_mcpToolName d)
                  = Some (def_mcpServerName d, def_name d)
                  /\ non_blank (def_name d) = true
                  /\ def_description d <> []
                  /\ exists mcpTool,
                       In mcpTool (getServerTools m (def_mcpServerName d))
                       /\ tool_name mcpTool = def_name d
                       /\ jsonSchemaToZod
                            (value_or (Some (tool_inputSchema mcpTool))
                               empty_object_schema)
                          = Ok (def_schema d))
            /\ (forall toolName' serverName localName,
                  In toolName' (toolName :: rest) ->
                  match_tool_name toolName' = Some (serverName, localName) ->
                  non_blank localName = true ->
                  is_Some (List.find
                             (fun t => bool_decide (tool_name t = localName))
                             (getServerTools m serverName)) ->
                  In toolName' (map def_mcpToolName definitions))) as Hskip.
  { intros defs Hrest Hnone. destruct (IH defs Hrest) as (Hsub & Hall & Hcomplete).
    split; [by apply sublist_cons |]. split; [done |].
    intros toolName' serverName localName [<- | Hin] Hm Hnb Hfind.
    - destruct (Hnone _ _ Hm Hnb Hfind).
    - by apply (Hcomplete toolName' serverName localName). }
  destruct (match_tool_name toolName) as [[serverName actualToolName]|] eqn:Hm;
    [| by apply Hskip].
  destruct (non_blank actualToolName) eqn:Hnb; cbn [negb] in Hok;
    [| apply Hskip; [done |]; intros ? ? [= <- <-] Hnb'; congruence].
  destruct (List.find (fun t => bool_decide (tool_name t = actualToolName))
              (getServerTools m serverName)) as [mcpTool|] eqn:Hfind;
    [| apply Hskip; [done |]; intros ? ? [= <- <-] _ Hs; rewrite Hfind in Hs;
       by destruct Hs].
  destruct (find_In_name _ _ _ Hfind) as [Hin Hname].
  rewrite Hname, Hnb in Hok.
  destruct (jsonSchemaToZod _) as [zodSchema|] eqn:Hzod; [| done].
  destruct (getMCPToolDefinitions m rest) as [defs|] eqn:Hrest; [| done].
  injection Hok as <-.
  destruct (IH defs eq_refl) as (Hsub & Hall & Hcomplete).
  split; [| split].
  - cbn [map def_mcpToolName]. by apply sublist_skip.
  - intros d [<- | Hd]; [| by apply Hall].
    cbn [def_mcpToolName def_mcpServerName def_name def_description def_schema].
    split; [done |]. split; [done |]. split.
    + by destruct (tool_description mcpTool).
    + exists mcpTool. done.
  - intros toolName' serverName' localName [<- | Hin'] Hm' Hnb' Hfind'.
    + by left.
    + right. by apply (Hcomplete toolName' serverName' localName).
Qed.

(** X19. The tools bound to the model. Each definition stands for one of
    the mentioned ids, in the order of the mentions; its name is the
    local name the id decodes to, which a tool of the decoded server
    bears, and its description is not empty. Every mention that
    decodes to a tool of the catalog has a definition. A call the model
    makes by the name of a definition is matched by one of the mentioned
    ids when it is executed. *)
Theorem getMCPToolDefinitions_sound (m : MCPClientManager)
    (toolNames : list jsstring) (definitions : list ToolDefinition) :
  getMCPToolDefinitions m toolNames = Ok definitions ->
  map def_mcpToolName definitions `sublist_of` toolNames
  /\ (forall d, In d definitions ->
        match_tool_name (def_mcpToolName d)
        = Some (def_mcpServerName d, def_name d)
        /\ non_blank (def_name d) = true
        /\ def_description d <> []
        /\ (exists mcpTool,
              In mcpTool (getServerTools m (def_mcpServerName d))
              /\ tool_name mcpTool = def_name d
              /\ jsonSchemaToZod
                   (value_or (Some (tool_inputSchema mcpTool))
                      empty_object_schema)
                 = Ok (def_schema d))
        /\ is_Some
             (List.find
                (fun name =>
                   includes name
                     (str_or (Some (def_name d)) (u16 "unknown_tool")))
                toolNames))
  /\ (forall toolName serverName localName,
        In toolName toolNames ->
        match_tool_name toolName = Some (serverName, localName) ->
        non_blank localName = true ->
        is_Some (List.find (fun t => bool_decide (tool_name t = localName))
                   (getServerTools m serverName)) ->
        In toolName (map def_mcpToolName definitions)).
Proof.
  intros Hok.
  destruct (getMCPToolDefinitions_spec m toolNames definitions Hok)
    as (Hsub & Hall & Hcomplete).
  split; [done |]. split; [| done].
  intros d Hd. destruct (Hall d Hd) as (Hm & Hnb & Hdesc & Htool).
  split; [done |]. split; [done |]. split; [done |]. split; [done |].
  apply (find_is_Some _ _ (def_mcpToolName d)).
  - apply list_elem_of_In. eapply elem_of_sublist; [| exact Hsub].
    apply list_elem_of_In, in_map, Hd.
  - destruct (match_tool_name_sound _ _ _ Hm) as (-> & _).
    assert (str_or (Some (def_name d)) (u16 "unknown_tool") = def_name d) as ->.
    { apply non_blank_nonempty in Hnb. by destruct (def_name d). }
    apply includes_canonical_id.
Qed.

Lemma getMCPToolDefinitions_sound_witness :
  getMCPToolDefinitions (Scenario.connected [u16 "echo"])
    [u16 "@mcp-alpha-none"; u16 "@mcp-alpha-echo"]
  = Ok [{| def_name := u16 "echo";
           def_description := u16 "MCP tool: echo";
           def_schema := ZAny;
           def_mcpServerName := u16 "alpha";
           def_mcpToolName := u16 "@mcp-alpha-echo" |}]
  /\ map def_mcpToolName
       [{| def_name := u16 "echo";
           def_description := u16 "MCP tool: echo";
           def_schema := ZAny;
           def_mcpServerName := u16 "alpha";
           def_mcpToolName := u16 "@mcp-alpha-echo" |}]
     `sublist_of` [u16 "@mcp-alpha-none"; u16 "@mcp-alpha-echo"].
Proof.
  split; [reflexivity |].
  apply (proj1 (getMCPToolDefinitions_sound (Scenario.connected [u16 "echo"])
                  [u16 "@mcp-alpha-none"; u16 "@mcp-alpha-echo"] _ eq_refl)).
Defined.

(** X20. The schema of a tool of the catalog. The loader stores the empty
    object for a tool listed without a schema, so the fallback schema
    of the definitions is never used for a loaded tool, and such a tool
    is bound with the type [any]. *)
Theorem schema_of_loaded_tool (t : Tool) :
  value_or (Some (tool_inputSchema (to_MCPTool t))) empty_object_schema
  = tool_inputSchema (to_MCPTool t)
  /\ (truthy (default VNull (sdk_inputSchema t)) = false ->
      jsonSchemaToZod
        (value_or (Some (tool_inputSchema (to_MCPTool t))) empty_object_schema)
      = Ok ZAny).
Proof.
  unfold to_MCPTool. cbn [tool_inputSchema].
  assert (value_or (Some (value_or (sdk_inputSchema t) (VObj [])))
            empty_object_schema
          = value_or (sdk_inputSchema t) (VObj [])) as ->.
  { pose proof (truthy_value_or_object (sdk_inputSchema t)) as Ht.
    destruct (value_or (sdk_inputSchema t) (VObj [])) eqn:E; cbn [value_or];
      by rewrite Ht. }
  split; [done |]. intros Hfalsy.
  destruct (sdk_inputSchema t) as [v|]; [| done].
  change (truthy v = false) in Hfalsy. cbn [value_or]. by rewrite Hfalsy.
Qed.

Lemma schema_of_loaded_tool_witness :
  truthy (default VNull (sdk_inputSchema (Scenario.provider_tool (u16 "echo"))))
  = false
  /\ jsonSchemaToZod
       (value_or
          (Some (tool_inputSchema
                   (to_MCPTool (Scenario.provider_tool (u16 "echo")))))
          empty_object_schema)
     = Ok ZAny.
Proof.
  split; [reflexivity |].
  apply (proj2 (schema_of_loaded_tool (Scenario.provider_tool (u16 "echo")))
           eq_refl).
Defined.

(** ** The requests of a run *)

Section Requests.
Variable P : Platform.
Variable settings : Settings.
Variable net : Providers.
Variable m : MCPClientManager.
Variable mentionedMCPTools : list jsstring.

Lemma execute_one_sent (toolCall : BufferedCall) (n : nat)
    (sent : list ToolRequest) :
  let sent' :=
    snd (execute_one P settings net m mentionedMCPTools toolCall n sent) in
  sent' = sent
  \/ exists request,
       sent' = sent ++ [request]
       /\ authorised settings m mentionedMCPTools [toolCall] request.
Proof.
  unfold execute_one.
  destruct (if truthy_str (call_id toolCall) then (call_id toolCall, n)
            else (random_call_id P n, S n)) as [toolCallId n'].
  destruct (List.find _ mentionedMCPTools) as [mcpToolName|] eqn:Hfind;
    [| by left].
  apply find_some in Hfind as [Hin Hinc].
  destruct (executeMCPTool_cases settings net m mcpToolName
              (extract_tool_args toolCall) sent)
    as [[Hsent Hfail] | (serverName & actualToolName & Hcase)];
    cbv zeta in *.
  - destruct (executeMCPTool _ _ _ _ _ _) as [sent' [result|error]];
      cbn [fst snd] in *; by left.
  - destruct Hcase as (Hm & _ & Hen & Hconn & Hsent & _).
    right.
    exists {| req_server := serverName; req_name := actualToolName;
              req_arguments := extract_tool_args toolCall |}.
    split.
    + destruct (executeMCPTool _ _ _ _ _ _) as [sent' [result|error]];
        cbn [fst snd] in *; done.
    + exists mcpToolName, toolCall. cbn [req_server req_name req_arguments].
      split; [done |]. split; [by left |]. done.
Qed.

Lemma authorised_mono (toolCalls toolCalls' : list BufferedCall)
    (request : ToolRequest) :
  (forall toolCall, In toolCall toolCalls -> In toolCall toolCalls') ->
  authorised settings m mentionedMCPTools toolCalls request ->
  authorised settings m mentionedMCPTools toolCalls' request.
Proof.
  intros Hsub (id & toolCall & Hid & Hin & Hrest).
  exists id, toolCall. split; [done |]. split; [by apply Hsub | done].
Qed.

Lemma executeMCPTools_sent (toolCalls : list BufferedCall) :
  forall (n : nat) (sent : list ToolRequest),
  exists new,
    snd (executeMCPTools P settings net m toolCalls mentionedMCPTools n sent)
    = sent ++ new
    /\ (length new <= length toolCalls)%nat
    /\ Forall (authorised settings m mentionedMCPTools toolCalls) new.
Proof.
  induction toolCalls as [|toolCall rest IH]; intros n sent.
  { exists []. cbn. by rewrite app_nil_r. }
  cbn [executeMCPTools].
  pose proof (execute_one_sent toolCall n sent) as Hone. cbv zeta in Hone.
  destruct (execute_one P settings net m mentionedMCPTools toolCall n sent)
    as [[r n1] sent1]. cbn [snd] in Hone.
  destruct (IH n1 sent1) as (new & Hnew & Hlen & Hall).
  destruct (executeMCPTools P settings net m rest mentionedMCPTools n1 sent1)
    as [[rs n2] sent2]. cbn [snd] in *.
  assert (Forall (authorised settings m mentionedMCPTools (toolCall :: rest))
            new) as Hall'.
  { eapply Forall_impl; [exact Hall |]. intros request.
    apply authorised_mono. intros c Hc. by right. }
  destruct Hone as [-> | (request & -> & Hreq)].
  - exists new. split; [done |]. split; [cbn [length]; lia | done].
  - exists (request :: new). split; [by rewrite Hnew, <- app_assoc |].
    split; [cbn [length]; lia |].
    constructor; [| done].
    eapply authorised_mono; [| exact Hreq].
    intros c [<- | []]. by left.
Qed.

(** X21. No request goes out that the user did not ask for. Every request
    of [executeMCPTools], and so every request of a run, answers one of
    the calls through an id that the user mentioned and that is not
    switched off, and goes to the connected server that the id decodes
    to; there is at most one request per call. Without a mention, a
    run sends nothing. *)
Theorem requests_are_authorised :
  (forall (toolCalls : list BufferedCall) (n : nat) (sent : list ToolRequest),
   exists new,
     snd (executeMCPTools P settings net m toolCalls mentionedMCPTools n sent)
     = sent ++ new
     /\ (length new <= length toolCalls)%nat
     /\ Forall (authorised settings m mentionedMCPTools toolCalls) new)
  /\ (forall (aborted : nat -> bool) (messages : list Message)
             (chatStream : list Chunk)
             (followUpStream : list Message -> list Chunk),
        let o := streamMultimodalResponse P settings net m aborted
                   mentionedMCPTools messages chatStream followUpStream in
        (length (out_sent o) <= length (out_toolCalls o))%nat
        /\ Forall (authorised settings m mentionedMCPTools (out_toolCalls o))
             (out_sent o)
        /\ (mentionedMCPTools = [] -> out_sent o = [])).
Proof.
  split; [exact executeMCPTools_sent |].
  intros aborted messages chatStream followUpStream o.
  assert ((length (out_sent o) <= length (out_toolCalls o))%nat
          /\ Forall (authorised settings m mentionedMCPTools (out_toolCalls o))
               (out_sent o)) as [Hlen Hall].
  { unfold o, streamMultimodalResponse.
    destruct (stream_loop P aborted 0 chatStream initial_loop_state)
      as [st checks].
    destruct (resolve_tool_calls P st) as [buffer n].
    destruct (hasToolCalls st && (0 <? length buffer)%nat).
    - destruct (executeMCPTools_sent buffer n []) as (new & Hnew & Hlen & Hall).
      destruct (executeMCPTools P settings net m buffer mentionedMCPTools n [])
        as [[toolResults n'] sent]. cbn [snd] in Hnew. subst sent.
      cbn [out_sent out_toolCalls app]. done.
    - cbn [out_sent out_toolCalls]. split; [cbn; lia | constructor]. }
  split; [done |]. split; [done |].
  intros ->. destruct (out_sent o) as [|request sent]; [done |].
  apply Forall_cons in Hall as [(id & _ & [] & _) _].
Qed.
End Requests.

Lemma requests_are_authorised_witness :
  @nil jsstring = []
  /\ out_sent
       (streamMultimodalResponse reference_platform (Scenario.settings_with [])
          Scenario.pong (Scenario.connected [u16 "echo"]) Scenario.never
          [] [Scenario.user_message] Scenario.reassembly_stream
          Scenario.follow_up) = [].
Proof.
  split; [reflexivity |].
  apply (proj2 (proj2 (proj2 (requests_are_authorised reference_platform
                                (Scenario.settings_with []) Scenario.pong
                                (Scenario.connected [u16 "echo"]) [])
                         Scenario.never [Scenario.user_message]
                         Scenario.reassembly_stream Scenario.follow_up))
           eq_refl).
Defined.

(** ** The text shown while streaming *)

Lemma growing_initial : growing {| fullResponse := []; shown := [] |}.
Proof. split; [intros i j a b _ Hi; by destruct i | by left]. Qed.

Lemma growing_processChunk (s : ThinkBlockStreamer) (chunk : Chunk) :
  growing s -> growing (processChunk s chunk).
Proof.
  intros [Hgrow Hlast]. unfold processChunk. split; cbn [shown fullResponse].
  - intros i j a b Hij Hi Hj.
    apply lookup_snoc_Some in Hj as [[Hlt Hj] | [Hj <-]].
    + apply lookup_snoc_Some in Hi as [[_ Hi] | [Hi _]]; [| lia].
      by apply (Hgrow i j).
    + apply lookup_snoc_Some in Hi as [[Hlt Hi] | [_ <-]]; [| done].
      destruct Hlast as [[Hnil _] | Hlast].
      * rewrite Hnil in Hi. by destruct i.
      * apply prefix_app_r.
        assert (shown s !! pred (length (shown s)) = Some (fullResponse s))
          as Hlookup.
        { rewrite <- Hlast. symmetry. apply last_lookup. }
        apply (Hgrow i (pred (length (shown s))) a _); [| done | done].
        rewrite <- Nat.sub_1_r. clear -Hlt. cbv [jsstring jschar] in *. lia.
  - right. apply last_snoc.
Qed.

Section ShownFacts.
Variable P : Platform.

Lemma growing_process_chunk (st : LoopState) (chunk : Chunk) :
  growing (streamer st) -> growing (streamer (process_chunk P st chunk)).
Proof.
  intros Hg. unfold process_chunk. cbn [streamer].
  rewrite handle_tool_calls_streamer, handle_tool_call_chunks_streamer.
  by apply growing_processChunk.
Qed.

Lemma growing_stream_loop (aborted : nat -> bool) (chatStream : list Chunk) :
  forall (checks : nat) (st : LoopState),
    growing (streamer st) ->
    growing (streamer (fst (stream_loop P aborted checks chatStream st))).
Proof.
  induction chatStream as [|chunk rest IH]; intros checks st Hg; [done |].
  cbn [stream_loop]. destruct (aborted checks); [done |].
  apply IH. by apply growing_process_chunk.
Qed.

Lemma growing_followUp_loop (aborted : nat -> bool)
    (followUpStream : list Chunk) :
  forall (checks : nat) (s : ThinkBlockStreamer),
    growing s -> growing (followUp_loop aborted checks followUpStream s).
Proof.
  induction followUpStream as [|chunk rest IH]; intros checks s Hg; [done |].
  cbn [followUp_loop]. destruct (aborted checks); [done |].
  apply IH. by apply growing_processChunk.
Qed.
End ShownFacts.

Section RunFacts.
Variable P : Platform.
Variable settings : Settings.
Variable net : Providers.
Variable m : MCPClientManager.

Lemma streamer_eta (s : ThinkBlockStreamer) :
  {| fullResponse := fullResponse s; shown := shown s |} = s.
Proof. by destruct s. Qed.

(** X22. The texts shown during a run only grow: each one is a prefix of
    every later one and of the returned text, and the last one shown is
    the returned text. Nothing shown is ever taken back, whether tool
    calls are executed or not and wherever the run is cancelled. *)
Theorem shown_text_grows (aborted : nat -> bool)
    (mentionedMCPTools : list jsstring) (messages : list Message)
    (chatStream : list Chunk) (followUpStream : list Message -> list Chunk) :
  let o := streamMultimodalResponse P settings net m aborted mentionedMCPTools
             messages chatStream followUpStream in
  (forall i j a b, (i <= j)%nat ->
     out_shown o !! i = Some a -> out_shown o !! j = Some b ->
     a `prefix_of` b)
  /\ (forall text, In text (out_shown o) ->
        text `prefix_of` out_fullResponse o)
  /\ (out_shown o = [] /\ out_fullResponse o = []
      \/ last (out_shown o) = Some (out_fullResponse o)).
Proof.
  intros o.
  assert (growing {| fullResponse := out_fullResponse o;
                     shown := out_shown o |}) as [Hgrow Hlast].
  { unfold o, streamMultimodalResponse.
    pose proof (growing_stream_loop P aborted chatStream 0 initial_loop_state
                  growing_initial) as Hg.
    destruct (stream_loop P aborted 0 chatStream initial_loop_state)
      as [st checks]. cbn [fst] in Hg.
    destruct (resolve_tool_calls P st) as [buffer n].
    destruct (hasToolCalls st && (0 <? length buffer)%nat).
    - destruct (executeMCPTools P settings net m buffer mentionedMCPTools n [])
        as [[toolResults n'] sent].
      cbn [out_fullResponse out_shown]. rewrite !streamer_eta.
      by apply growing_followUp_loop.
    - cbn [out_fullResponse out_shown]. by rewrite streamer_eta. }
  cbn [shown fullResponse] in Hgrow, Hlast.
  split; [exact Hgrow |]. split; [| exact Hlast].
  intros text Hin. apply list_elem_of_In, list_elem_of_lookup in Hin as [i Hi].
  destruct Hlast as [[Hnil _] | Hlast]; [rewrite Hnil in Hi; by destruct i |].
  rewrite last_lookup in Hlast.
  apply (Hgrow i (pred (length (out_shown o))) text _); [| done | done].
  apply lookup_lt_Some in Hi. rewrite <- Nat.sub_1_r.
  clear -Hi. cbv [jsstring jschar] in *. lia.
Qed.

End RunFacts.

Lemma shown_text_grows_witness :
  In (u16 "Let me check.") (out_shown Samples.talkative_run)
  /\ u16 "Let me check." `prefix_of` out_fullResponse Samples.talkative_run.
Proof.
  assert (In (u16 "Let me check.") (out_shown Samples.talkative_run)) as Hin
    by (left; reflexivity).
  split; [exact Hin |].
  apply (proj1 (proj2 (shown_text_grows reference_platform
                         (Scenario.settings_with []) Scenario.pong
                         (Scenario.connected [u16 "echo"]) Scenario.never
                         [u16 "@mcp-alpha-echo"] [Scenario.user_message]
                         Scenario.fragment_then_text Scenario.follow_up))
           (u16 "Let me check.") Hin).
Defined.

Section PlainRuns.
Variable P : Platform.
Variable settings : Settings.
Variable net : Providers.
Variable m : MCPClientManager.

(** *** Runs without tool calls *)

Lemma quiet_process_chunk (st : LoopState) (chunk : Chunk) :
  default [] (tool_call_chunks chunk) = [] ->
  List.filter valid_tool_call (default [] (tool_calls chunk)) = [] ->
  hasToolCalls (process_chunk P st chunk) = hasToolCalls st
  /\ toolCallsBuffer (process_chunk P st chunk) = toolCallsBuffer st.
Proof.
  intros Hfragments Hcalls. unfold process_chunk.
  cbn [hasToolCalls toolCallsBuffer].
  assert (handle_tool_call_chunks chunk st = st) as ->.
  { destruct (handle_tool_call_chunks_cases chunk st)
      as [[_ ->] | (toolChunks & E & Hne & _)]; [done |].
    rewrite E in Hfragments. done. }
  assert (handle_tool_calls P chunk st = st) as ->; [| done].
  destruct (handle_tool_calls_cases P chunk st)
    as [[-> _] | (calls & _ & E & Hne & _)]; [done |].
  rewrite E in Hcalls. done.
Qed.

Lemma quiet_fold (chunks : list Chunk) :
  forall st,
    Forall (fun chunk =>
              default [] (tool_call_chunks chunk) = []
              /\ List.filter valid_tool_call (default [] (tool_calls chunk)) = [])
      chunks ->
    hasToolCalls (fold_left (process_chunk P) chunks st) = hasToolCalls st
    /\ toolCallsBuffer (fold_left (process_chunk P) chunks st)
       = toolCallsBuffer st.
Proof.
  induction chunks as [|chunk rest IH]; intros st Hall; [done |].
  apply Forall_cons in Hall as [[H1 H2] Hall]. cbn [fold_left].
  destruct (IH (process_chunk P st chunk) Hall) as [-> ->].
  by apply quiet_process_chunk.
Qed.

Lemma stream_loop_take (aborted : nat -> bool) (chatStream : list Chunk) :
  forall (checks : nat) (st : LoopState),
  exists k,
    (k <= length chatStream)%nat
    /\ fst (stream_loop P aborted checks chatStream st)
       = fold_left (process_chunk P) (take k chatStream) st
    /\ ((forall j, (checks <= j < checks + length chatStream)%nat ->
                   aborted j = false) ->
        k = length chatStream).
Proof.
  induction chatStream as [|chunk rest IH]; intros checks st.
  { exists 0%nat. done. }
  cbn [stream_loop]. destruct (aborted checks) eqn:Hab.
  - exists 0%nat. cbn [length]. split; [lia |]. split; [done |].
    intros Hnever. rewrite Hnever in Hab; [done | lia].
  - destruct (IH (S checks) (process_chunk P st chunk)) as (k & Hk & E & Hall).
    exists (S k). cbn [length take fold_left]. split; [lia |]. split; [done |].
    intros Hnever. f_equal. apply Hall. intros j Hj. apply Hnever. lia.
Qed.

(** X23. A run in which the model makes no tool call is a plain text run:
    nothing is sent to a server, the conversation is left as it was and
    no tool results are kept for the memory; the reply is the text of
    the chunks read before a cancellation, and of all when there is
    none. This is the case of every stream without argument fragments
    and without a complete call of non-blank name. *)
Theorem run_without_tool_calls (aborted : nat -> bool)
    (mentionedMCPTools : list jsstring) (messages : list Message)
    (chatStream : list Chunk) (followUpStream : list Message -> list Chunk) :
  let o := streamMultimodalResponse P settings net m aborted mentionedMCPTools
             messages chatStream followUpStream in
  (out_toolCalls o = [] ->
   out_toolResults o = [] /\ out_sent o = [] /\ out_messages o = messages
   /\ out_lastToolResults o = None
   /\ exists k,
        (k <= length chatStream)%nat
        /\ out_fullResponse o = concat (map chunk_text (take k chatStream))
        /\ ((forall j, (j < length chatStream)%nat -> aborted j = false) ->
            k = length chatStream))
  /\ (Forall (fun chunk =>
                default [] (tool_call_chunks chunk) = []
                /\ List.filter valid_tool_call (default [] (tool_calls chunk))
                   = [])
        chatStream ->
      out_toolCalls o = []).
Proof.
  intros o. unfold o, streamMultimodalResponse.
  destruct (stream_loop_take aborted chatStream 0 initial_loop_state)
    as (k & Hk & Hst & Hall).
  destruct (stream_loop P aborted 0 chatStream initial_loop_state)
    as [st checks]. cbn [fst] in Hst.
  destruct (resolve_tool_calls P st) as [buffer n] eqn:Hres.
  split.
  - destruct (hasToolCalls st && (0 <? length buffer)%nat) eqn:Hcond.
    + destruct (executeMCPTools P settings net m buffer mentionedMCPTools n [])
        as [[toolResults n'] sent].
      cbn [out_toolCalls]. intros ->. by rewrite andb_false_r in Hcond.
    + cbn [out_toolCalls out_toolResults out_sent out_messages
             out_lastToolResults out_fullResponse].
      intros _. repeat (split; [done |]).
      exists k. split; [done |]. split.
      * rewrite Hst, fold_process_chunk_text. done.
      * intros Hnever. apply Hall. intros j Hj. apply Hnever. lia.
  - intros Hquiet.
    assert (hasToolCalls st = false /\ toolCallsBuffer st = []) as [Hflag Hbuf].
    { rewrite Hst. apply (quiet_fold (take k chatStream) initial_loop_state).
      by apply Forall_take. }
    assert (buffer = []) as ->.
    { unfold resolve_tool_calls in Hres. rewrite Hflag in Hres.
      cbn [andb] in Hres. rewrite Hbuf in Hres. by injection Hres as <- _. }
    rewrite Hflag. done.
Qed.

End PlainRuns.

Lemma run_without_tool_calls_witness :
  Forall (fun chunk =>
            default [] (tool_call_chunks chunk) = []
            /\ List.filter valid_tool_call (default [] (tool_calls chunk)) = [])
    Scenario.blank_named_call
  /\ out_toolCalls
       (streamMultimodalResponse reference_platform (Scenario.settings_with [])
          Scenario.pong (Scenario.connected [u16 "echo"]) Scenario.never
          [u16 "@mcp-alpha-echo"] [Scenario.user_message]
          Scenario.blank_named_call Scenario.follow_up) = [].
Proof.
  assert (Forall (fun chunk =>
            default [] (tool_call_chunks chunk) = []
            /\ List.filter valid_tool_call (default [] (tool_calls chunk)) = [])
    Scenario.blank_named_call) as Hquiet.
  { repeat constructor. }
  split; [exact Hquiet |].
  apply (proj2 (run_without_tool_calls reference_platform
                  (Scenario.settings_with []) Scenario.pong
                  (Scenario.connected [u16 "echo"]) Scenario.never
                  [u16 "@mcp-alpha-echo"] [Scenario.user_message]
                  Scenario.blank_named_call Scenario.follow_up) Hquiet).
Defined.

(** ** The continuation round *)

Lemma processChunk_text (s : ThinkBlockStreamer) (chunk : Chunk) :
  fullResponse (processChunk s chunk) = fullResponse s ++ chunk_text chunk.
Proof. done. Qed.

Lemma followUp_loop_text (aborted : nat -> bool) (followUpStream : list Chunk) :
  forall (checks : nat) (s : ThinkBlockStreamer),
  exists k,
    (k <= length followUpStream)%nat
    /\ fullResponse (followUp_loop aborted checks followUpStream s)
       = fullResponse s ++ concat (map chunk_text (take k followUpStream))
    /\ ((forall j, (checks <= j < checks + length followUpStream)%nat ->
                   aborted j = false) ->
        k = length followUpStream).
Proof.
  induction followUpStream as [|chunk rest IH]; intros checks s.
  { exists 0%nat. cbn. by rewrite app_nil_r. }
  cbn [followUp_loop]. destruct (aborted checks) eqn:Hab.
  - exists 0%nat. cbn [length take map concat]. split; [lia |].
    split; [by rewrite app_nil_r |].
    intros Hnever. rewrite Hnever in Hab; [done | lia].
  - destruct (IH (S checks) (processChunk s chunk)) as (k & Hk & E & Hall).
    exists (S k). cbn [length take map concat]. split; [lia |]. split.
    + rewrite E, processChunk_text. by rewrite <- app_assoc.
    + intros Hnever. f_equal. apply Hall. intros j Hj. apply Hnever. lia.
Qed.

Section Continuation.
Variable P : Platform.
Variable settings : Settings.
Variable net : Providers.
Variable m : MCPClientManager.

Lemma run_with_calls (aborted : nat -> bool)
    (mentionedMCPTools : list jsstring) (messages : list Message)
    (chatStream : list Chunk) (f : list Message -> list Chunk) :
  let o := streamMultimodalResponse P settings net m aborted
             mentionedMCPTools messages chatStream f in
  out_toolCalls o <> [] ->
  length (out_toolResults o) = length (out_toolCalls o)
  /\ out_lastToolResults o
     = Some (map (toolResultMessage P) (out_toolResults o))
  /\ length (out_messages o)
     = (length messages + 1 + length (out_toolCalls o))%nat
  /\ exists k1 k2,
       (k1 <= length chatStream)%nat
       /\ (k2 <= length (f (out_messages o)))%nat
       /\ out_fullResponse o
          = concat (map chunk_text (take k1 chatStream))
            ++ concat (map chunk_text (take k2 (f (out_messages o))))
       /\ ((forall j, aborted j = false) ->
           k1 = length chatStream /\ k2 = length (f (out_messages o))).
Proof.
  intros o. unfold o, streamMultimodalResponse.
  destruct (stream_loop_take P aborted chatStream 0 initial_loop_state)
    as (k1 & Hk1 & Hst & Hall1).
  destruct (stream_loop P aborted 0 chatStream initial_loop_state)
    as [st checks]. cbn [fst] in Hst.
  pose proof (resolve_tool_calls_flag P st) as Hflag.
  destruct (resolve_tool_calls P st) as [buffer n]. cbn [fst] in Hflag.
  destruct (hasToolCalls st && (0 <? length buffer)%nat) eqn:Hcond.
  - pose proof (executeMCPTools_length P settings net m buffer
                  mentionedMCPTools n []) as Hlen.
    destruct (executeMCPTools P settings net m buffer mentionedMCPTools n [])
      as [[toolResults n'] sent]. cbn [fst] in Hlen.
    cbn [out_toolCalls out_toolResults out_lastToolResults out_messages
           out_fullResponse].
    intros _. split; [done |]. split; [done |]. split.
    { rewrite !length_app, length_map. cbn [length]. lia. }
    set (messages' := messages ++ _ ++ _).
    destruct (followUp_loop_text aborted (f messages') checks
                {| fullResponse := fullResponse (streamer st);
                   shown := shown (streamer st) |})
      as (k2 & Hk2 & E & Hall2).
    exists k1, k2. split; [done |]. split; [done |]. split.
    + rewrite E. cbn [fullResponse]. rewrite Hst, fold_process_chunk_text.
      done.
    + intros Hnever. split; [apply Hall1 | apply Hall2]; intros j _;
        apply Hnever.
  - cbn [out_toolCalls]. intros Hne. exfalso.
    destruct (hasToolCalls st) eqn:Hhas.
    + cbn [andb] in Hcond. by destruct buffer.
    + apply Hne, Hflag; [| done]. intros _. rewrite Hst.
      apply fold_process_chunk_buffer_flag; [done |]. by rewrite <- Hst.
Qed.

(** X24. There is one round of tool execution. What is executed, what is
    sent and the conversation handed to the model for the continuation
    do not depend on what the model answers in the continuation: a tool
    call in that answer is not executed. When calls were resolved, each
    has one result, the messages of the results are kept for the
    memory, and the reply is the text of the first pass followed by the
    text of the continuation, each up to the point of a cancellation. *)
Theorem one_round_of_tools (aborted : nat -> bool)
    (mentionedMCPTools : list jsstring) (messages : list Message)
    (chatStream : list Chunk) :
  let run := streamMultimodalResponse P settings net m aborted
               mentionedMCPTools messages chatStream in
  (forall f g,
     out_toolCalls (run f) = out_toolCalls (run g)
     /\ out_toolResults (run f) = out_toolResults (run g)
     /\ out_sent (run f) = out_sent (run g)
     /\ out_messages (run f) = out_messages (run g)
     /\ out_lastToolResults (run f) = out_lastToolResults (run g))
  /\ (forall f,
        out_toolCalls (run f) <> [] ->
        length (out_toolResults (run f)) = length (out_toolCalls (run f))
        /\ out_lastToolResults (run f)
           = Some (map (toolResultMessage P) (out_toolResults (run f)))
        /\ length (out_messages (run f))
           = (length messages + 1 + length (out_toolCalls (run f)))%nat
        /\ exists k1 k2,
             (k1 <= length chatStream)%nat
             /\ (k2 <= length (f (out_messages (run f))))%nat
             /\ out_fullResponse (run f)
                = concat (map chunk_text (take k1 chatStream))
                  ++ concat (map chunk_text
                               (take k2 (f (out_messages (run f)))))
             /\ ((forall j, aborted j = false) ->
                 k1 = length chatStream
                 /\ k2 = length (f (out_messages (run f))))).
Proof.
  intros run. split.
  - intros f g. unfold run, streamMultimodalResponse.
    destruct (stream_loop P aborted 0 chatStream initial_loop_state)
      as [st checks].
    destruct (resolve_tool_calls P st) as [buffer n].
    destruct (hasToolCalls st && (0 <? length buffer)%nat); [| done].
    by destruct (executeMCPTools P settings net m buffer mentionedMCPTools n [])
      as [[toolResults n'] sent].
  - intros f. apply run_with_calls.
Qed.
End Continuation.

Lemma one_round_of_tools_witness :
  out_toolCalls (Samples.echo_run Scenario.follow_up) <> []
  /\ length (out_toolResults (Samples.echo_run Scenario.follow_up))
     = length (out_toolCalls (Samples.echo_run Scenario.follow_up)).
Proof.
  assert (out_toolCalls (Samples.echo_run Scenario.follow_up) <> []) as Hne
    by (vm_compute; discriminate).
  split; [exact Hne |].
  apply (proj1 (proj2 (one_round_of_tools reference_platform
                         (Scenario.settings_with []) Scenario.pong
                         (Scenario.connected [u16 "echo"]) Scenario.never
                         [u16 "@mcp-alpha-echo"] [Scenario.user_message]
                         Scenario.reassembly_stream)
                  Scenario.follow_up Hne)).
Defined.

(** ** Calls rebuilt from fragments *)

Section ResolutionOfRun.
Variable P : Platform.
Variable settings : Settings.
Variable net : Providers.
Variable m : MCPClientManager.

(** X25. When the model streamed fragments and the first pass was not
    cancelled, the calls of the run are the entries of the accumulator
    that have a name, an argument text and an argument text that
    parses, one call for each, in the order in which their indices
    first appeared. An entry without name or arguments, or whose
    arguments do not parse, gives no call and no error; a call keeps
    the id of its entry when it has one. *)
Theorem fragments_resolve (aborted : nat -> bool)
    (mentionedMCPTools : list jsstring) (messages : list Message)
    (chatStream : list Chunk) (followUpStream : list Message -> list Chunk) :
  (forall j, (j < length chatStream)%nat -> aborted j = false) ->
  fragments_of chatStream <> [] ->
  Forall2
    (fun entry call =>
       rebuilt_from P (snd entry) call
       /\ (truthy_ostr (acc_id (snd entry)) = true ->
           Some (call_id call) = acc_id (snd entry)))
    (List.filter (resolvable P)
       (JSMap.entries (fold_left accumulate (fragments_of chatStream) [])))
    (out_toolCalls
       (streamMultimodalResponse P settings net m aborted mentionedMCPTools
          messages chatStream followUpStream)).
Proof.
  intros Hnot Hsome.
  set (st := fold_left (process_chunk P) chatStream initial_loop_state).
  assert (stream_loop P aborted 0 chatStream initial_loop_state
          = (st, (0 + length chatStream)%nat)) as Hloop.
  { apply stream_loop_complete. intros j Hj. apply Hnot. lia. }
  destruct (streamMultimodalResponse_after_loop P settings net m aborted
              mentionedMCPTools messages chatStream followUpStream st _ Hloop)
    as (Hcalls & _).
  { subst st. apply fold_process_chunk_buffer_flag. done. }
  cbv zeta in Hcalls. rewrite Hcalls. unfold resolve_tool_calls.
  assert (toolCallAccumulator st
          = fold_left accumulate (fragments_of chatStream) []) as Hacc
    by (subst st; apply fold_process_chunk_accumulator).
  assert (hasToolCalls st = true) as ->
    by (subst st; apply fold_process_chunk_flag; by right).
  rewrite Hacc.
  assert (fold_left accumulate (fragments_of chatStream) [] <> []) as Hne
    by (apply fold_accumulate_nonempty; by left).
  assert ((0 <? JSMap.size (fold_left accumulate (fragments_of chatStream) []))%nat
          = true) as ->.
  { destruct (fold_left accumulate (fragments_of chatStream) []); done. }
  cbn [andb].
  destruct (fold_parse_accumulated_resolvable P
              (JSMap.entries (fold_left accumulate (fragments_of chatStream) []))
              [] (ids st))
    as (calls & E & Hall).
  rewrite E. exact Hall.
Qed.
End ResolutionOfRun.

Lemma fragments_resolve_witness :
  (forall j, (j < length Scenario.reassembly_stream)%nat ->
             Scenario.never j = false)
  /\ fragments_of Scenario.reassembly_stream <> []
  /\ Forall2
       (fun entry call =>
          rebuilt_from reference_platform (snd entry) call
          /\ (truthy_ostr (acc_id (snd entry)) = true ->
              Some (call_id call) = acc_id (snd entry)))
       (List.filter (resolvable reference_platform)
          (JSMap.entries
             (fold_left accumulate (fragments_of Scenario.reassembly_stream) [])))
       (out_toolCalls (Samples.echo_run Scenario.follow_up)).
Proof.
  assert (forall j, (j < length Scenario.reassembly_stream)%nat ->
                    Scenario.never j = false) as Hnever by done.
  assert (fragments_of Scenario.reassembly_stream <> []) as Hsome by done.
  split; [exact Hnever |]. split; [exact Hsome |].
  apply (fragments_resolve reference_platform (Scenario.settings_with [])
           Scenario.pong (Scenario.connected [u16 "echo"]) Scenario.never
           [u16 "@mcp-alpha-echo"] [Scenario.user_message]
           Scenario.reassembly_stream Scenario.follow_up Hnever Hsome).
Defined.

(** ** What is saved in the memory *)

Lemma tool_result_line_of_result (P : Platform) (r : ToolResult) :
  tool_result_line (toolResultMessage P r)
  = u16 "[Tool " ++ result_tool_name r ++ u16 " Result: "
    ++ JSON_stringify P (output r) ++ u16 "]".
Proof. done. Qed.

Section Memory.
Variable P : Platform.
Variable settings : Settings.
Variable net : Providers.
Variable m : MCPClientManager.

(** X26. From the run to the memory. After a run that executed tools and
    returned a text, [handleResponse] saves one line for each result,
    with the name of its call and its output as JSON, before the reply,
    and forgets the results, so that the next exchange is saved without
    them; the message added to the chat is the reply alone. When the
    reply is empty or a new chat was started, nothing is saved or added
    and the results stay where they are. *)
Theorem tool_results_reach_memory (aborted : nat -> bool)
    (mentionedMCPTools : list jsstring) (messages : list Message)
    (chatStream : list Chunk) (followUpStream : list Message -> list Chunk)
    (userInput : jsstring) :
  let o := streamMultimodalResponse P settings net m aborted mentionedMCPTools
             messages chatStream followUpStream in
  let h := handleResponse (out_fullResponse o) userInput false
             (out_lastToolResults o) in
  (out_toolCalls o <> [] -> out_fullResponse o <> [] ->
   saved_context h
   = Some (userInput,
           join [LF]
             (map (fun r =>
                     u16 "[Tool " ++ result_tool_name r ++ u16 " Result: "
                     ++ JSON_stringify P (output r) ++ u16 "]")
                (out_toolResults o))
           ++ [LF; LF] ++ out_fullResponse o)
   /\ added_message h = Some (out_fullResponse o)
   /\ lastToolResults_after h = None
   /\ (forall next input',
         next <> [] ->
         saved_context (handleResponse next input' false
                          (lastToolResults_after h))
         = Some (input', next)))
  /\ (forall (new_chat : bool) (lastToolResults : option (list Message)),
        out_fullResponse o = [] \/ new_chat = true ->
        let h' := handleResponse (out_fullResponse o) userInput new_chat
                    lastToolResults in
        saved_context h' = None /\ added_message h' = None
        /\ lastToolResults_after h' = lastToolResults
        /\ returned h' = out_fullResponse o).
Proof.
  intros o h. split.
  - intros Hcalls Hreply.
    destruct (run_with_calls P settings net m aborted mentionedMCPTools
                messages chatStream followUpStream Hcalls)
      as (Hlen & Hlast & _).
    fold o in Hlen, Hlast.
    assert (h = handleResponse (out_fullResponse o) userInput false
                  (Some (map (toolResultMessage P) (out_toolResults o)))) as ->
      by (unfold h; by rewrite Hlast).
    destruct (out_toolResults o) as [|r rs] eqn:Hresults.
    { destruct (out_toolCalls o); [done | discriminate]. }
    unfold handleResponse at 1 2 3.
    destruct (out_fullResponse o) as [|c reply] eqn:Hreplied; [done |].
    cbn [truthy_str negb andb map saved_context added_message
           lastToolResults_after].
    split; [| split; [done | split; [done |]]].
    + by rewrite !tool_result_line_of_result, map_map.
    + intros next input' Hnext. unfold handleResponse.
      cbn [truthy_str negb andb map].
      by destruct next.
  - intros new_chat lastToolResults Hskip h'. unfold h', handleResponse.
    destruct Hskip as [-> | ->]; [done |].
    by rewrite andb_false_r.
Qed.
End Memory.

Lemma tool_results_reach_memory_witness :
  out_toolCalls (Samples.echo_run Scenario.follow_up) <> []
  /\ out_fullResponse (Samples.echo_run Scenario.follow_up) <> []
  /\ lastToolResults_after
       (handleResponse (out_fullResponse (Samples.echo_run Scenario.follow_up))
          (u16 "what is the weather") false
          (out_lastToolResults (Samples.echo_run Scenario.follow_up)))
     = None.
Proof.
  assert (out_toolCalls (Samples.echo_run Scenario.follow_up) <> []) as Hcalls
    by (vm_compute; discriminate).
  assert (out_fullResponse (Samples.echo_run Scenario.follow_up) <> [])
    as Hreply by (vm_compute; discriminate).
  split; [exact Hcalls |]. split; [exact Hreply |].
  apply (proj1 (proj2 (proj2 (proj1 (tool_results_reach_memory
           reference_platform (Scenario.settings_with []) Scenario.pong
           (Scenario.connected [u16 "echo"]) Scenario.never
           [u16 "@mcp-alpha-echo"] [Scenario.user_message]
           Scenario.reassembly_stream Scenario.follow_up
           (u16 "what is the weather")) Hcalls Hreply)))).
Defined.

(** ** Routing of a call *)

(** X27. A call is routed by its name alone: it goes to the first mentioned
    id in which the name occurs. When that id is enabled and decodes to
    a connected server, one request is sent for the tool the id
    decodes to, which need not be the tool of the name of the call,
    with the arguments of the call, and the result carries the id and
    the name of the call and the answer of the provider. *)
Theorem execute_one_routing (P : Platform) (settings : Settings)
    (net : Providers) (m : MCPClientManager)
    (mentionedMCPTools : list jsstring) (toolCall : BufferedCall) (n : nat)
    (sent : list ToolRequest) (mcpToolName serverName actualToolName : jsstring)
    (result : value) :
  well_formed_call toolCall ->
  List.find (fun name => includes name (call_name toolCall)) mentionedMCPTools
  = Some mcpToolName ->
  mcpToolName ∉ disabledTools settings ->
  match_tool_name mcpToolName = Some (serverName, actualToolName) ->
  isServerConnected m serverName = true ->
  net sent {| req_server := serverName; req_name := actualToolName;
              req_arguments := extract_tool_args toolCall |} = Ok result ->
  execute_one P settings net m mentionedMCPTools toolCall n sent
  = ({| tool_call_id := call_id toolCall;
        result_tool_name := call_name toolCall;
        output := result |},
     n,
     sent ++ [{| req_server := serverName; req_name := actualToolName;
                 req_arguments := extract_tool_args toolCall |}]).
Proof.
  intros [Hid Hname] Hfind Hen Hmatch Hconn Hnet. unfold execute_one.
  rewrite Hid, (str_or_truthy _ _ Hname), Hfind.
  unfold executeMCPTool. rewrite bool_decide_eq_false_2 by done.
  rewrite Hmatch, Hconn. cbn [negb]. unfold executeTool.
  apply has_get in Hconn as [client ->]. by rewrite Hnet.
Qed.

Lemma execute_one_routing_witness :
  well_formed_call Samples.echo_call
  /\ List.find (fun name => includes name (call_name Samples.echo_call))
       [u16 "@mcp-alpha-echo2"; u16 "@mcp-alpha-echo"]
     = Some (u16 "@mcp-alpha-echo2")
  /\ (u16 "@mcp-alpha-echo2" ∉ disabledTools (Scenario.settings_with []))
  /\ match_tool_name (u16 "@mcp-alpha-echo2") = Some (u16 "alpha", u16 "echo2")
  /\ isServerConnected (Scenario.connected [u16 "echo2"; u16 "echo"])
       (u16 "alpha") = true
  /\ Scenario.pong []
       {| req_server := u16 "alpha"; req_name := u16 "echo2";
          req_arguments := extract_tool_args Samples.echo_call |}
     = Ok (VStr (u16 "pong"))
  /\ execute_one reference_platform (Scenario.settings_with []) Scenario.pong
       (Scenario.connected [u16 "echo2"; u16 "echo"])
       [u16 "@mcp-alpha-echo2"; u16 "@mcp-alpha-echo"] Samples.echo_call 0 []
     = ({| tool_call_id := call_id Samples.echo_call;
           result_tool_name := call_name Samples.echo_call;
           output := VStr (u16 "pong") |},
        0%nat,
        [] ++ [{| req_server := u16 "alpha"; req_name := u16 "echo2";
                  req_arguments := extract_tool_args Samples.echo_call |}]).
Proof.
  assert (well_formed_call Samples.echo_call) as Hwf by (by split).
  assert (u16 "@mcp-alpha-echo2" ∉ disabledTools (Scenario.settings_with []))
    as Hen by by_compute.
  split; [exact Hwf |]. split; [reflexivity |]. split; [exact Hen |].
  split; [reflexivity |]. split; [reflexivity |]. split; [reflexivity |].
  apply (execute_one_routing reference_platform (Scenario.settings_with [])
           Scenario.pong (Scenario.connected [u16 "echo2"; u16 "echo"])
           [u16 "@mcp-alpha-echo2"; u16 "@mcp-alpha-echo"] Samples.echo_call
           0 [] (u16 "@mcp-alpha-echo2") (u16 "alpha") (u16 "echo2")
           (VStr (u16 "pong")) Hwf eq_refl Hen eq_refl eq_refl eq_refl).
Defined.

(** ** Mentions *)

Lemma split_nonempty (sep : jschar) (s : jsstring) : split sep s <> [].
Proof.
  induction s as [|c s IH]; cbn [split]; [done |].
  destruct (c =? sep); [done |]. by destruct (split sep s).
Qed.

Lemma join_cons (sep part : jsstring) (parts : list jsstring) :
  parts <> [] -> join sep (part :: parts) = part ++ sep ++ join sep parts.
Proof. by destruct parts. Qed.

Lemma join_split (sep : jschar) (s : jsstring) : join [sep] (split sep s) = s.
Proof.
  induction s as [|c s IH]; [done |]. cbn [split].
  destruct (N.eqb_spec c sep) as [->|Hne].
  - rewrite join_cons by apply split_nonempty. by rewrite IH.
  - pose proof (split_nonempty sep s) as Hs.
    destruct (split sep s) as [|word words]; [done |].
    destruct words as [|word' words].
    + cbn [join] in *. by rewrite IH.
    + rewrite join_cons by done. rewrite join_cons in IH by done.
      by rewrite <- IH.
Qed.

Section MentionFacts.
Variable toLowerCase : jsstring -> jsstring.

(** X28. Stripping leaves a message without mention as it is, up to its
    outer white space: when no word between single spaces is the name
    of a listed tool, case apart, the result is the trimmed message.
    This holds of every message while no tool is listed. *)
Theorem stripMCPMentions_no_mention (m : MCPClientManager)
    (message : jsstring) :
  (forall word t,
     In word (split SPACE message) -> In t (getAllMCPTools m) ->
     toLowerCase word <> toLowerCase (listed_name t)) ->
  stripMCPMentions toLowerCase m message = trim message.
Proof.
  intros Hnone. unfold stripMCPMentions. cbv zeta.
  rewrite filter_all; [by rewrite join_split |].
  intros word Hword. apply negb_true_iff, bool_decide_eq_false_2.
  rewrite list_elem_of_In, in_map_iff. intros [t [E Ht]].
  by apply (Hnone word t).
Qed.

Lemma get_In_NoDup {V} (k : jsstring) (v : V) (mp : JSMap.t jsstring V) :
  NoDup (JSMap.keys mp) -> In (k, v) mp -> JSMap.get k mp = Some v.
Proof.
  induction mp as [|[k0 v0] mp IH]; [done |].
  cbn [JSMap.keys map fst JSMap.get]. intros Hnd Hin.
  apply NoDup_cons in Hnd as [Hfresh Hnd].
  destruct Hin as [[= -> ->] | Hin].
  - by rewrite decide_True.
  - destruct (decide (k = k0)) as [->|Hne]; [| by apply IH].
    exfalso. apply Hfresh, list_elem_of_In.
    apply in_map_iff. by exists (k0, v).
Qed.

(** X29. The detected mentions are names of listed tools: a name is
    detected exactly when a listed tool bears it and it occurs in the
    message, case apart; it passes the test of MCP tool names, and in a
    catalog with one entry for each server it is the canonical id of a
    tool that the server it names has. *)
Theorem detectMCPTools_sound (m : MCPClientManager) (message name : jsstring) :
  (In name (detectMCPTools toLowerCase m message) <->
   exists t, In t (getAllMCPTools m) /\ listed_name t = name
             /\ includes (toLowerCase message) (toLowerCase name) = true)
  /\ (In name (detectMCPTools toLowerCase m message) ->
      isMCPTool name = true)
  /\ (NoDup (JSMap.keys (tools m)) ->
      In name (detectMCPTools toLowerCase m message) ->
      exists serverName tool,
        In tool (getServerTools m serverName)
        /\ name = canonical_id serverName (tool_name tool)).
Proof.
  assert (In name (detectMCPTools toLowerCase m message) <->
          exists t, In t (getAllMCPTools m) /\ listed_name t = name
                    /\ includes (toLowerCase message) (toLowerCase name) = true)
    as Hiff.
  { unfold detectMCPTools. rewrite in_map_iff. split.
    - intros [t [<- Ht]]. apply filter_In in Ht as [Ht Hinc]. by exists t.
    - intros (t & Ht & <- & Hinc). exists t. split; [done |].
      apply filter_In. done. }
  split; [exact Hiff |]. split.
  - intros Hin. apply Hiff in Hin as (t & Ht & <- & _).
    apply getAllMCPTools_In_iff in Ht as (ts & tool & _ & _ & -> & _).
    apply isMCPTool_canonical_id.
  - intros Hnd Hin. apply Hiff in Hin as (t & Ht & <- & _).
    apply getAllMCPTools_In_iff in Ht as (ts & tool & Hentry & Htool & -> & _).
    exists (listed_serverName t), tool. split; [| done].
    unfold getServerTools. by rewrite (get_In_NoDup _ _ _ Hnd Hentry).
Qed.
End MentionFacts.

Lemma stripMCPMentions_no_mention_witness :
  (forall word t,
     In word (split SPACE (u16 " is it warm ")) ->
     In t (getAllMCPTools (Scenario.connected [u16 "echo"])) ->
     (fun s : jsstring => s) word <> (fun s : jsstring => s) (listed_name t))
  /\ stripMCPMentions (fun s => s) (Scenario.connected [u16 "echo"])
       (u16 " is it warm ")
     = trim (u16 " is it warm ").
Proof.
  assert (forall word t,
     In word (split SPACE (u16 " is it warm ")) ->
     In t (getAllMCPTools (Scenario.connected [u16 "echo"])) ->
     (fun s : jsstring => s) word <> (fun s : jsstring => s) (listed_name t))
    as Hnone.
  { intros word t Hword [<- | []].
    vm_compute in Hword.
    repeat (destruct Hword as [<- | Hword]; [vm_compute; discriminate |]).
    destruct Hword. }
  split; [exact Hnone |].
  apply (stripMCPMentions_no_mention (fun s => s)
           (Scenario.connected [u16 "echo"]) (u16 " is it warm ") Hnone).
Defined.

Lemma detectMCPTools_sound_witness :
  In (u16 "@mcp-alpha-echo")
    (detectMCPTools (fun s => s) (Scenario.connected [u16 "echo"])
       (u16 "ask @mcp-alpha-echo, please"))
  /\ isMCPTool (u16 "@mcp-alpha-echo") = true.
Proof.
  assert (In (u16 "@mcp-alpha-echo")
            (detectMCPTools (fun s => s) (Scenario.connected [u16 "echo"])
               (u16 "ask @mcp-alpha-echo, please"))) as Hin
    by (left; reflexivity).
  split; [exact Hin |].
  apply (proj1 (proj2 (detectMCPTools_sound (fun s => s)
                         (Scenario.connected [u16 "echo"])
                         (u16 "ask @mcp-alpha-echo, please")
                         (u16 "@mcp-alpha-echo"))) Hin).
Defined.
